(** * The Rosenpass internal tunnel hub (containers/rosenpass/app.py)

    A shallow embedding of [RosenpassInternalVPN], of the Flask endpoints
    that read it and of the client VPN API, followed by the properties that
    were checked against it.

    Conventions.
    - [bytes] is Python's [bytes]; [pystr] is Python's [str], a sequence of
      code points.
    - A Python statement that may raise is a computation in the monad [M]:
      it returns, raises, or blocks for ever (a [recv] on a connection whose
      peer stays silent).  State changes made before an exception stay, as
      in Python.
    - The libraries the program calls (liboqs, cryptography, hashlib,
      base64, json, os.urandom) are the fields of the class [Lib]; the
      checks their constructors perform on key, nonce and tag sizes are
      written out.  What the peer of a connection does is an input: the
      results of the successive [recv] calls, and after how many [send]s
      the peer is gone.
    - A handler thread is run until it ends or blocks before the next
      connection is accepted.  The properties of single operations are
      stated for every state, so they hold under any interleaving of
      whole operations.
    - The client VPN API keeps its two dicts in a record that is passed
      from request to request; where a property speaks of the requests
      served so far, they are served one after the other. *)

From stdpp Require Import gmap strings list fin_maps pretty.
From Stdlib Require Import Strings.Byte NArith ZArith Lia.

Open Scope N_scope.

(** ** Bytes and text *)

Abbreviation bytes := (list byte).
Abbreviation pystr := (list N).

(** The byte with value [n], for [n < 256]. *)
Definition b8 (n : N) : byte := default "000"%byte (Byte.of_N n).

(** A string literal of the source: its ASCII characters as code points. *)
Fixpoint py (s : string) : pystr :=
  match s with
  | EmptyString => []
  | String a s' => Ascii.N_of_ascii a :: py s'
  end.

(** [b"..."] literals. *)
Fixpoint pyb (s : string) : bytes :=
  match s with
  | EmptyString => []
  | String a s' => Ascii.byte_of_ascii a :: pyb s'
  end.

Arguments py : simpl never.
Arguments pyb : simpl never.

(** *** str.encode() and bytes.decode(): UTF-8 *)

Definition is_surrogate (c : N) : bool := (0xD800 <=? c) && (c <=? 0xDFFF).

Definition utf8_encode_cp (c : N) : option bytes :=
  if c <? 0x80 then Some [b8 c]
  else if c <? 0x800 then
    Some [b8 (0xC0 + c / 64); b8 (0x80 + c mod 64)]
  else if c <? 0x10000 then
    if is_surrogate c then None
    else Some [b8 (0xE0 + c / 4096); b8 (0x80 + (c / 64) mod 64);
               b8 (0x80 + c mod 64)]
  else if c <? 0x110000 then
    Some [b8 (0xF0 + c / 262144); b8 (0x80 + (c / 4096) mod 64);
          b8 (0x80 + (c / 64) mod 64); b8 (0x80 + c mod 64)]
  else None.

(** [s.encode()]; [None] is UnicodeEncodeError. *)
Fixpoint str_encode (s : pystr) : option bytes :=
  match s with
  | [] => Some []
  | c :: s' =>
      match utf8_encode_cp c, str_encode s' with
      | Some e, Some r => Some (e ++ r)
      | _, _ => None
      end
  end.

(** The payload of a continuation byte 10xxxxxx. *)
Definition utf8_cont (b : byte) : option N :=
  let n := Byte.to_N b in
  if (0x80 <=? n) && (n <? 0xC0) then Some (n - 0x80) else None.

(** [b.decode()]; [None] is UnicodeDecodeError.  Overlong forms, surrogates
    and values above U+10FFFF are rejected. *)
Fixpoint bytes_decode (b : bytes) : option pystr :=
  match b with
  | [] => Some []
  | b0 :: r0 =>
      let n0 := Byte.to_N b0 in
      if n0 <? 0x80 then cons n0 <$> bytes_decode r0
      else if n0 <? 0xC2 then None
      else if n0 <? 0xE0 then
        match r0 with
        | b1 :: r1 =>
            match utf8_cont b1 with
            | Some c1 => cons ((n0 - 0xC0) * 64 + c1) <$> bytes_decode r1
            | None => None
            end
        | _ => None
        end
      else if n0 <? 0xF0 then
        match r0 with
        | b1 :: b2 :: r2 =>
            match utf8_cont b1, utf8_cont b2 with
            | Some c1, Some c2 =>
                let c := (n0 - 0xE0) * 4096 + c1 * 64 + c2 in
                if (c <? 0x800) || is_surrogate c then None
                else cons c <$> bytes_decode r2
            | _, _ => None
            end
        | _ => None
        end
      else if n0 <? 0xF5 then
        match r0 with
        | b1 :: b2 :: b3 :: r3 =>
            match utf8_cont b1, utf8_cont b2, utf8_cont b3 with
            | Some c1, Some c2, Some c3 =>
                let c := (n0 - 0xF0) * 262144 + c1 * 4096 + c2 * 64 + c3 in
                if (c <? 0x10000) || (0x110000 <=? c) then None
                else cons c <$> bytes_decode r3
            | _, _, _ => None
            end
        | _ => None
        end
      else None
  end.

(** Text that [encode] accepts: Unicode scalar values only. *)
Definition valid_text (s : pystr) : Prop :=
  Forall (fun c => c < 0x110000 /\ is_surrogate c = false) s.

Definition valid_textb (s : pystr) : bool :=
  forallb (fun c => (c <? 0x110000) && negb (is_surrogate c)) s.

(** *** The str methods the hub uses *)

(** [s.startswith(p)] *)
Fixpoint startswith (s p : pystr) : bool :=
  match p, s with
  | [], _ => true
  | c :: p', d :: s' => (c =? d) && startswith s' p'
  | _ :: _, [] => false
  end.

(** [s.split(sep, 1)] for a one-character separator: one piece when [sep]
    does not occur, two otherwise. *)
Fixpoint split_once (sep : N) (s : pystr) : list pystr :=
  match s with
  | [] => [[]]
  | c :: s' =>
      if c =? sep then [[]; s']
      else match split_once sep s' with
           | p :: ps => (c :: p) :: ps
           | [] => [[c]]
           end
  end.

(** [c.isspace()], the characters [strip()] removes. *)
Definition isspace (c : N) : bool :=
  ((0x09 <=? c) && (c <=? 0x0D)) || ((0x1C <=? c) && (c <=? 0x20))
  || (c =? 0x85) || (c =? 0xA0) || (c =? 0x1680)
  || ((0x2000 <=? c) && (c <=? 0x200A))
  || (c =? 0x2028) || (c =? 0x2029) || (c =? 0x202F) || (c =? 0x205F)
  || (c =? 0x3000).

Fixpoint lstrip (s : pystr) : pystr :=
  match s with
  | c :: s' => if isspace c then lstrip s' else s
  | [] => []
  end.

(** [s.strip()] *)
Definition strip (s : pystr) : pystr := rev (lstrip (rev (lstrip s))).

(** [str(n)] for an integer. *)
Definition str_of_int (n : Z) : pystr := py (pretty n).

(** ** JSON values, as json.loads and request.get_json() return them *)

#[warnings="-register-all"]
Inductive json :=
| JNull
| JBool (b : bool)
| JNum (n : Z)
| JStr (s : pystr)
| JArr (l : list json)
| JObj (kv : list (pystr * json)).

(** Lookup in a dict given by its items (the keys of a dict are distinct). *)
Fixpoint dict_lookup (k : pystr) (kv : list (pystr * json)) : option json :=
  match kv with
  | [] => None
  | (k', v) :: kv' => if decide (k = k') then Some v else dict_lookup k kv'
  end.

(** Python truth value: [None], [False], [0], [""], [[]] and [{}] are false. *)
Definition truthy (j : json) : bool :=
  match j with
  | JNull => false
  | JBool b => b
  | JNum n => negb (n =? 0)%Z
  | JStr s => negb (bool_decide (s = []))
  | JArr l => match l with [] => false | _ => true end
  | JObj kv => match kv with [] => false | _ => true end
  end.

(** ** The libraries *)

Class Lib := {
  (** [import oqs] succeeded *)
  QUANTUM_AVAILABLE : bool;
  (** [oqs.KeyEncapsulation(alg)] returns (it raises for an algorithm that
      is not enabled) *)
  oqs_KeyEncapsulation : pystr -> bool;
  (** [kem.generate_keypair()]: the public key, and the secret key the
      object keeps; [None] when it raises *)
  oqs_generate_keypair : pystr -> option (bytes * bytes);
  (** [kem.decap_secret(ciphertext)], from the algorithm and the secret key *)
  oqs_decap_secret : pystr -> bytes -> bytes -> option bytes;
  (** [hashlib.sha256(b).hexdigest()] *)
  sha256_hexdigest : bytes -> pystr;
  (** [base64.b64encode(b).decode()] *)
  b64encode : bytes -> pystr;
  (** [base64.b64decode(s)]; [None] is binascii.Error or ValueError *)
  b64decode : pystr -> option bytes;
  (** AES-GCM encryption of a plaintext under a key and a nonce: the
      ciphertext and the 16-byte tag *)
  gcm_seal : bytes -> bytes -> bytes -> bytes * bytes;
  (** AES-GCM decryption from key, nonce, tag and ciphertext; [None] is
      InvalidTag *)
  gcm_open : bytes -> bytes -> bytes -> bytes -> option bytes;
  (** [json.loads(s)]; [None] is JSONDecodeError *)
  json_loads : pystr -> option json;
  (** the bytes os.urandom hands out, in order *)
  os_entropy : nat -> byte;
}.

(** ** The state *)

(** A connected TCP socket as the hub sees it. *)
Record socket := {
  sock_closed : bool;            (** [close()] was called *)
  sock_sent : list bytes;        (** what [send] wrote, oldest first *)
  sock_quota : option nat;       (** [Some n]: the peer goes away after [n]
                                     more sends, and [send] raises from then
                                     on; [None]: it stays *)
}.

(** What [recv] returns on successive calls; [Recv []] is the end of the
    stream. *)
Inductive recv_event :=
| Recv (data : bytes)
| RecvError.

(** A value of [connected_services]. *)
Record service := {
  svc_socket : nat;
  svc_address : pystr * N;
  svc_connected_at : pystr;
  svc_encryption : pystr;
}.

(** The [oqs.KeyEncapsulation] object. *)
Record kem_object := {
  kem_alg : pystr;
  kem_secret_key : option bytes;
}.

(** The fields of [rosenpass_vpn], the sockets of the process, and how much
    of the entropy was used. *)
Record world := {
  kem : option kem_object;
  public_key : option bytes;
  secret_key : option bytes;
  shared_secrets : gmap pystr bytes;
  connected_services : gmap pystr service;
  tunnel_counter : nat;
  sockets : list socket;
  urandom_pos : nat;
}.

Definition kem_algorithm : pystr := py "Kyber768".

Definition set_kem (v : option kem_object) (w : world) : world :=
  {| kem := v; public_key := public_key w; secret_key := secret_key w;
     shared_secrets := shared_secrets w;
     connected_services := connected_services w;
     tunnel_counter := tunnel_counter w; sockets := sockets w;
     urandom_pos := urandom_pos w |}.

Definition set_public_key (v : option bytes) (w : world) : world :=
  {| kem := kem w; public_key := v; secret_key := secret_key w;
     shared_secrets := shared_secrets w;
     connected_services := connected_services w;
     tunnel_counter := tunnel_counter w; sockets := sockets w;
     urandom_pos := urandom_pos w |}.

Definition set_shared_secrets (f : gmap pystr bytes -> gmap pystr bytes)
    (w : world) : world :=
  {| kem := kem w; public_key := public_key w; secret_key := secret_key w;
     shared_secrets := f (shared_secrets w);
     connected_services := connected_services w;
     tunnel_counter := tunnel_counter w; sockets := sockets w;
     urandom_pos := urandom_pos w |}.

Definition set_connected_services
    (f : gmap pystr service -> gmap pystr service) (w : world) : world :=
  {| kem := kem w; public_key := public_key w; secret_key := secret_key w;
     shared_secrets := shared_secrets w;
     connected_services := f (connected_services w);
     tunnel_counter := tunnel_counter w; sockets := sockets w;
     urandom_pos := urandom_pos w |}.

Definition set_sockets (f : list socket -> list socket) (w : world) : world :=
  {| kem := kem w; public_key := public_key w; secret_key := secret_key w;
     shared_secrets := shared_secrets w;
     connected_services := connected_services w;
     tunnel_counter := tunnel_counter w; sockets := f (sockets w);
     urandom_pos := urandom_pos w |}.

Definition set_urandom_pos (f : nat -> nat) (w : world) : world :=
  {| kem := kem w; public_key := public_key w; secret_key := secret_key w;
     shared_secrets := shared_secrets w;
     connected_services := connected_services w;
     tunnel_counter := tunnel_counter w; sockets := sockets w;
     urandom_pos := f (urandom_pos w) |}.

(** ** Computations *)

Inductive outcome (A : Type) :=
| Ret (a : A)     (** the call returned [a] *)
| Raise           (** an exception left the call *)
| Block.          (** the call never returns *)
Arguments Ret {A} a.
Arguments Raise {A}.
Arguments Block {A}.

Definition M (A : Type) : Type := world -> outcome A * world.

Definition ret {A} (a : A) : M A := fun w => (Ret a, w).
Definition raise {A} : M A := fun w => (Raise, w).
Definition block {A} : M A := fun w => (Block, w).

Definition bind {A B} (m : M A) (k : A -> M B) : M B := fun w =>
  match m w with
  | (Ret a, w') => k a w'
  | (Raise, w') => (Raise, w')
  | (Block, w') => (Block, w')
  end.

Notation "x <- m ;; k" := (bind m (fun x => k))
  (at level 100, m at next level, right associativity).
Notation "m ;; k" := (bind m (fun _ => k))
  (at level 100, right associativity).

(** [try: m except Exception: h] *)
Definition try_except {A} (m h : M A) : M A := fun w =>
  match m w with
  | (Raise, w') => h w'
  | r => r
  end.

(** [try: m finally: f] *)
Definition try_finally {A} (m : M A) (f : M unit) : M A := fun w =>
  match m w with
  | (Ret a, w') => (f ;; ret a) w'
  | (Raise, w') => (f ;; raise) w'
  | (Block, w') => (Block, w')
  end.

(** A library call that raises where the model says [None]. *)
Definition lift {A} (o : option A) : M A :=
  match o with
  | Some a => ret a
  | None => raise
  end.

Definition gets {A} (f : world -> A) : M A := fun w => (Ret (f w), w).
Definition modify (f : world -> world) : M unit := fun w => (Ret tt, f w).

(** *** Sockets *)

Definition new_socket (quota : option nat) : socket :=
  {| sock_closed := false; sock_sent := []; sock_quota := quota |}.

(** [server_socket.accept()]: the new socket's descriptor. *)
Definition sock_accept (quota : option nat) : M nat := fun w =>
  (Ret (length (sockets w)), set_sockets (fun l => l ++ [new_socket quota]) w).

(** [sock.send(data)] *)
Definition sock_send (fd : nat) (data : bytes) : M unit := fun w =>
  match sockets w !! fd with
  | Some s =>
      if sock_closed s then (Raise, w)
      else match sock_quota s with
           | Some O => (Raise, w)
           | q =>
               (Ret tt,
                set_sockets
                  <[fd := {| sock_closed := false;
                             sock_sent := sock_sent s ++ [data];
                             sock_quota := pred <$> q |}]> w)
           end
  | None => (Raise, w)
  end.

(** [sock.close()] *)
Definition sock_close (fd : nat) : M unit :=
  modify (set_sockets (alter (fun s =>
    {| sock_closed := true; sock_sent := sock_sent s;
       sock_quota := sock_quota s |}) fd)).

(** [sock.recv(4096)], the next event of the connection. *)
Definition sock_recv (inbox : list recv_event) : M bytes :=
  match inbox with
  | [] => block
  | RecvError :: _ => raise
  | Recv data :: _ => ret data
  end.

(** [os.urandom(n)] *)
Definition os_urandom {L : Lib} (n : nat) : M bytes := fun w =>
  (Ret (os_entropy <$> seq (urandom_pos w) n),
   set_urandom_pos (fun p => (p + n)%nat) w).
(** ** class RosenpassInternalVPN *)

(** The line feed that ends a handshake line. *)
Definition LF : pystr := [10].

Section Hub.
Context {L : Lib}.

(** The state [__init__] sets up before it calls [_initialize_quantum_kem];
    the process has no sockets yet. *)
Definition fresh_world : world :=
  {| kem := None; public_key := None; secret_key := None;
     shared_secrets := ∅; connected_services := ∅; tunnel_counter := 0%nat;
     sockets := []; urandom_pos := 0%nat |}.

Definition _initialize_quantum_kem : M unit :=
  if negb QUANTUM_AVAILABLE then ret tt
  else
    try_except
      ((if oqs_KeyEncapsulation kem_algorithm then ret tt else raise) ;;
       modify (set_kem (Some {| kem_alg := kem_algorithm;
                                kem_secret_key := None |})) ;;
       kp <- lift (oqs_generate_keypair kem_algorithm) ;;
       modify (set_kem (Some {| kem_alg := kem_algorithm;
                                kem_secret_key := Some kp.2 |})) ;;
       modify (set_public_key (Some kp.1)))
      (ret tt).

(** [RosenpassInternalVPN()] *)
Definition __init__ : M unit := fun _ => _initialize_quantum_kem fresh_world.

(** [algorithms.AES(key)]: a key of 128, 192 or 256 bits. *)
Definition AES_key (key : bytes) : M unit :=
  if bool_decide (length key = 16 \/ length key = 24 \/ length key = 32)%nat
  then ret tt else raise.

(** [modes.GCM(iv, tag)]: a nonce of 8 to 128 bytes and, when a tag is
    given, one of at least 16 bytes. *)
Definition GCM_mode (iv : bytes) (tag : option bytes) : M unit :=
  if bool_decide (8 <= length iv <= 128)%nat then
    match tag with
    | Some t => if bool_decide (16 <= length t)%nat then ret tt else raise
    | None => ret tt
    end
  else raise.

Definition _encrypt_tunnel_message (message service_id : pystr)
    : M (option bytes) :=
  try_except
    (shared_secret <- gets (fun w => shared_secrets w !! service_id) ;;
     match shared_secret with
     | None | Some [] => ret None
     | Some shared_secret =>
         let encryption_key := take 32 shared_secret in
         iv <- os_urandom 16 ;;
         AES_key encryption_key ;;
         GCM_mode iv None ;;
         plaintext <- lift (str_encode message) ;;
         let '(ciphertext, tag) := gcm_seal encryption_key iv plaintext in
         ret (Some (iv ++ tag ++ ciphertext))
     end)
    (ret None).

Definition _decrypt_tunnel_message (encrypted_data : bytes)
    (service_id : pystr) : M (option pystr) :=
  try_except
    (shared_secret <- gets (fun w => shared_secrets w !! service_id) ;;
     match shared_secret with
     | None | Some [] => ret None
     | Some shared_secret =>
         let encryption_key := take 32 shared_secret in
         let iv := take 16 encrypted_data in
         let tag := take 16 (drop 16 encrypted_data) in
         let ciphertext := drop 32 encrypted_data in
         AES_key encryption_key ;;
         GCM_mode iv (Some tag) ;;
         plaintext <- lift (gcm_open encryption_key iv tag ciphertext) ;;
         message <- lift (bytes_decode plaintext) ;;
         ret (Some message)
     end)
    (ret None).

(** [msg_data.get(key)]: AttributeError unless [msg_data] is a dict. *)
Definition py_get (data : json) (key : string) : M json :=
  match data with
  | JObj kv => ret (default JNull (dict_lookup (py key) kv))
  | _ => raise
  end.

(** [target in self.connected_services], with the entry when it is there:
    TypeError for an unhashable target, and only a str equals a key. *)
Definition lookup_service (target : json) : M (option (pystr * service)) :=
  match target with
  | JArr _ | JObj _ => raise
  | JStr s => gets (fun w => pair s <$> connected_services w !! s)
  | _ => ret None
  end.

Definition _route_internal_message (message sender_service_id : pystr)
    : M unit :=
  try_except
    (msg_data <- lift (json_loads message) ;;
     target_service <- py_get msg_data "target_service" ;;
     found <- lookup_service target_service ;;
     match found with
     | Some (target_service, entry) =>
         let target_socket := svc_socket entry in
         encrypted_msg <- _encrypt_tunnel_message message target_service ;;
         match encrypted_msg with
         | Some (b :: encrypted_msg) =>
             sock_send target_socket (b :: encrypted_msg)
         | _ => ret tt
         end
     | None => ret tt
     end)
    (ret tt).

Definition _disconnect_service (service_id : pystr) : M unit :=
  modify (set_connected_services (delete service_id)) ;;
  modify (set_shared_secrets (delete service_id)).

(** The body of [while True] in [_handle_tunnel_messages], over what the
    later [recv] calls return. *)
Fixpoint tunnel_messages_loop (service_id : pystr)
    (inbox : list recv_event) : M unit :=
  match inbox with
  | [] => block
  | RecvError :: _ => raise
  | Recv [] :: _ => ret tt
  | Recv data :: inbox' =>
      decrypted_msg <- _decrypt_tunnel_message data service_id ;;
      match decrypted_msg with
      | Some (c :: msg) => _route_internal_message (c :: msg) service_id
      | _ => ret tt
      end ;;
      tunnel_messages_loop service_id inbox'
  end.

Definition _handle_tunnel_messages (client_socket : nat)
    (service_id : pystr) (inbox : list recv_event) : M unit :=
  try_finally
    (try_except (tunnel_messages_loop service_id inbox) (ret tt))
    (_disconnect_service service_id ;; sock_close client_socket).

(** [self.shared_secrets[service_id] = shared_secret] *)
Definition store_shared_secret (service_id : pystr) (shared_secret : bytes)
    : M unit :=
  modify (set_shared_secrets <[service_id := shared_secret]>).

(** [self.kem.decap_secret(ciphertext)]: AttributeError when [self.kem] is
    [None]. *)
Definition kem_decap_secret (ciphertext : bytes) : M bytes :=
  kem <- gets kem ;;
  kem <- lift kem ;;
  sk <- lift (kem_secret_key kem) ;;
  lift (oqs_decap_secret (kem_alg kem) sk ciphertext).

Definition _perform_key_exchange (client_socket : nat)
    (inbox : list recv_event) : M (option pystr) :=
  try_except
    (pk <- (public_key <- gets public_key ;; lift public_key) ;;
     let public_key_b64 := b64encode pk in
     hello <- lift (str_encode (py "PUB_KEY:" ++ public_key_b64 ++ LF)) ;;
     sock_send client_socket hello ;;
     data <- sock_recv inbox ;;
     response <- lift (bytes_decode data) ;;
     if startswith response (py "ENCAP_SECRET:") then
       encap_secret_b64 <- lift (strip <$> split_once 58 response !! 1%nat) ;;
       encapsulated_secret <- lift (b64decode encap_secret_b64) ;;
       shared_secret <- kem_decap_secret encapsulated_secret ;;
       let service_id := take 16 (sha256_hexdigest shared_secret) in
       store_shared_secret service_id shared_secret ;;
       confirm <- lift (str_encode (py "CONNECTED:" ++ service_id ++ LF)) ;;
       sock_send client_socket confirm ;;
       ret (Some service_id)
     else ret None)
    (ret None).

(** [self.connected_services[service_id] = {...}] *)
Definition register_service (service_id : pystr) (client_socket : nat)
    (address : pystr * N) (utcnow : pystr) : M unit :=
  modify (set_connected_services
    <[service_id := {| svc_socket := client_socket;
                       svc_address := address;
                       svc_connected_at := utcnow;
                       svc_encryption := py "ML-KEM-768" |}]>).

(** [inbox] is what [recv] returns on this connection, call after call;
    [utcnow] is [datetime.utcnow().isoformat()] at registration. *)
Definition _handle_tunnel_connection (client_socket : nat)
    (address : pystr * N) (utcnow : pystr) (inbox : list recv_event)
    : M unit :=
  try_except
    (service_id <- _perform_key_exchange client_socket inbox ;;
     match service_id with
     | Some (c :: sid) =>
         let service_id := c :: sid in
         register_service service_id client_socket address utcnow ;;
         _handle_tunnel_messages client_socket service_id (tail inbox)
     | _ => sock_close client_socket
     end)
    (sock_close client_socket).

(** *** The listener *)

(** A connection that arrives: the peer's address and what the peer does. *)
Record connection := {
  conn_address : pystr * N;
  conn_quota : option nat;
  conn_inbox : list recv_event;
  conn_time : pystr;
}.

(** [threading.Thread(target=m).start()], the thread run until it ends or
    blocks: how it stands. *)
Definition spawn (m : M unit) : M (outcome unit) := fun w =>
  let '(o, w') := m w in (Ret o, w').

(** The [while True] of [tunnel_server] over the connections that arrive:
    the handler threads it started.  After the last one the server waits in
    [accept()]. *)
Fixpoint accept_loop (incoming : list connection) : M (list (outcome unit)) :=
  match incoming with
  | [] => ret []
  | c :: incoming' =>
      client_socket <- sock_accept (conn_quota c) ;;
      t <- spawn (_handle_tunnel_connection client_socket (conn_address c)
                    (conn_time c) (conn_inbox c)) ;;
      ts <- accept_loop incoming' ;;
      ret (t :: ts)
  end.

(** [_start_tunnel_server]; [listening] is false when creating, binding or
    listening on the server socket raises, which ends the server thread. *)
Definition _start_tunnel_server (listening : bool)
    (incoming : list connection) : M (list (outcome unit)) :=
  if listening then accept_loop incoming else ret [].

(** ** The Flask endpoints *)

(** [jsonify(body), status]; [Error500] is
    [jsonify({'error': str(e)}), 500], the text of the exception left out. *)
Inductive response :=
| Jsonify (status : nat) (body : json)
| Error500.

Definition health_check (utcnow : pystr) : M response :=
  n <- gets (fun w => size (connected_services w)) ;;
  ret (Jsonify 200 (JObj [
    (py "status", JStr (py "healthy"));
    (py "service", JStr (py "rosenpass-internal-vpn"));
    (py "algorithm", JStr kem_algorithm);
    (py "real_quantum_crypto", JBool QUANTUM_AVAILABLE);
    (py "quantum_library",
       JStr (if QUANTUM_AVAILABLE then py "liboqs-python" else py "fallback"));
    (py "nist_level", JNum 3);
    (py "connected_services", JNum (Z.of_nat n));
    (py "timestamp", JStr utcnow)])).

(** [time_time] is [time.time()], in whole seconds. *)
Definition get_stats (time_time : Z) : M response :=
  n <- gets (fun w => size (connected_services w)) ;;
  k <- gets (fun w => size (shared_secrets w)) ;;
  ret (Jsonify 200 (JObj [
    (py "connected_services", JNum (Z.of_nat n));
    (py "active_tunnels", JNum (Z.of_nat k));
    (py "encryption_algorithm", JStr kem_algorithm);
    (py "tunnel_type", JStr (py "internal_service_communication"));
    (py "uptime", JNum time_time);
    (py "status", JStr (py "active"))])).

(** [request_json] is what [request.get_json()] returns, [None] when it
    raises. *)
Definition send_internal_message (request_json : option json)
    (time_time : Z) : M response :=
  try_except
    (data <- lift request_json ;;
     sender <- py_get data "sender" ;;
     target <- py_get data "target" ;;
     message <- py_get data "message" ;;
     if negb (forallb truthy [sender; target; message]) then
       ret (Jsonify 400 (JObj [
         (py "error", JStr (py "Missing sender, target, or message"))]))
     else
       ret (Jsonify 200 (JObj [
         (py "status", JStr (py "message_sent"));
         (py "tunnel_id", JStr (py "tunnel_" ++ str_of_int time_time));
         (py "encryption", JStr (py "ML-KEM-768"))])))
    (ret Error500).

End Hub.
(** ** Notions the properties are stated with *)

Section Notions.
Context {L : Lib}.

(** The target a message names, when it is a JSON object whose
    [target_service] is a string. *)
Definition routed_target (message : pystr) : option pystr :=
  match json_loads message with
  | Some (JObj kv) =>
      match dict_lookup (py "target_service") kv with
      | Some (JStr t) => Some t
      | _ => None
      end
  | _ => None
  end.

(** A computation keeps [R] between the state it starts in and the state
    it leaves, however it ends. *)
Definition preserves (R : relation world) {A} (m : M A) : Prop :=
  forall w, R w (m w).2.

(** What a computation returns, when it returns. *)
Definition returns {A} (Q : A -> Prop) (m : M A) : Prop :=
  forall w a w', m w = (Ret a, w') -> Q a.

(** Every shared secret on record has the 32 bytes of an ML-KEM secret. *)
Definition secrets_wf (w : world) : Prop :=
  forall sid s, shared_secrets w !! sid = Some s -> length s = 32%nat.

(** The sockets other than [fd] are open or closed as they were, and no
    socket appeared or went. *)
Definition closed_elsewhere (fd : nat) (w w' : world) : Prop :=
  length (sockets w') = length (sockets w)
  /\ forall fd', fd' <> fd ->
       sock_closed <$> sockets w' !! fd' = sock_closed <$> sockets w !! fd'.


(** [__init__], then the tunnel server over the connections that arrive. *)
Definition hub_run (incoming : list connection) : M (list (outcome unit)) :=
  __init__ ;; _start_tunnel_server true incoming.

(** The KEM object and the public key are as they were. *)
Definition keys_kept (w w' : world) : Prop :=
  kem w' = kem w /\ public_key w' = public_key w.

(** What the hub relies on from liboqs and cryptography: an ML-KEM shared
    secret has 32 bytes, a GCM tag has 16, and decryption under the key and
    nonce of the encryption gives the plaintext back. *)
Class LibLaws := {
  decap_secret_length alg sk ct s :
    oqs_decap_secret alg sk ct = Some s -> length s = 32%nat;
  gcm_tag_length key iv pt : length (gcm_seal key iv pt).2 = 16%nat;
  gcm_open_seal key iv pt :
    (length key = 16 \/ length key = 24 \/ length key = 32)%nat ->
    (8 <= length iv <= 128)%nat ->
    gcm_open key iv (gcm_seal key iv pt).2 (gcm_seal key iv pt).1 = Some pt;
}.

End Notions.

Arguments LibLaws : clear implicits.

(** A frame carries a [width]-byte length prefix, big- or little-endian,
    that counts the bytes after it. *)
Definition be_uint (b : bytes) : N :=
  fold_left (fun acc x => acc * 256 + Byte.to_N x) b 0.

Definition length_prefixed (width : nat) (frame : bytes) : Prop :=
  (0 < width <= length frame)%nat
  /\ (be_uint (take width frame) = N.of_nat (length (drop width frame))
      \/ be_uint (rev (take width frame))
         = N.of_nat (length (drop width frame))).


(** ** More notions *)

(** An event that ends the read loop: the end of the stream or an error. *)
Definition ends_stream (e : recv_event) : Prop := e = Recv [] \/ e = RecvError.

(** The registry, the secrets and the keys are as they were. *)
Definition registry_kept (w w' : world) : Prop :=
  connected_services w' = connected_services w
  /\ shared_secrets w' = shared_secrets w
  /\ kem w' = kem w /\ public_key w' = public_key w.

(** No socket was opened or closed. *)
Definition sockets_kept (w w' : world) : Prop :=
  length (sockets w') = length (sockets w)
  /\ forall fd, sock_closed <$> sockets w' !! fd
                = sock_closed <$> sockets w !! fd.

(** What a hub that refused every connection looks like. *)
Definition all_refused (w : world) : Prop :=
  public_key w = None /\ connected_services w = ∅ /\ shared_secrets w = ∅
  /\ Forall (fun s => sock_closed s = true /\ sock_sent s = []) (sockets w).

(** Every secret on record is filed under the service id derived from it:
    the first 16 hex digits of its SHA-256. *)
Definition ids_derived {L : Lib} (w : world) : Prop :=
  forall sid s, shared_secrets w !! sid = Some s ->
                sid = take 16 (sha256_hexdigest s).
(** ** An executable instance of the libraries

    Used to run the hub on concrete traces.  base64 and the JSON reader
    follow the real libraries on the inputs they accept (the JSON reader
    knows no escapes and no fractions); the KEM, the digest and the cipher
    are small stand-ins with the interface and the size conventions of
    ML-KEM-768, SHA-256 and AES-GCM. *)

Module Demo.

#[local] Instance byte_eq_dec : EqDecision byte := Byte.byte_eq_dec.

(** *** base64 *)

Definition b64_char (n : N) : N :=
  if n <? 26 then 65 + n
  else if n <? 52 then 97 + (n - 26)
  else if n <? 62 then 48 + (n - 52)
  else if n =? 62 then 43 else 47.

Fixpoint b64encode (b : bytes) : pystr :=
  match b with
  | [] => []
  | [x] =>
      let x := Byte.to_N x in
      [b64_char (x / 4); b64_char (x mod 4 * 16); 61; 61]
  | [x; y] =>
      let x := Byte.to_N x in
      let y := Byte.to_N y in
      [b64_char (x / 4); b64_char (x mod 4 * 16 + y / 16);
       b64_char (y mod 16 * 4); 61]
  | x :: y :: z :: r =>
      let x := Byte.to_N x in
      let y := Byte.to_N y in
      let z := Byte.to_N z in
      b64_char (x / 4) :: b64_char (x mod 4 * 16 + y / 16)
      :: b64_char (y mod 16 * 4 + z / 64) :: b64_char (z mod 64)
      :: b64encode r
  end.

Definition b64_val (c : N) : option N :=
  if (65 <=? c) && (c <=? 90) then Some (c - 65)
  else if (97 <=? c) && (c <=? 122) then Some (c - 97 + 26)
  else if (48 <=? c) && (c <=? 57) then Some (c - 48 + 52)
  else if c =? 43 then Some 62
  else if c =? 47 then Some 63
  else None.

(** The lenient reader of binascii.a2b_base64: characters outside the
    alphabet are skipped, padding ends the data, and a dangling quantum is
    an error. *)
Fixpoint a2b_base64 (s : pystr) (quad_pos : nat) (leftchar : N) (pads : nat)
    (out : bytes) : option bytes :=
  match s with
  | [] => if (quad_pos =? 0)%nat then Some out else None
  | c :: s' =>
      if c =? 61 then
        if (2 <=? quad_pos)%nat then
          if (4 <=? quad_pos + S pads)%nat then Some out
          else a2b_base64 s' quad_pos leftchar (S pads) out
        else a2b_base64 s' quad_pos leftchar pads out
      else
        match b64_val c with
        | None => a2b_base64 s' quad_pos leftchar pads out
        | Some v =>
            match quad_pos with
            | 0%nat => a2b_base64 s' 1%nat v 0%nat out
            | 1%nat =>
                a2b_base64 s' 2%nat (v mod 16) 0%nat
                  (out ++ [b8 (leftchar * 4 + v / 16)])
            | 2%nat =>
                a2b_base64 s' 3%nat (v mod 4) 0%nat
                  (out ++ [b8 (leftchar * 16 + v / 4)])
            | _ =>
                a2b_base64 s' 0%nat 0 0%nat (out ++ [b8 (leftchar * 64 + v)])
            end
        end
  end.

Definition b64decode (s : pystr) : option bytes :=
  if forallb (fun c => c <? 128) s then a2b_base64 s 0%nat 0 0%nat []
  else None.

(** *** JSON *)

Fixpoint skip_ws (s : pystr) : pystr :=
  match s with
  | c :: s' =>
      if (c =? 32) || (c =? 9) || (c =? 10) || (c =? 13) then skip_ws s'
      else s
  | [] => []
  end.

(** After the opening quote: the string and what follows its closing
    quote. *)
Fixpoint parse_string (s : pystr) : option (pystr * pystr) :=
  match s with
  | [] => None
  | c :: s' =>
      if c =? 34 then Some ([], s')
      else if (c =? 92) || (c <? 32) then None
      else match parse_string s' with
           | Some (str, rest) => Some (c :: str, rest)
           | None => None
           end
  end.

Fixpoint parse_digits (s : pystr) (acc : Z) : Z * pystr :=
  match s with
  | c :: s' =>
      if (48 <=? c) && (c <=? 57)
      then parse_digits s' (10 * acc + Z.of_N (c - 48))%Z
      else (acc, s)
  | [] => (acc, [])
  end.

Definition is_digit (c : N) : bool := (48 <=? c) && (c <=? 57).

Definition parse_int (s : pystr) : option (Z * pystr) :=
  match s with
  | 48 :: r =>
      match r with
      | c :: _ => if is_digit c || (c =? 46) || (c =? 101) || (c =? 69)
                  then None else Some (0%Z, r)
      | [] => Some (0%Z, r)
      end
  | c :: _ =>
      if is_digit c then
        let '(n, r) := parse_digits s 0%Z in
        match r with
        | d :: _ => if (d =? 46) || (d =? 101) || (d =? 69)
                    then None else Some (n, r)
        | [] => Some (n, r)
        end
      else None
  | [] => None
  end.

(** [d[k] = v] on the items of a dict. *)
Fixpoint dict_set (k : pystr) (v : json) (kv : list (pystr * json))
    : list (pystr * json) :=
  match kv with
  | [] => [(k, v)]
  | (k', v') :: kv' =>
      if decide (k = k') then (k, v) :: kv' else (k', v') :: dict_set k v kv'
  end.

Fixpoint parse_value (fuel : nat) (s : pystr) : option (json * pystr) :=
  match fuel with
  | O => None
  | S fuel =>
      match skip_ws s with
      | 110 :: 117 :: 108 :: 108 :: r => Some (JNull, r)
      | 116 :: 114 :: 117 :: 101 :: r => Some (JBool true, r)
      | 102 :: 97 :: 108 :: 115 :: 101 :: r => Some (JBool false, r)
      | 34 :: r =>
          match parse_string r with
          | Some (str, r') => Some (JStr str, r')
          | None => None
          end
      | 91 :: r =>
          match skip_ws r with
          | 93 :: r' => Some (JArr [], r')
          | _ =>
              match parse_elements fuel r [] with
              | Some (l, r') => Some (JArr l, r')
              | None => None
              end
          end
      | 123 :: r =>
          match skip_ws r with
          | 125 :: r' => Some (JObj [], r')
          | _ =>
              match parse_members fuel r [] with
              | Some (kv, r') => Some (JObj kv, r')
              | None => None
              end
          end
      | 45 :: r =>
          match parse_int r with
          | Some (n, r') => Some (JNum (- n), r')
          | None => None
          end
      | s' =>
          match parse_int s' with
          | Some (n, r') => Some (JNum n, r')
          | None => None
          end
      end
  end
with parse_elements (fuel : nat) (s : pystr) (acc : list json)
    : option (list json * pystr) :=
  match fuel with
  | O => None
  | S fuel =>
      match parse_value fuel s with
      | Some (v, r) =>
          match skip_ws r with
          | 44 :: r' => parse_elements fuel r' (acc ++ [v])
          | 93 :: r' => Some (acc ++ [v], r')
          | _ => None
          end
      | None => None
      end
  end
with parse_members (fuel : nat) (s : pystr) (acc : list (pystr * json))
    : option (list (pystr * json) * pystr) :=
  match fuel with
  | O => None
  | S fuel =>
      match skip_ws s with
      | 34 :: r =>
          match parse_string r with
          | Some (k, r1) =>
              match skip_ws r1 with
              | 58 :: r2 =>
                  match parse_value fuel r2 with
                  | Some (v, r3) =>
                      match skip_ws r3 with
                      | 44 :: r4 => parse_members fuel r4 (dict_set k v acc)
                      | 125 :: r4 => Some (dict_set k v acc, r4)
                      | _ => None
                      end
                  | None => None
                  end
              | _ => None
              end
          | None => None
          end
      | _ => None
      end
  end.

(** A JSON text, written with ['] where the text has the double quote. *)
Definition jsontext (s : string) : pystr :=
  (fun c => if c =? 39 then 34 else c) <$> py s.

Definition json_loads (s : pystr) : option json :=
  match parse_value (2 * length s + 2) s with
  | Some (v, r) => match skip_ws r with [] => Some v | _ => None end
  | None => None
  end.

(** *** Stand-ins for the digest, the KEM and the cipher *)

Definition hex_digit (n : N) : N := if n <? 10 then 48 + n else 87 + n.

Definition hexlify (b : bytes) : pystr :=
  flat_map (fun x => [hex_digit (Byte.to_N x / 16);
                      hex_digit (Byte.to_N x mod 16)]) b.

(** A 32-byte checksum. *)
Definition digest32 (b : bytes) : bytes :=
  (fun i =>
     let i := N.of_nat i in
     b8 (fold_left (fun acc x => (acc * 131 + Byte.to_N x + 7 * i + 1)
                                 mod 65521)
           b (i * i + 17) mod 256))
  <$> seq 0 32.

Definition sha256_hexdigest (b : bytes) : pystr := hexlify (digest32 b).

Definition kem_public_key : bytes := pyb "demo-kem-public-key".
Definition kem_private_key : bytes := pyb "demo-kem-secret-key".

(** Ciphertexts are 8 bytes long; the shared secret has 32 bytes. *)
Definition decap_secret (alg : pystr) (sk ct : bytes) : option bytes :=
  if (length ct =? 8)%nat then Some (digest32 (sk ++ ct)) else None.

Definition pad (key iv : bytes) : N :=
  Byte.to_N (hd "000"%byte (digest32 (key ++ iv))).

Definition gcm_tag (key iv ct : bytes) : bytes :=
  take 16 (digest32 (key ++ iv ++ ct)).

Definition gcm_seal (key iv pt : bytes) : bytes * bytes :=
  let ct := (fun p => b8 ((Byte.to_N p + pad key iv) mod 256)) <$> pt in
  (ct, gcm_tag key iv ct).

Definition gcm_open (key iv tag ct : bytes) : option bytes :=
  if decide (tag = gcm_tag key iv ct)
  then Some ((fun c => b8 ((Byte.to_N c + 256 - pad key iv) mod 256)) <$> ct)
  else None.

Definition os_entropy (i : nat) : byte := b8 ((7 * N.of_nat i + 3) mod 256).

Definition lib (quantum_available : bool) : Lib :=
  Build_Lib quantum_available
    (fun alg => bool_decide (alg = py "Kyber768"))
    (fun _ => Some (kem_public_key, kem_private_key))
    decap_secret sha256_hexdigest b64encode b64decode gcm_seal gcm_open
    json_loads os_entropy.

End Demo.

Abbreviation jsontext := Demo.jsontext.

(** ** The endpoints that hand out the public key *)

Section KeyEndpoints.
Context {L : Lib}.

(** What /status shows of a registered service. *)
Definition service_summary (info : service) : json :=
  JObj [(py "address", JStr (svc_address info).1);
        (py "connected_at", JStr (svc_connected_at info));
        (py "encryption", JStr (svc_encryption info))].

(** [tunnel_status] has no handler of its own: an exception leaves the
    view.  [base64.b64encode(None)] is a TypeError. *)
Definition tunnel_status : M response :=
  connected <- gets (fun w =>
                 map_to_list (service_summary <$> connected_services w)) ;;
  n <- gets (fun w => size (connected_services w)) ;;
  pk <- (public_key <- gets public_key ;; lift public_key) ;;
  ret (Jsonify 200 (JObj [
    (py "tunnel_type", JStr (py "rosenpass_internal_vpn"));
    (py "encryption_algorithm", JStr (py "ML-KEM-768"));
    (py "connected_services", JObj connected);
    (py "total_connections", JNum (Z.of_nat n));
    (py "public_key", JStr (b64encode pk));
    (py "status", JStr (py "active"))])).

Definition connect_service (request_json : option json) (time_time : Z)
    : M response :=
  try_except
    (data <- lift request_json ;;
     service_name <- py_get data "service_name" ;;
     if negb (truthy service_name) then
       ret (Jsonify 400 (JObj [(py "error", JStr (py "Missing service_name"))]))
     else
       pk <- (public_key <- gets public_key ;; lift public_key) ;;
       let connection_info := JObj [
         (py "tunnel_endpoint", JStr (py "rosenpass-service:9000"));
         (py "public_key", JStr (b64encode pk));
         (py "protocol", JStr (py "ML-KEM-768"));
         (py "connection_id", JStr (py "conn_" ++ str_of_int time_time))] in
       ret (Jsonify 200 (JObj [
         (py "status", JStr (py "connection_info_provided"));
         (py "connection_info", connection_info)])))
    (ret Error500).

End KeyEndpoints.

(** ** The client VPN API *)

(** The module's two dicts, [client_vpn_configs] and [client_vpn_status]. *)
Record admin := {
  client_vpn_configs : gmap pystr json;
  client_vpn_status : gmap pystr json;
}.

Definition no_clients : admin :=
  {| client_vpn_configs := ∅; client_vpn_status := ∅ |}.

(** [data.get(key, d)]: AttributeError unless [data] is a dict. *)
Definition py_get_default (data : json) (key : string) (d : json) : M json :=
  match data with
  | JObj kv => ret (default d (dict_lookup (py key) kv))
  | _ => raise
  end.

(** [d[key]]: KeyError when the key is missing, TypeError when [d] is not a
    dict. *)
Definition py_item (d : json) (key : string) : option json :=
  match d with
  | JObj kv => dict_lookup (py key) kv
  | _ => None
  end.

(** [d.update(items)] on the items of a dict. *)
Definition dict_update (kv items : list (pystr * json))
    : list (pystr * json) :=
  fold_left (fun kv item => Demo.dict_set item.1 item.2 kv) items kv.

(** [s.replace(old, new)] for a non-empty [old]; [skip] characters of [s]
    belong to the occurrence just replaced. *)
Fixpoint replace_from (old new : pystr) (skip : nat) (s : pystr) : pystr :=
  match s with
  | [] => []
  | c :: s' =>
      match skip with
      | S k => replace_from old new k s'
      | O =>
          if startswith s old
          then new ++ replace_from old new (length old - 1) s'
          else c :: replace_from old new 0 s'
      end
  end.

Definition str_replace (s old new : pystr) : pystr := replace_from old new 0 s.

(** [v == 'text'] *)
Definition is_str (v : json) (text : string) : bool :=
  match v with
  | JStr s => bool_decide (s = py text)
  | _ => false
  end.

Definition not_found : response :=
  Jsonify 404 (JObj [(py "error", JStr (py "VPN configuration not found"))]).

Section ClientVpn.
Context {L : Lib}.

(** [repr(v)] of a list or a dict, which is left to the interpreter. *)
Variable py_repr : json -> pystr.

(** [str(v)], what an f-string puts for [{v}]. *)
Definition py_str (v : json) : pystr :=
  match v with
  | JStr s => s
  | JNum n => str_of_int n
  | JBool true => py "True"
  | JBool false => py "False"
  | JNull => py "None"
  | JArr _ | JObj _ => py_repr v
  end.

(** [utcnow] is [datetime.utcnow().isoformat()].  The two dicts are written
    after the last statement that can raise. *)
Definition generate_client_vpn_config (client_id : pystr)
    (request_json : option json) (utcnow : pystr) (a : admin)
    : M (response * admin) :=
  try_except
    (data <- lift request_json ;;
     client_network <- py_get_default data "client_network"
                         (JStr (py "10.8.0.0/24")) ;;
     protection_level <- py_get_default data "protection_level"
                           (JStr (py "standard")) ;;
     keys <- (if QUANTUM_AVAILABLE then
                client <- os_urandom 32 ;;
                server <- os_urandom 32 ;;
                ret (b64encode client, b64encode server)
              else
                client <- os_urandom 16 ;;
                server <- os_urandom 16 ;;
                ret (b64encode (pyb "fallback_client_key_" ++ client),
                     b64encode (pyb "fallback_server_key_" ++ server))) ;;
     let client_private_key := keys.1 in
     let server_public_key := keys.2 in
     let client_endpoint :=
       str_replace client_id (py "client_") []
       ++ py ".vpn.kybershield.ai:51820" in
     let vpn_config := JObj [
       (py "client_id", JStr client_id);
       (py "interface", JObj [
          (py "PrivateKey", JStr client_private_key);
          (py "Address",
             JStr (py "10.8."
                   ++ str_of_int
                        (Z.of_nat (size (client_vpn_configs a)) + 1)
                   ++ py ".2/24"));
          (py "DNS", JStr (py "1.1.1.1, 8.8.8.8"))]);
       (py "peer", JObj [
          (py "PublicKey", JStr server_public_key);
          (py "Endpoint", JStr client_endpoint);
          (py "AllowedIPs", JStr (py "0.0.0.0/0"));
          (py "PersistentKeepalive", JNum 25)]);
       (py "quantum_protection", JObj [
          (py "algorithm",
             JStr (if QUANTUM_AVAILABLE then py "ML-KEM-768"
                   else py "fallback"));
          (py "enabled", JBool QUANTUM_AVAILABLE);
          (py "protection_level", protection_level)]);
       (py "generated_at", JStr utcnow)] in
     let status := JObj [
       (py "status", JStr (py "configured"));
       (py "connected", JBool false);
       (py "last_handshake", JNull);
       (py "bytes_transferred", JNum 0)] in
     ret (Jsonify 201 (JObj [
            (py "client_id", JStr client_id);
            (py "vpn_endpoint", JStr client_endpoint);
            (py "quantum_protection", JBool QUANTUM_AVAILABLE);
            (py "status", JStr (py "generated"))]),
          {| client_vpn_configs :=
               <[client_id := vpn_config]> (client_vpn_configs a);
             client_vpn_status :=
               <[client_id := status]> (client_vpn_status a) |}))
    (ret (Error500, a)).

(** The text of the WireGuard file. *)
Definition vpn_config_file (private_key address dns public_key endpoint
    allowed_ips keepalive algorithm protection_level generated_at : json)
    : pystr :=
  py "[Interface]" ++ LF
  ++ py "PrivateKey = " ++ py_str private_key ++ LF
  ++ py "Address = " ++ py_str address ++ LF
  ++ py "DNS = " ++ py_str dns ++ LF
  ++ LF
  ++ py "[Peer]" ++ LF
  ++ py "PublicKey = " ++ py_str public_key ++ LF
  ++ py "Endpoint = " ++ py_str endpoint ++ LF
  ++ py "AllowedIPs = " ++ py_str allowed_ips ++ LF
  ++ py "PersistentKeepalive = " ++ py_str keepalive ++ LF
  ++ LF
  ++ py "# KyberShield Quantum Protection" ++ LF
  ++ py "# Algorithm: " ++ py_str algorithm ++ LF
  ++ py "# Protection Level: " ++ py_str protection_level ++ LF
  ++ py "# Generated: " ++ py_str generated_at ++ LF.

(** The view changes nothing; a lookup that raises gives the 500. *)
Definition download_client_vpn_config (client_id : pystr) (a : admin)
    : response :=
  match client_vpn_configs a !! client_id with
  | None => not_found
  | Some config =>
      default Error500
        (interface ← py_item config "interface";
         private_key ← py_item interface "PrivateKey";
         address ← py_item interface "Address";
         dns ← py_item interface "DNS";
         peer ← py_item config "peer";
         public_key ← py_item peer "PublicKey";
         endpoint ← py_item peer "Endpoint";
         allowed_ips ← py_item peer "AllowedIPs";
         keepalive ← py_item peer "PersistentKeepalive";
         quantum_protection ← py_item config "quantum_protection";
         algorithm ← py_item quantum_protection "algorithm";
         protection_level ← py_item quantum_protection "protection_level";
         generated_at ← py_item config "generated_at";
         Some (Jsonify 200 (JObj [
           (py "client_id", JStr client_id);
           (py "config_file",
              JStr (vpn_config_file private_key address dns public_key
                      endpoint allowed_ips keepalive algorithm
                      protection_level generated_at));
           (py "filename", JStr (client_id ++ py "_kybershield_vpn.conf"));
           (py "download_instructions", JArr [
              JStr (py "1. Save this configuration to a .conf file");
              JStr (py "2. Install WireGuard on your system");
              JStr (py "3. Import configuration: wg-quick up <config-file>");
              JStr (py "4. Verify connection with KyberShield support")])])))
  end.

End ClientVpn.

(** What the status view writes over a status that says [configured]. *)
Definition connected_status (current_time : pystr) : list (pystr * json) :=
  [(py "status", JStr (py "connected"));
   (py "connected", JBool true);
   (py "last_handshake", JStr current_time);
   (py "bytes_transferred", JNum (1024 * 1024));
   (py "connected_devices", JNum 1);
   (py "tunnel_health", JStr (py "excellent"))].

Definition disconnected_status : json :=
  JObj [(py "status", JStr (py "disconnected"));
        (py "connected", JBool false);
        (py "last_handshake", JNull);
        (py "bytes_transferred", JNum 0)].

(** [current_time] is [datetime.utcnow().isoformat()].  The status is
    written before the configuration is read again, and stays written when
    that read raises. *)
Definition get_client_vpn_status (client_id current_time : pystr) (a : admin)
    : response * admin :=
  match client_vpn_configs a !! client_id with
  | None => (not_found, a)
  | Some config =>
      let status :=
        default disconnected_status (client_vpn_status a !! client_id) in
      match status, py_item status "status" with
      | JObj items, Some state =>
          let status :=
            if is_str state "configured"
            then JObj (dict_update items (connected_status current_time))
            else status in
          let a :=
            if is_str state "configured"
            then {| client_vpn_configs := client_vpn_configs a;
                    client_vpn_status :=
                      <[client_id := status]> (client_vpn_status a) |}
            else a in
          (default Error500
             (peer ← py_item config "peer";
              endpoint ← py_item peer "Endpoint";
              quantum_protection ← py_item config "quantum_protection";
              Some (Jsonify 200 (JObj [
                (py "client_id", JStr client_id);
                (py "vpn_status", status);
                (py "endpoint", endpoint);
                (py "quantum_protection", quantum_protection);
                (py "last_updated", JStr current_time)]))),
           a)
      | _, _ => (Error500, a)
      end
  end.

(** *** The API served request by request *)

Inductive admin_request :=
| Generate (client_id : pystr) (request_json : option json) (utcnow : pystr)
| Download (client_id : pystr)
| Status (client_id current_time : pystr).

Section Serve.
Context {L : Lib}.
Variable py_repr : json -> pystr.

Definition serve (rq : admin_request) (a : admin) : M (response * admin) :=
  match rq with
  | Generate client_id request_json utcnow =>
      generate_client_vpn_config client_id request_json utcnow a
  | Download client_id =>
      ret (download_client_vpn_config py_repr client_id a, a)
  | Status client_id current_time =>
      ret (get_client_vpn_status client_id current_time a)
  end.

(** The requests served one after the other: the answers, and the dicts
    after the last one. *)
Fixpoint serve_all (rqs : list admin_request) (a : admin)
    : M (list response * admin) :=
  match rqs with
  | [] => ret ([], a)
  | rq :: rqs' =>
      served <- serve rq a ;;
      rest <- serve_all rqs' served.2 ;;
      ret (served.1 :: rest.1, rest.2)
  end.

End Serve.

(** The client a request generates a configuration for: the request is a
    generate whose body is a JSON object. *)
Definition generated_id (rq : admin_request) : option pystr :=
  match rq with
  | Generate client_id (Some (JObj _)) _ => Some client_id
  | _ => None
  end.

Definition generates (client_id : pystr) (rq : admin_request) : Prop :=
  generated_id rq = Some client_id.

(** The tunnel address in a stored configuration. *)
Definition address_of (config : json) : option json :=
  interface ← py_item config "interface"; py_item interface "Address".

(** The address [generate_client_vpn_config] forms from a count. *)
Definition tunnel_address (n : Z) : json :=
  JStr (py "10.8." ++ str_of_int n ++ py ".2/24").

(** A configuration has the members the two views read. *)
Definition config_complete (config : json) : Prop :=
  exists interface peer quantum_protection,
    py_item config "interface" = Some interface
    /\ is_Some (py_item interface "PrivateKey")
    /\ is_Some (py_item interface "Address")
    /\ is_Some (py_item interface "DNS")
    /\ py_item config "peer" = Some peer
    /\ is_Some (py_item peer "PublicKey")
    /\ is_Some (py_item peer "Endpoint")
    /\ is_Some (py_item peer "AllowedIPs")
    /\ is_Some (py_item peer "PersistentKeepalive")
    /\ py_item config "quantum_protection" = Some quantum_protection
    /\ is_Some (py_item quantum_protection "algorithm")
    /\ is_Some (py_item quantum_protection "protection_level")
    /\ is_Some (py_item config "generated_at").

(** A status says [configured], or says [connected] with the flag set. *)
Definition status_known (status : json) : Prop :=
  py_item status "status" = Some (JStr (py "configured"))
  \/ (py_item status "status" = Some (JStr (py "connected"))
      /\ py_item status "connected" = Some (JBool true)).

(** The tunnel addresses are numbered up to the number of configurations,
    and no two clients share one. *)
Definition addresses_distinct (a : admin) : Prop :=
  (forall client_id config,
     client_vpn_configs a !! client_id = Some config ->
     exists n, (n <= size (client_vpn_configs a))%nat
               /\ address_of config = Some (tunnel_address (Z.of_nat n)))
  /\ forall id1 id2 config1 config2,
       id1 <> id2 ->
       client_vpn_configs a !! id1 = Some config1 ->
       client_vpn_configs a !! id2 = Some config2 ->
       address_of config1 <> address_of config2.

(** What holds of the two dicts whatever requests were served. *)
Definition admin_wf (a : admin) : Prop :=
  forall client_id config,
    client_vpn_configs a !! client_id = Some config ->
    config_complete config
    /\ exists status,
         client_vpn_status a !! client_id = Some status
         /\ status_known status.

(** ** Peers used in the examples *)

Module Peers.

Definition utcnow : pystr := py "2024-01-01T00:00:00".

(** The line a client sends for the KEM ciphertext [ct]. *)
Definition client_encapsulation (ct : bytes) : bytes :=
  default [] (str_encode (py "ENCAP_SECRET:" ++ Demo.b64encode ct)).

(** A peer that completes the handshake, sends [frames], and stays
    connected. *)
Definition talking (port : N) (ct : bytes) (frames : list bytes)
    : connection :=
  {| conn_address := (py "10.0.0.5", port); conn_quota := None;
     conn_inbox := Recv (client_encapsulation ct) :: (Recv <$> frames);
     conn_time := utcnow |}.

(** A peer that connects and says nothing. *)
Definition silent (port : N) : connection :=
  {| conn_address := (py "10.0.0.9", port); conn_quota := None;
     conn_inbox := []; conn_time := utcnow |}.

(** A peer that sends its encapsulation and is gone before the hub's
    second [send]. *)
Definition vanishing (port : N) (ct : bytes) : connection :=
  {| conn_address := (py "10.0.0.7", port); conn_quota := Some 1%nat;
     conn_inbox := [Recv (client_encapsulation ct)]; conn_time := utcnow |}.

(** The shared secret and the service id the hub derives from [ct]. *)
Definition secret_of (ct : bytes) : bytes :=
  Demo.digest32 (Demo.kem_private_key ++ ct).

Definition sid_of (ct : bytes) : pystr :=
  take 16 (Demo.sha256_hexdigest (secret_of ct)).

(** The ciphertext service A sends, and the id 8b703ae98c1481e2 the hub
    derives for it. *)
Definition ct_a : bytes := pyb "ct-of-A!".
Definition sid_a : pystr := py "8b703ae98c1481e2".

(** The id 735822d174fc69ca belongs to the ciphertext of a service B that
    never connects. *)
Definition sid_b : pystr := py "735822d174fc69ca".

(** The hub after start-up. *)
Definition started : world := (__init__ (L := Demo.lib true) fresh_world).2.

(** The hub after service A connected from port 40001 and went quiet. *)
Definition a_connected : world :=
  (hub_run (L := Demo.lib true) [talking 40001 ct_a []] fresh_world).2.

Definition ping_for (target : pystr) : pystr :=
  Demo.jsontext "{'target_service': '" ++ target
  ++ Demo.jsontext "', 'payload': 'ping'}".

End Peers.

(** ** Two services on one hub *)

Module Fleet.

(** The ciphertext service B sends; the hub derives 735822d174fc69ca. *)
Definition ct_b : bytes := pyb "ct-of-B!".

(** The hub after A connected from port 40001 and B from port 40002. *)
Definition ab_connected : world :=
  (hub_run (L := Demo.lib true)
     [Peers.talking 40001 Peers.ct_a []; Peers.talking 40002 ct_b []]
     fresh_world).2.

(** What a client that holds [secret] writes to send [message] under the
    nonce [iv]. *)
Definition client_frame (secret iv : bytes) (message : pystr) : bytes :=
  let '(ct, tag) := Demo.gcm_seal (take 32 secret) iv
                      (default [] (str_encode message)) in
  iv ++ tag ++ ct.

Definition note_for (target : pystr) (text : string) : pystr :=
  Demo.jsontext "{'target_service': '" ++ target
  ++ Demo.jsontext "', 'payload': '" ++ py text ++ Demo.jsontext "'}".

(** Two messages A addresses to B, and the frames that carry them. *)
Definition a_to_b : list pystr :=
  [note_for Peers.sid_b "first"; note_for Peers.sid_b "second"].

Definition a_to_b_frames : list bytes :=
  [client_frame (Peers.secret_of Peers.ct_a) (replicate 16 (b8 1))
     (note_for Peers.sid_b "first");
   client_frame (Peers.secret_of Peers.ct_a) (replicate 16 (b8 2))
     (note_for Peers.sid_b "second")].

(** B's socket and B's entry in the registry. *)
Definition b_socket : socket :=
  default {| sock_closed := true; sock_sent := []; sock_quota := None |}
    (sockets ab_connected !! 1%nat).

Definition b_entry : service :=
  {| svc_socket := 1; svc_address := (py "10.0.0.5", 40002);
     svc_connected_at := Peers.utcnow; svc_encryption := py "ML-KEM-768" |}.

(** A fresh connection on the hub after start-up. *)
Definition first_accepted : world := (sock_accept None Peers.started).2.

(** The two lines the hub sends to a client whose ciphertext is [ct]. *)
Definition hello : bytes :=
  default [] (str_encode (py "PUB_KEY:" ++ Demo.b64encode Demo.kem_public_key
                          ++ LF)).

Definition confirm (ct : bytes) : bytes :=
  default [] (str_encode (py "CONNECTED:" ++ Peers.sid_of ct ++ LF)).

End Fleet.

(** ** A liboqs that lacks the mechanism *)

Module Degraded.

(** liboqs is installed and imports, but its build does not enable the
    mechanism Kyber768: [oqs.KeyEncapsulation("Kyber768")] raises.  The
    rest is as in [Demo.lib]. *)
Definition lib : Lib :=
  Build_Lib true (fun _ => false) (fun _ => None)
    Demo.decap_secret Demo.sha256_hexdigest Demo.b64encode Demo.b64decode
    Demo.gcm_seal Demo.gcm_open Demo.json_loads Demo.os_entropy.

(** The hub after start-up with that library. *)
Definition started : world := (__init__ (L := lib) fresh_world).2.

End Degraded.

(** ** Requests to the client VPN API *)

Module Clients.

(** [repr] of a list or a dict; the examples format none. *)
Definition py_repr (v : json) : pystr := py "<container>".

(** Two clients are configured; the first one's status and file are read. *)
Definition session : list admin_request :=
  [Generate (py "client_acme") (Some (JObj [])) Peers.utcnow;
   Status (py "client_acme") (py "2024-01-01T00:05:00");
   Generate (py "client_zen")
     (Some (JObj [(py "protection_level", JStr (py "high"))])) Peers.utcnow;
   Download (py "client_acme")].

End Clients.
(** * Properties *)

(** ** UTF-8 *)

Section Utf8.

Lemma to_N_b8 n : n < 256 -> Byte.to_N (b8 n) = n.
Proof.
  intros Hn. unfold b8.
  destruct (Byte.of_N n) as [b|] eqn:E.
  - simpl. by apply Byte.to_of_N.
  - apply Byte.of_N_None_iff in E. lia.
Qed.

Lemma utf8_cont_b8 x : x < 64 -> utf8_cont (b8 (0x80 + x)) = Some x.
Proof.
  intros Hx. unfold utf8_cont. rewrite to_N_b8 by lia.
  replace (0x80 <=? 0x80 + x) with true by (symmetry; apply N.leb_le; lia).
  replace (0x80 + x <? 0xC0) with true by (symmetry; apply N.ltb_lt; lia).
  simpl. f_equal. lia.
Qed.

Ltac divmod := zify; Z.to_euclidean_division_equations; lia.

Ltac ltb_case :=
  match goal with
  | |- context [?a <? ?b] =>
      let E := fresh "E" in
      destruct (a <? b) eqn:E;
      [apply N.ltb_lt in E | apply N.ltb_ge in E]
  | |- context [?a <=? ?b] =>
      let E := fresh "E" in
      destruct (a <=? b) eqn:E;
      [apply N.leb_le in E | apply N.leb_gt in E]
  end.

Lemma bytes_decode_encode_cp c e r :
  utf8_encode_cp c = Some e ->
  bytes_decode (e ++ r) = cons c <$> bytes_decode r.
Proof.
  unfold utf8_encode_cp.
  destruct (c <? 0x80) eqn:E1; [apply N.ltb_lt in E1 | apply N.ltb_ge in E1].
  { intros [= <-]. cbn [app bytes_decode]. rewrite to_N_b8 by lia.
    apply N.ltb_lt in E1. by rewrite E1. }
  destruct (c <? 0x800) eqn:E2; [apply N.ltb_lt in E2 | apply N.ltb_ge in E2].
  { intros [= <-]. cbn [app bytes_decode].
    rewrite to_N_b8 by divmod.
    rewrite utf8_cont_b8 by divmod.
    repeat (ltb_case; try divmod).
    do 2 f_equal. divmod. }
  destruct (c <? 0x10000) eqn:E3; [apply N.ltb_lt in E3 | apply N.ltb_ge in E3].
  { destruct (is_surrogate c) eqn:Es; [done |].
    intros [= <-]. cbn [app bytes_decode].
    rewrite to_N_b8 by divmod.
    rewrite !utf8_cont_b8 by divmod.
    replace ((0xE0 + c / 4096 - 0xE0) * 4096 + (c / 64) mod 64 * 64 + c mod 64)
      with c by divmod.
    rewrite Es.
    repeat (ltb_case; try divmod).
    done. }
  destruct (c <? 0x110000) eqn:E4; [apply N.ltb_lt in E4 | done].
  intros [= <-]. cbn [app bytes_decode].
  rewrite to_N_b8 by divmod.
  rewrite !utf8_cont_b8 by divmod.
  replace ((0xF0 + c / 262144 - 0xF0) * 262144 + (c / 4096) mod 64 * 4096
           + (c / 64) mod 64 * 64 + c mod 64) with c by divmod.
  repeat (ltb_case; try divmod).
  done.
Qed.

Lemma bytes_decode_str_encode s b :
  str_encode s = Some b -> bytes_decode b = Some s.
Proof.
  revert b. induction s as [|c s IH]; intros b; simpl.
  - by intros [= <-].
  - destruct (utf8_encode_cp c) as [e|] eqn:Ee; [|done].
    destruct (str_encode s) as [r|] eqn:Er; [|done].
    intros [= <-]. rewrite (bytes_decode_encode_cp c e r Ee).
    by rewrite (IH r eq_refl).
Qed.

Lemma utf8_encode_cp_valid c :
  c < 0x110000 -> is_surrogate c = false -> is_Some (utf8_encode_cp c).
Proof.
  intros Hc Hs. unfold utf8_encode_cp. rewrite Hs.
  repeat (ltb_case; try lia); eauto.
Qed.

Lemma str_encode_valid s : valid_text s -> is_Some (str_encode s).
Proof.
  induction 1 as [|c s [Hc Hs] _ IH]; simpl; [eauto |].
  destruct (utf8_encode_cp_valid c Hc Hs) as [e ->].
  destruct IH as [r ->]. eauto.
Qed.

Lemma valid_textb_correct s : valid_textb s = true -> valid_text s.
Proof.
  unfold valid_textb, valid_text. rewrite forallb_forall, Forall_forall.
  intros Hall c Hc. apply list_elem_of_In in Hc. specialize (Hall c Hc).
  apply andb_true_iff in Hall as [Hlt Hs].
  apply N.ltb_lt in Hlt. apply negb_true_iff in Hs. done.
Qed.

End Utf8.

Example utf8_samples :
  str_encode [0x41; 0xE9; 0x20AC; 0x1F600]
  = Some [x41; xc3; xa9; xe2; x82; xac; xf0; x9f; x98; x80]
  /\ bytes_decode [x41; xc3; xa9; xe2; x82; xac; xf0; x9f; x98; x80]
     = Some [0x41; 0xE9; 0x20AC; 0x1F600]
  /\ str_encode [0xD800] = None
  /\ bytes_decode [xc0; x80] = None
  /\ bytes_decode [xed; xa0; x80] = None.
Proof. repeat split; reflexivity. Qed.

(** ** Running computations *)

Section Run.
Context {L : Lib}.

Lemma bind_ret {A B} (m : M A) (k : A -> M B) w a w' :
  m w = (Ret a, w') -> bind m k w = k a w'.
Proof. unfold bind. by intros ->. Qed.

Lemma bind_raise {A B} (m : M A) (k : A -> M B) w w' :
  m w = (Raise, w') -> bind m k w = (Raise, w').
Proof. unfold bind. by intros ->. Qed.

Lemma bind_block {A B} (m : M A) (k : A -> M B) w w' :
  m w = (Block, w') -> bind m k w = (Block, w').
Proof. unfold bind. by intros ->. Qed.

Lemma py_get_obj kv key w :
  py_get (JObj kv) key w = (Ret (default JNull (dict_lookup (py key) kv)), w).
Proof. reflexivity. Qed.

End Run.

(** ** POST /send_message *)

Section SendMessage.
Context {L : Lib}.

(** C10.  A request whose body is an object with non-empty (true in
    Python's sense) [sender], [target] and [message] is answered 200 with
    status [message_sent], whether or not the target is connected; the
    registry, the secrets and every socket are as before. *)
Theorem C10_send_message_is_simulated (w : world) (kv : list (pystr * json))
    (sender target message : json) (time_time : Z) :
  dict_lookup (py "sender") kv = Some sender ->
  dict_lookup (py "target") kv = Some target ->
  dict_lookup (py "message") kv = Some message ->
  truthy sender = true -> truthy target = true -> truthy message = true ->
  send_internal_message (Some (JObj kv)) time_time w
  = (Ret (Jsonify 200 (JObj [
       (py "status", JStr (py "message_sent"));
       (py "tunnel_id", JStr (py "tunnel_" ++ str_of_int time_time));
       (py "encryption", JStr (py "ML-KEM-768"))])), w).
Proof.
  intros Hs Ht Hm Ts Tt Tm.
  unfold send_internal_message, try_except, bind, lift, ret.
  rewrite !py_get_obj, Hs, Ht, Hm. cbn [default forallb].
  unfold id. by rewrite Ts, Tt, Tm.
Qed.

End SendMessage.

Lemma C10_send_message_witness :
  send_internal_message
    (Demo.json_loads
       (jsontext "{'sender': 'api', 'target': 'nobody', 'message': 'ping'}"))
    1700000000 fresh_world
  = (Ret (Jsonify 200 (JObj [
       (py "status", JStr (py "message_sent"));
       (py "tunnel_id", JStr (py "tunnel_1700000000"));
       (py "encryption", JStr (py "ML-KEM-768"))])), fresh_world).
Proof.
  exact (C10_send_message_is_simulated fresh_world
           [(py "sender", JStr (py "api")); (py "target", JStr (py "nobody"));
            (py "message", JStr (py "ping"))]
           (JStr (py "api")) (JStr (py "nobody")) (JStr (py "ping"))
           1700000000 eq_refl eq_refl eq_refl eq_refl eq_refl eq_refl).
Defined.

(** ** Start-up and GET /health *)

Section Startup.
Context {L : Lib}.

Lemma _initialize_quantum_kem_returns w :
  exists w', _initialize_quantum_kem w = (Ret tt, w').
Proof.
  unfold _initialize_quantum_kem.
  destruct QUANTUM_AVAILABLE; simpl; [| by eexists].
  unfold try_except, bind, modify, lift, ret, raise.
  destruct (oqs_KeyEncapsulation kem_algorithm); [| by eexists].
  destruct (oqs_generate_keypair kem_algorithm); by eexists.
Qed.

(** Start-up never fails: without the library the hub starts with no KEM
    at all.  /health reports whether the library was imported, in
    [real_quantum_crypto] and [quantum_library]. *)
Lemma startup_never_fatal_health_reports_import (w0 w : world)
    (utcnow : pystr) :
  (exists w1, __init__ w0 = (Ret tt, w1)
              /\ if QUANTUM_AVAILABLE then True else w1 = fresh_world)
  /\ exists body,
       health_check utcnow w = (Ret (Jsonify 200 (JObj body)), w)
       /\ dict_lookup (py "real_quantum_crypto") body
          = Some (JBool QUANTUM_AVAILABLE)
       /\ dict_lookup (py "quantum_library") body
          = Some (JStr (if QUANTUM_AVAILABLE then py "liboqs-python"
                        else py "fallback")).
Proof.
  split.
  - unfold __init__.
    destruct (_initialize_quantum_kem_returns fresh_world) as [w1 Hw1].
    exists w1. split; [done |].
    unfold _initialize_quantum_kem in Hw1.
    destruct QUANTUM_AVAILABLE; [done |]. simpl in Hw1. by injection Hw1.
  - eexists. split; [reflexivity |]. split; reflexivity.
Qed.

End Startup.

(** ** Encrypting, decrypting and routing *)

Section Cipher.
Context {L : Lib}.

Lemma AES_key_cases key w :
  AES_key key w = (Ret tt, w) \/ AES_key key w = (Raise, w).
Proof. unfold AES_key. case_bool_decide; auto. Qed.

Lemma GCM_mode_cases iv tag w :
  GCM_mode iv tag w = (Ret tt, w) \/ GCM_mode iv tag w = (Raise, w).
Proof.
  unfold GCM_mode. case_bool_decide; auto.
  destruct tag; auto. case_bool_decide; auto.
Qed.

(** Decryption reads the state and never raises. *)
Lemma _decrypt_tunnel_message_reads data sid w :
  exists r, _decrypt_tunnel_message data sid w = (Ret r, w).
Proof.
  unfold _decrypt_tunnel_message, try_except, bind, gets.
  destruct (shared_secrets w !! sid) as [[|b s]|]; try by eexists.
  destruct (AES_key_cases (take 32 (b :: s)) w) as [-> | ->]; [| by eexists].
  destruct (GCM_mode_cases (take 16 data) (Some (take 16 (drop 16 data))) w)
    as [-> | ->]; [| by eexists].
  destruct (gcm_open _ _ _ _); simpl; [| by eexists].
  destruct (bytes_decode _); simpl; by eexists.
Qed.

(** Encryption never raises; it changes nothing but the entropy used. *)
Lemma _encrypt_tunnel_message_entropy message sid w :
  exists r, _encrypt_tunnel_message message sid w = (Ret r, w)
            \/ _encrypt_tunnel_message message sid w
               = (Ret r, set_urandom_pos (fun p => (p + 16)%nat) w).
Proof.
  unfold _encrypt_tunnel_message, try_except, bind, gets.
  destruct (shared_secrets w !! sid) as [[|b s]|]; try by eexists; left.
  unfold os_urandom.
  set (w' := set_urandom_pos _ w). set (iv := _ <$> _).
  destruct (AES_key_cases (take 32 (b :: s)) w') as [-> | ->];
    [| by eexists; right].
  destruct (GCM_mode_cases iv None w') as [-> | ->]; [| by eexists; right].
  destruct (str_encode message); simpl; [| by eexists; right].
  destruct (gcm_seal _ _ _). by eexists; right.
Qed.

Lemma _route_internal_message_returns message sender w :
  exists w', _route_internal_message message sender w = (Ret tt, w').
Proof.
  unfold _route_internal_message, try_except, bind.
  destruct (lift (json_loads message) w) as [[j| |] w1] eqn:E1;
    unfold lift in E1; destruct (json_loads message); simplify_eq;
    try by eexists.
  destruct j; simpl; try by eexists.
  destruct (default JNull _); simpl; try by eexists.
  unfold gets. destruct (connected_services w1 !! s); simpl; [| by eexists].
  destruct (_encrypt_tunnel_message_entropy message s w1) as [r [-> | ->]];
    destruct r as [[|b fr]|]; try by eexists.
  all: match goal with |- context [sock_send ?fd ?d ?w] =>
         destruct (sock_send fd d w) as [[[]| |] ?] eqn:E end; try by eexists.
  all: unfold sock_send in E; repeat case_match; simplify_eq.
Qed.

Lemma route_absent_target (w : world) (message sender : pystr) :
  (forall t, routed_target message = Some t ->
             connected_services w !! t = None) ->
  _route_internal_message message sender w = (Ret tt, w).
Proof.
  intros Habsent. unfold routed_target in Habsent.
  unfold _route_internal_message, try_except, bind, lift.
  destruct (json_loads message) as [j|]; [| reflexivity].
  destruct j; try reflexivity. simpl.
  destruct (dict_lookup (py "target_service") kv) as [t|]; [| reflexivity].
  destruct t; try reflexivity. simpl. unfold gets.
  by rewrite (Habsent s eq_refl).
Qed.

(** C4, as the code has it.  A message whose target is not in
    [connected_services] is dropped without a trace: nothing is sent, no
    counter exists to be incremented, the state is as before, and the call
    returns [None] as it does in every other case. *)
Theorem C4_unknown_target_dropped_silently (w : world)
    (message sender : pystr) :
  (forall t, routed_target message = Some t ->
             connected_services w !! t = None) ->
  _route_internal_message message sender w = (Ret tt, w)
  /\ forall w2, (_route_internal_message message sender w2).1 = Ret tt.
Proof.
  intros Habsent. split.
  - by apply route_absent_target.
  - intros w2.
    by destruct (_route_internal_message_returns message sender w2) as [? ->].
Qed.

(** After [_disconnect_service(sid)] a message for [sid] goes nowhere. *)
Lemma route_after_disconnect (w : world) (sid message sender : pystr) :
  routed_target message = Some sid ->
  _route_internal_message message sender (_disconnect_service sid w).2
  = (Ret tt, (_disconnect_service sid w).2).
Proof.
  intros Ht. apply route_absent_target.
  intros t Ht'. rewrite Ht in Ht'. injection Ht' as <-.
  unfold _disconnect_service, bind, modify. simpl.
  apply lookup_delete_eq.
Qed.

End Cipher.

(** ** What the hub's operations keep *)

Section Preserve.
Context (R : relation world) `{!PreOrder R}.

Lemma preserves_ret {A} (a : A) : preserves R (ret a).
Proof. intros w. reflexivity. Qed.

Lemma preserves_raise {A} : preserves R (@raise A).
Proof. intros w. reflexivity. Qed.

Lemma preserves_block {A} : preserves R (@block A).
Proof. intros w. reflexivity. Qed.

Lemma preserves_gets {A} (f : world -> A) : preserves R (gets f).
Proof. intros w. reflexivity. Qed.

Lemma preserves_lift {A} (o : option A) : preserves R (lift o).
Proof. destruct o; [apply preserves_ret | apply preserves_raise]. Qed.

Lemma preserves_bind_returns {A B} (Q : A -> Prop) (m : M A) (k : A -> M B) :
  preserves R m -> returns Q m -> (forall a, Q a -> preserves R (k a)) ->
  preserves R (bind m k).
Proof.
  intros Hm HQ Hk w. unfold bind.
  specialize (Hm w). destruct (m w) as [[a| |] w1] eqn:E; simpl in *; try done.
  etrans; [exact Hm |]. apply (Hk a (HQ _ _ _ E)).
Qed.

Lemma preserves_bind {A B} (m : M A) (k : A -> M B) :
  preserves R m -> (forall a, preserves R (k a)) -> preserves R (bind m k).
Proof.
  intros Hm Hk. apply (preserves_bind_returns (fun _ => True)); auto.
  by intros ???.
Qed.

Lemma preserves_try_except {A} (m h : M A) :
  preserves R m -> preserves R h -> preserves R (try_except m h).
Proof.
  intros Hm Hh w. unfold try_except.
  specialize (Hm w). destruct (m w) as [[a| |] w1]; simpl in *; try done.
  etrans; [exact Hm |]. apply Hh.
Qed.

Lemma preserves_try_finally {A} (m : M A) (f : M unit) :
  preserves R m -> preserves R f -> preserves R (try_finally m f).
Proof.
  intros Hm Hf w. unfold try_finally.
  specialize (Hm w). destruct (m w) as [[a| |] w1]; simpl in *; try done.
  - etrans; [exact Hm |].
    apply (preserves_bind f (fun _ => ret a)); [done |].
    intros _. apply preserves_ret.
  - etrans; [exact Hm |].
    apply (preserves_bind f (fun _ => raise)); [done |].
    intros _. apply preserves_raise.
Qed.

Lemma preserves_spawn (m : M unit) : preserves R m -> preserves R (spawn m).
Proof.
  intros Hm w. unfold spawn. specialize (Hm w). by destruct (m w).
Qed.

Lemma preserves_sock_recv inbox : preserves R (sock_recv inbox).
Proof.
  destruct inbox as [|[]]; [apply preserves_block | apply preserves_ret
                           | apply preserves_raise].
Qed.

Lemma preserves_py_get data key : preserves R (py_get data key).
Proof. destruct data; first [apply preserves_ret | apply preserves_raise]. Qed.

End Preserve.

Ltac pres_tc := try match goal with |- PreOrder _ => exact _ end.

Ltac pres_step :=
  lazymatch goal with
  | |- preserves _ (let _ := _ in _) => cbv zeta
  | |- preserves _ (ret _) => apply preserves_ret
  | |- preserves _ raise => apply preserves_raise
  | |- preserves _ block => apply preserves_block
  | |- preserves _ (gets _) => apply preserves_gets
  | |- preserves _ (lift _) => apply preserves_lift
  | |- preserves _ (sock_recv _) => apply preserves_sock_recv
  | |- preserves _ (py_get _ _) => apply preserves_py_get
  | |- preserves _ (try_except _ _) => apply preserves_try_except
  | |- preserves _ (try_finally _ _) => apply preserves_try_finally
  | |- preserves _ (spawn _) => apply preserves_spawn
  | |- preserves _ (bind _ _) => apply preserves_bind; [| | intros ?]
  | |- preserves _ (match ?x with _ => _ end) => destruct x
  end;
  pres_tc.

(** The hub's operations keep every relation that the steps on the state
    keep: drawing entropy, sending, forgetting a service, closing the
    connection's own socket, recording a decapsulated secret, and
    registering the connection. *)
Section HubPreserves.
Context {L : Lib} (R : relation world) `{!PreOrder R} (client_socket : nat).
Hypothesis Hurandom : forall n, preserves R (os_urandom n).
Hypothesis Hsend : forall fd data, preserves R (sock_send fd data).
Hypothesis Hdisconnect : forall sid, preserves R (_disconnect_service sid).
Hypothesis Hclose : preserves R (sock_close client_socket).
Hypothesis Hstore : forall sid alg sk ct s,
  oqs_decap_secret alg sk ct = Some s ->
  preserves R (store_shared_secret sid s).
Hypothesis Hregister : forall sid address utcnow,
  preserves R (register_service sid client_socket address utcnow).

Lemma preserves_AES_key key : preserves R (AES_key key).
Proof. unfold AES_key. repeat pres_step. Qed.

Lemma preserves_GCM_mode iv tag : preserves R (GCM_mode iv tag).
Proof. unfold GCM_mode. repeat pres_step. Qed.

Lemma preserves_encrypt message sid :
  preserves R (_encrypt_tunnel_message message sid).
Proof.
  unfold _encrypt_tunnel_message.
  repeat first [apply Hurandom | apply preserves_AES_key
               | apply preserves_GCM_mode | pres_step].
Qed.

Lemma preserves_decrypt data sid :
  preserves R (_decrypt_tunnel_message data sid).
Proof.
  unfold _decrypt_tunnel_message.
  repeat first [apply preserves_AES_key | apply preserves_GCM_mode
               | pres_step].
Qed.

Lemma preserves_lookup_service target : preserves R (lookup_service target).
Proof. unfold lookup_service. repeat pres_step. Qed.

Lemma preserves_route message sender :
  preserves R (_route_internal_message message sender).
Proof.
  unfold _route_internal_message.
  repeat first [apply preserves_encrypt | apply preserves_lookup_service
               | apply Hsend | pres_step].
Qed.

Lemma preserves_loop sid inbox : preserves R (tunnel_messages_loop sid inbox).
Proof.
  induction inbox as [|[[|b data]|] inbox IH]; simpl;
    repeat first [apply preserves_decrypt | apply preserves_route
                 | apply IH | pres_step].
Qed.

Lemma preserves_handle_messages sid inbox :
  preserves R (_handle_tunnel_messages client_socket sid inbox).
Proof.
  unfold _handle_tunnel_messages.
  repeat first [apply preserves_loop | apply Hdisconnect | apply Hclose
               | pres_step].
Qed.

Lemma kem_decap_secret_returns ct :
  returns (fun s => exists alg sk, oqs_decap_secret alg sk ct = Some s)
    (kem_decap_secret ct).
Proof.
  intros w s w'. unfold kem_decap_secret, bind, gets, lift, ret, raise.
  destruct (kem w) as [k|]; simpl; [| by intros [=]].
  destruct (kem_secret_key k) as [sk|]; simpl; [| by intros [=]].
  destruct (oqs_decap_secret (kem_alg k) sk ct) eqn:E; simpl;
    [| by intros [=]].
  intros [= <- <-]. eauto.
Qed.

Lemma preserves_kem_decap_secret ct : preserves R (kem_decap_secret ct).
Proof. unfold kem_decap_secret. repeat pres_step. Qed.

Lemma preserves_key_exchange inbox :
  preserves R (_perform_key_exchange client_socket inbox).
Proof.
  unfold _perform_key_exchange.
  apply preserves_try_except; [done | | by apply preserves_ret].
  do 5 (apply preserves_bind; [done | | intros ?];
        [repeat first [apply Hsend | pres_step] |]).
  destruct (startswith _ _); [| by apply preserves_ret].
  do 2 (apply preserves_bind; [done | | intros ?];
        [repeat first [apply Hsend | pres_step] |]).
  eapply preserves_bind_returns;
    [done | apply preserves_kem_decap_secret
    | apply kem_decap_secret_returns |].
  intros s (alg & sk & Hs).
  repeat first [apply Hsend | eapply Hstore; eassumption | pres_step].
Qed.

Lemma preserves_handle_connection address utcnow inbox :
  preserves R (_handle_tunnel_connection client_socket address utcnow inbox).
Proof.
  unfold _handle_tunnel_connection.
  repeat first [apply preserves_key_exchange | apply Hregister
               | apply preserves_handle_messages | apply Hclose | pres_step].
Qed.

End HubPreserves.

(** *** The relations the hub keeps *)

Section Relations.
Context {L : Lib}.

#[global] Instance secrets_wf_preorder :
  PreOrder (fun w w' => secrets_wf w -> secrets_wf w').
Proof. split; [by intros ? | intros ??? H1 H2 ?; auto]. Qed.

#[global] Instance closed_elsewhere_preorder fd : PreOrder (closed_elsewhere fd).
Proof.
  split.
  - by intros w.
  - intros w1 w2 w3 [Hl1 H1] [Hl2 H2]. split; [congruence |].
    intros fd' Hne. by rewrite H2, H1.
Qed.

#[global] Instance keys_kept_preorder : PreOrder keys_kept.
Proof.
  split.
  - by intros w.
  - intros w1 w2 w3 [??] [??]. split; congruence.
Qed.

(** A relation that only looks at some fields is kept by whatever leaves
    those fields alone. *)
Lemma sock_send_cases fd data w :
  (sock_send fd data w).2 = w
  \/ exists s, sockets w !! fd = Some s /\ sock_closed s = false
       /\ (sock_send fd data w).2
          = set_sockets <[fd := {| sock_closed := false;
                                   sock_sent := sock_sent s ++ [data];
                                   sock_quota := pred <$> sock_quota s |}]> w.
Proof.
  unfold sock_send.
  destruct (sockets w !! fd) as [s|] eqn:Es; [| by left].
  destruct (sock_closed s) eqn:Ec; [by left |].
  destruct (sock_quota s) as [[|q]|] eqn:Eq; [by left | |]; right;
    exists s; rewrite ?Eq; auto.
Qed.

(** **** Secrets stay well formed *)

Lemma wf_handle_connection `{!LibLaws L} fd address utcnow inbox :
  preserves (fun w w' => secrets_wf w -> secrets_wf w')
    (_handle_tunnel_connection fd address utcnow inbox).
Proof.
  apply preserves_handle_connection; try exact _.
  - by intros n w.
  - intros fd' data w Hw.
    destruct (sock_send_cases fd' data w) as [-> | (s & _ & _ & ->)]; done.
  - intros sid w Hw sid' s. unfold _disconnect_service, bind, modify. simpl.
    intros Hs. apply lookup_delete_Some in Hs as [_ Hs]. by eapply Hw.
  - by intros w.
  - intros sid alg sk ct s Hs w Hw sid' s'.
    unfold store_shared_secret, modify. simpl.
    intros Hl. apply lookup_insert_Some in Hl as [[_ <-] | [_ Hl]].
    + by eapply decap_secret_length.
    + by eapply Hw.
  - by intros sid address' utcnow' w.
Qed.

(** **** Other sockets are left as they are *)

Lemma closed_elsewhere_send client fd data :
  preserves (closed_elsewhere client) (sock_send fd data).
Proof.
  intros w.
  destruct (sock_send_cases fd data w) as [-> | (s & Hs & Hc & ->)];
    [done |].
  split; simpl.
  - by rewrite length_insert.
  - intros fd' _. destruct (decide (fd' = fd)) as [-> |].
    + rewrite list_lookup_insert_eq by (by eapply lookup_lt_Some).
      rewrite Hs. simpl. by rewrite Hc.
    + by rewrite list_lookup_insert_ne.
Qed.

Lemma closed_elsewhere_close client :
  preserves (closed_elsewhere client) (sock_close client).
Proof.
  intros w. unfold sock_close, modify. split; simpl.
  - by rewrite length_alter.
  - intros fd' Hne. by rewrite list_lookup_alter_ne.
Qed.

Lemma closed_elsewhere_handle_connection fd address utcnow inbox :
  preserves (closed_elsewhere fd)
    (_handle_tunnel_connection fd address utcnow inbox).
Proof.
  apply preserves_handle_connection; try exact _.
  - by intros n w.
  - intros. apply closed_elsewhere_send.
  - by intros sid w.
  - apply closed_elsewhere_close.
  - by intros sid alg sk ct s _ w.
  - by intros sid address' utcnow' w.
Qed.

(** **** The keys are left as they are *)

Lemma keys_kept_handle_connection fd address utcnow inbox :
  preserves keys_kept (_handle_tunnel_connection fd address utcnow inbox).
Proof.
  apply preserves_handle_connection; try exact _.
  - by intros n w.
  - intros fd' data w.
    destruct (sock_send_cases fd' data w) as [-> | (s & _ & _ & ->)]; done.
  - by intros sid w.
  - by intros w.
  - by intros sid alg sk ct s _ w.
  - by intros sid address' utcnow' w.
Qed.

End Relations.

(** ** The listener, and the states the hub reaches *)

Section Listener.
Context {L : Lib}.

Lemma preserves_accept_loop (R : relation world) `{!PreOrder R} incoming :
  (forall quota, preserves R (sock_accept quota)) ->
  (forall fd address utcnow inbox,
     preserves R (_handle_tunnel_connection fd address utcnow inbox)) ->
  preserves R (accept_loop incoming).
Proof.
  intros Hacc Hconn.
  induction incoming as [|c incoming IH]; simpl; repeat pres_step; auto.
Qed.

Lemma init_registry_empty w0 :
  shared_secrets (__init__ w0).2 = ∅ /\ connected_services (__init__ w0).2 = ∅
  /\ sockets (__init__ w0).2 = [].
Proof.
  unfold __init__, _initialize_quantum_kem.
  destruct QUANTUM_AVAILABLE; simpl; [| done].
  unfold try_except, bind, modify, lift, ret, raise.
  destruct (oqs_KeyEncapsulation kem_algorithm); [| done].
  by destruct (oqs_generate_keypair kem_algorithm).
Qed.

Lemma hub_run_secrets_wf `{!LibLaws L} incoming w0 :
  secrets_wf (hub_run incoming w0).2.
Proof.
  unfold hub_run, bind.
  destruct (_initialize_quantum_kem_returns fresh_world) as [w1 Hw1].
  pose proof (init_registry_empty w0) as (Hs & _ & _).
  unfold __init__ in *. rewrite Hw1 in *. simpl in Hs.
  unfold _start_tunnel_server.
  assert (Hkeep : preserves (fun w w' => secrets_wf w -> secrets_wf w')
                    (accept_loop incoming)).
  { apply preserves_accept_loop; [exact _ | by intros quota w |].
    intros. apply wf_handle_connection. }
  apply (Hkeep w1). intros sid s. by rewrite Hs, lookup_empty.
Qed.

End Listener.

(** ** Round trip *)

Section RoundTrip.
Context {L : Lib} `{!LibLaws L}.

Lemma decrypt_encrypt (w : world) (sid : pystr) (s : bytes)
    (payload : pystr) :
  shared_secrets w !! sid = Some s -> length s = 32%nat ->
  valid_text payload ->
  exists frame,
    _encrypt_tunnel_message payload sid w
    = (Ret (Some frame), set_urandom_pos (fun p => (p + 16)%nat) w)
    /\ forall w2, shared_secrets w2 !! sid = Some s ->
         _decrypt_tunnel_message frame sid w2 = (Ret (Some payload), w2).
Proof.
  intros Hs Hlen Hvalid.
  destruct (str_encode_valid payload Hvalid) as [pt Hpt].
  assert (Hkey : take 32 s = s) by (apply take_ge; lia).
  destruct s as [|b s]; [done |].
  set (iv := os_entropy <$> seq (urandom_pos w) 16).
  assert (Hiv : length iv = 16%nat) by (subst iv; by rewrite length_fmap, length_seq).
  destruct (gcm_seal (b :: s) iv pt) as [ct tag] eqn:Eseal.
  pose proof (gcm_tag_length (b :: s) iv pt) as Htag.
  pose proof (gcm_open_seal (b :: s) iv pt) as Hopen.
  rewrite Eseal in Htag, Hopen. simpl in Htag, Hopen.
  exists (iv ++ tag ++ ct). split.
  - unfold _encrypt_tunnel_message, try_except, bind, gets. rewrite Hs, Hkey.
    unfold os_urandom. fold iv.
    unfold AES_key. rewrite bool_decide_eq_true_2 by auto.
    unfold GCM_mode. rewrite bool_decide_eq_true_2 by lia.
    unfold lift, ret. rewrite Hpt. by rewrite Eseal.
  - intros w2 Hs2.
    unfold _decrypt_tunnel_message, try_except, bind, gets. rewrite Hs2, Hkey.
    assert (Hiv' : take 16 (iv ++ tag ++ ct) = iv)
      by (rewrite take_app_length'; done).
    assert (Htag' : take 16 (drop 16 (iv ++ tag ++ ct)) = tag)
      by (rewrite drop_app_length' by done; rewrite take_app_length'; done).
    assert (Hct' : drop 32 (iv ++ tag ++ ct) = ct).
    { rewrite app_assoc. rewrite drop_app_length'; [done |].
      rewrite length_app. lia. }
    rewrite Hiv', Htag', Hct'.
    unfold AES_key. rewrite bool_decide_eq_true_2 by auto.
    unfold GCM_mode. rewrite bool_decide_eq_true_2 by lia.
    rewrite bool_decide_eq_true_2 by lia.
    unfold lift, ret. rewrite Hopen by (auto; lia).
    by rewrite (bytes_decode_str_encode payload pt Hpt).
Qed.

(** C5.  In every state the hub reaches, for every service with a shared
    secret on record and every text, decrypting what
    [_encrypt_tunnel_message] returns gives the text back.  No size limit
    is configured, and none is needed. *)
Theorem C5_decrypt_encrypt_round_trip (incoming : list connection)
    (w0 w : world) (sid payload : pystr) :
  w = (hub_run incoming w0).2 ->
  is_Some (shared_secrets w !! sid) ->
  valid_text payload ->
  exists frame w',
    _encrypt_tunnel_message payload sid w = (Ret (Some frame), w')
    /\ _decrypt_tunnel_message frame sid w' = (Ret (Some payload), w').
Proof.
  intros -> [s Hs] Hvalid.
  pose proof (hub_run_secrets_wf incoming w0 sid s Hs) as Hlen.
  destruct (decrypt_encrypt _ sid s payload Hs Hlen Hvalid)
    as (frame & Henc & Hdec).
  exists frame. eexists. split; [exact Henc |]. by apply Hdec.
Qed.

End RoundTrip.

(** ** The executable instance has the properties relied on *)

Section DemoLaws.

Lemma length_digest32 b : length (Demo.digest32 b) = 32%nat.
Proof. unfold Demo.digest32. by rewrite length_fmap, length_seq. Qed.

Lemma b8_to_N (x : byte) : b8 (Byte.to_N x) = x.
Proof. unfold b8. by rewrite Byte.of_to_N. Qed.

Lemma demo_unpad p (x : byte) :
  p < 256 ->
  b8 ((Byte.to_N (b8 ((Byte.to_N x + p) mod 256)) + 256 - p) mod 256) = x.
Proof.
  intros Hp. pose proof (Byte.to_N_bounded x) as Hx.
  rewrite to_N_b8 by (zify; Z.to_euclidean_division_equations; lia).
  replace (((Byte.to_N x + p) mod 256 + 256 - p) mod 256) with (Byte.to_N x)
    by (zify; Z.to_euclidean_division_equations; lia).
  apply b8_to_N.
Qed.

Lemma demo_decap_length alg sk ct s :
  Demo.decap_secret alg sk ct = Some s -> length s = 32%nat.
Proof.
  unfold Demo.decap_secret.
  destruct (_ =? _)%nat; [| done]. intros [= <-]. apply length_digest32.
Qed.

Lemma demo_tag_length key iv ct : length (Demo.gcm_tag key iv ct) = 16%nat.
Proof.
  unfold Demo.gcm_tag. rewrite length_take, length_digest32. lia.
Qed.

Lemma demo_open_seal key iv pt :
  Demo.gcm_open key iv (Demo.gcm_seal key iv pt).2 (Demo.gcm_seal key iv pt).1
  = Some pt.
Proof.
  unfold Demo.gcm_seal, Demo.gcm_open. cbn [fst snd].
  rewrite decide_True by done. f_equal.
  rewrite <- list_fmap_compose. rewrite <- (list_fmap_id pt) at 2.
  apply list_fmap_ext. intros _ x _. cbn [compose id].
  apply demo_unpad. unfold Demo.pad.
  pose proof (Byte.to_N_bounded (hd "000"%byte (Demo.digest32 (key ++ iv)))).
  lia.
Qed.

#[global] Instance demo_laws (available : bool) : LibLaws (Demo.lib available).
Proof.
  split.
  - apply demo_decap_length.
  - intros. apply demo_tag_length.
  - intros. apply demo_open_seal.
Qed.

End DemoLaws.

Example demo_service_ids :
  Peers.sid_of Peers.ct_a = Peers.sid_a
  /\ Peers.sid_of (pyb "ct-of-B!") = Peers.sid_b
  /\ shared_secrets Peers.a_connected !! Peers.sid_a
     = Some (Peers.secret_of Peers.ct_a)
  /\ svc_socket <$> connected_services Peers.a_connected !! Peers.sid_a
     = Some 0%nat.
Proof. vm_compute. repeat split; reflexivity. Qed.

Lemma C5_round_trip_witness :
  exists frame w',
    _encrypt_tunnel_message (L := Demo.lib true) (Peers.ping_for Peers.sid_a)
      Peers.sid_a Peers.a_connected
    = (Ret (Some frame), w')
    /\ _decrypt_tunnel_message (L := Demo.lib true) frame Peers.sid_a w'
       = (Ret (Some (Peers.ping_for Peers.sid_a)), w').
Proof.
  apply (C5_decrypt_encrypt_round_trip (L := Demo.lib true)
           [Peers.talking 40001 Peers.ct_a []] fresh_world Peers.a_connected
           Peers.sid_a (Peers.ping_for Peers.sid_a) eq_refl).
  - exists (Peers.secret_of Peers.ct_a). vm_compute. reflexivity.
  - apply valid_textb_correct. vm_compute. reflexivity.
Defined.

(** ** The session key *)

Section SessionKey.
Context {L : Lib}.

(** C1, as the code has it.  Both directions hand the cipher the first 32
    bytes of the raw shared secret: the frame [_encrypt_tunnel_message]
    returns is nonce, tag and ciphertext of the text under that key, and
    [_decrypt_tunnel_message] opens a frame under the same key.  Nothing
    else of the secret, and no context string, enters either. *)
Theorem C1_key_is_first_32_bytes_both_ways (w : world) (sid message : pystr)
    (s pt : bytes) :
  shared_secrets w !! sid = Some s ->
  (length (take 32 s) = 16 \/ length (take 32 s) = 24
   \/ length (take 32 s) = 32)%nat ->
  str_encode message = Some pt ->
  let key := take 32 s in
  let iv := os_entropy <$> seq (urandom_pos w) 16 in
  _encrypt_tunnel_message message sid w
  = (Ret (Some (iv ++ (gcm_seal key iv pt).2 ++ (gcm_seal key iv pt).1)),
     set_urandom_pos (fun p => (p + 16)%nat) w)
  /\ forall frame, (32 <= length frame)%nat ->
       _decrypt_tunnel_message frame sid w
       = (Ret (gcm_open key (take 16 frame) (take 16 (drop 16 frame))
                 (drop 32 frame) ≫= bytes_decode), w).
Proof.
  intros Hs Hkey Hpt key iv.
  assert (Hne : exists b s', s = b :: s').
  { destruct s; [simpl in Hkey; lia | eauto]. }
  destruct Hne as (b & s' & ->).
  split.
  - unfold _encrypt_tunnel_message, try_except, bind, gets. rewrite Hs.
    unfold os_urandom. fold iv. fold key.
    unfold AES_key. rewrite bool_decide_eq_true_2 by done.
    unfold GCM_mode.
    rewrite bool_decide_eq_true_2
      by (subst iv; rewrite length_fmap, length_seq; lia).
    unfold lift, ret. rewrite Hpt. by destruct (gcm_seal key iv pt).
  - intros frame Hlen.
    unfold _decrypt_tunnel_message, try_except, bind, gets. rewrite Hs.
    fold key.
    unfold AES_key. rewrite bool_decide_eq_true_2 by done.
    unfold GCM_mode.
    rewrite bool_decide_eq_true_2 by (rewrite length_take; lia).
    rewrite bool_decide_eq_true_2
      by (rewrite length_take, length_drop; lia).
    unfold lift, ret.
    destruct (gcm_open _ _ _ _) as [p|]; simpl; [| done].
    by destruct (bytes_decode p).
Qed.

End SessionKey.

Lemma C1_key_is_first_32_bytes_witness :
  _encrypt_tunnel_message (L := Demo.lib true) (py "ping") Peers.sid_a
    Peers.a_connected
  = (Ret (Some
       ((Demo.os_entropy <$> seq (urandom_pos Peers.a_connected) 16)
        ++ (Demo.gcm_seal (take 32 (Peers.secret_of Peers.ct_a))
              (Demo.os_entropy <$> seq (urandom_pos Peers.a_connected) 16)
              (pyb "ping")).2
        ++ (Demo.gcm_seal (take 32 (Peers.secret_of Peers.ct_a))
              (Demo.os_entropy <$> seq (urandom_pos Peers.a_connected) 16)
              (pyb "ping")).1)),
     set_urandom_pos (fun p => (p + 16)%nat) Peers.a_connected)
  /\ forall frame, (32 <= length frame)%nat ->
       _decrypt_tunnel_message (L := Demo.lib true) frame Peers.sid_a
         Peers.a_connected
       = (Ret (Demo.gcm_open (take 32 (Peers.secret_of Peers.ct_a))
                 (take 16 frame) (take 16 (drop 16 frame)) (drop 32 frame)
               ≫= bytes_decode), Peers.a_connected).
Proof.
  refine (C1_key_is_first_32_bytes_both_ways (L := Demo.lib true)
            Peers.a_connected Peers.sid_a (py "ping")
            (Peers.secret_of Peers.ct_a) (pyb "ping") _ _ _).
  - vm_compute. reflexivity.
  - right. right. vm_compute. reflexivity.
  - vm_compute. reflexivity.
Defined.

(** C1, counterexample.  For the service the handshake registered, the key
    of the cipher is the raw 32-byte shared secret itself, in the frame the
    hub sends as in the frame it accepts: the hub's own decryption opens
    what its encryption produced.  There is no derivation and there are no
    two subkeys. *)
Lemma C1_raw_secret_is_the_key_cex :
  let secret := Peers.secret_of Peers.ct_a in
  let iv := Demo.os_entropy <$> seq 0 16 in
  let sealed := Demo.gcm_seal secret iv (pyb "ping") in
  shared_secrets Peers.a_connected !! Peers.sid_a = Some secret
  /\ (_encrypt_tunnel_message (L := Demo.lib true) (py "ping") Peers.sid_a
        Peers.a_connected).1
     = Ret (Some (iv ++ sealed.2 ++ sealed.1))
  /\ Demo.gcm_open secret iv sealed.2 sealed.1 = Some (pyb "ping")
  /\ (_decrypt_tunnel_message (L := Demo.lib true)
        (iv ++ sealed.2 ++ sealed.1) Peers.sid_a Peers.a_connected).1
     = Ret (Some (py "ping")).
Proof. vm_compute. repeat split; reflexivity. Qed.

(** ** A handshake that fails after the secret was stored *)

(** C2, at the failing input.  The peer sends a well-formed encapsulation
    and is gone when the hub sends its confirmation.  The handshake fails
    and the socket is closed; no service is registered; but the shared
    secret derived for the connection stays in [shared_secrets]. *)
Theorem C2_failed_handshake_leaves_secret :
  let r := _start_tunnel_server (L := Demo.lib true) true
             [Peers.vanishing 40001 Peers.ct_a] Peers.started in
  shared_secrets Peers.started !! Peers.sid_a = None
  /\ (_perform_key_exchange (L := Demo.lib true) 0
        [Recv (Peers.client_encapsulation Peers.ct_a)]
        (sock_accept (Some 1%nat) Peers.started).2).1 = Ret None
  /\ r.1 = Ret [Ret tt]
  /\ sock_closed <$> sockets r.2 !! 0%nat = Some true
  /\ connected_services r.2 !! Peers.sid_a = None
  /\ shared_secrets r.2 !! Peers.sid_a = Some (Peers.secret_of Peers.ct_a).
Proof. vm_compute. repeat split; reflexivity. Qed.

(** *** Which failures leave the secrets alone *)

Section FailedHandshake.
Context {L : Lib}.

#[global] Instance same_registry_preorder :
  PreOrder (fun w w' => connected_services w' = connected_services w).
Proof. split; [by intros ? | intros ??? H1 H2; congruence]. Qed.

(** The handshake never touches [connected_services], whether it succeeds
    or fails. *)
Lemma key_exchange_keeps_registry client_socket inbox (w : world) :
  connected_services (_perform_key_exchange client_socket inbox w).2
  = connected_services w.
Proof.
  apply (preserves_key_exchange
           (fun w w' => connected_services w' = connected_services w)).
  - intros fd data w1.
    destruct (sock_send_cases fd data w1) as [-> | (s & _ & _ & ->)]; done.
  - by intros sid alg sk ct s _ w1.
Qed.

(** When the handshake returns [None] the handler closes the socket and
    registers nothing. *)
Lemma failed_handshake_closes_socket client_socket address utcnow inbox
    (w w1 : world) :
  _perform_key_exchange client_socket inbox w = (Ret None, w1) ->
  _handle_tunnel_connection client_socket address utcnow inbox w
  = (Ret tt, (sock_close client_socket w1).2)
  /\ connected_services (sock_close client_socket w1).2
     = connected_services w.
Proof.
  intros Hfail. split.
  - unfold _handle_tunnel_connection, try_except, bind. by rewrite Hfail.
  - pose proof (key_exchange_keeps_registry client_socket inbox w) as Hreg.
    rewrite Hfail in Hreg. exact Hreg.
Qed.

(** A handshake that ends before the client's message was accepted (a send
    or receive error, bytes that are not UTF-8, a message that does not
    start with [ENCAP_SECRET:]) leaves the secrets as they were. *)
Lemma rejected_message_keeps_secrets client_socket (w : world)
    (inbox : list recv_event) :
  (forall data rest response,
     inbox = Recv data :: rest -> bytes_decode data = Some response ->
     startswith response (py "ENCAP_SECRET:") = false) ->
  shared_secrets (_perform_key_exchange client_socket inbox w).2
  = shared_secrets w.
Proof.
  intros Hrej.
  unfold _perform_key_exchange, try_except, bind, gets, lift, ret, raise.
  destruct (public_key w) as [pk|]; [| done].
  destruct (str_encode _) as [hello|]; [| done].
  destruct (sock_send client_socket hello w) as [[[]| |] w1] eqn:Hsend.
  2,3: by destruct (sock_send_cases client_socket hello w)
         as [Hw | (s & _ & _ & Hw)]; rewrite Hsend in Hw; simpl in Hw; subst.
  assert (Hw1 : shared_secrets w1 = shared_secrets w).
  { by destruct (sock_send_cases client_socket hello w)
      as [Hw | (s & _ & _ & Hw)]; rewrite Hsend in Hw; simpl in Hw; subst. }
  destruct inbox as [|[data|] rest]; simpl; try done.
  destruct (bytes_decode data) as [response|] eqn:Hresp; [| done].
  by rewrite (Hrej data rest response eq_refl Hresp).
Qed.

End FailedHandshake.

(** ** Routing to a service that is not there *)

Lemma C4_unknown_target_witness :
  _route_internal_message (L := Demo.lib true) (Peers.ping_for Peers.sid_b)
    Peers.sid_a Peers.a_connected = (Ret tt, Peers.a_connected)
  /\ forall w2, (_route_internal_message (L := Demo.lib true)
                   (Peers.ping_for Peers.sid_b) Peers.sid_a w2).1 = Ret tt.
Proof.
  refine (C4_unknown_target_dropped_silently (L := Demo.lib true)
            Peers.a_connected (Peers.ping_for Peers.sid_b) Peers.sid_a _).
  intros t Ht. vm_compute in Ht. injection Ht as <-.
  vm_compute. reflexivity.
Defined.

(** C4, counterexample.  Service A is connected, service B is not.  A
    message for B leaves the whole state as it was, so /stats answers the
    same before and after, and the call returns what it returns for a
    message that was delivered (here: one A addresses to itself, which is
    written to A's socket). *)
Lemma C4_drop_is_not_counted_cex :
  let w := Peers.a_connected in
  let dropped := _route_internal_message (L := Demo.lib true)
                   (Peers.ping_for Peers.sid_b) Peers.sid_a w in
  let delivered := _route_internal_message (L := Demo.lib true)
                     (Peers.ping_for Peers.sid_a) Peers.sid_a w in
  connected_services w !! Peers.sid_b = None
  /\ dropped = (Ret tt, w)
  /\ get_stats 1700000000 dropped.2 = get_stats 1700000000 w
  /\ delivered.1 = dropped.1
  /\ length <$> (sock_sent <$> sockets delivered.2 !! 0%nat) = Some 3%nat
  /\ length <$> (sock_sent <$> sockets dropped.2 !! 0%nat) = Some 2%nat.
Proof. vm_compute. repeat split; reflexivity. Qed.

(** ** Registering under an id that is taken *)

Section Registry.
Context {L : Lib}.

(** C3, as the code has it.  Registering a connection under a service id
    that is present replaces the entry, so the id maps to the new session
    and to nothing else.  The call returns nothing, the sockets are as they
    were, and nothing the handler of the new connection does later closes
    the socket of the session it replaced. *)
Theorem C3_insert_replaces_entry_prior_socket_stays (w : world)
    (sid : pystr) (prior : service) (client_socket : nat)
    (address : pystr * N) (utcnow : pystr) (inbox : list recv_event) :
  connected_services w !! sid = Some prior ->
  svc_socket prior <> client_socket ->
  let entry := {| svc_socket := client_socket; svc_address := address;
                  svc_connected_at := utcnow;
                  svc_encryption := py "ML-KEM-768" |} in
  let w1 := set_connected_services <[sid := entry]> w in
  register_service sid client_socket address utcnow w = (Ret tt, w1)
  /\ connected_services w1 !! sid = Some entry
  /\ (forall sid', sid' <> sid ->
        connected_services w1 !! sid' = connected_services w !! sid')
  /\ sockets w1 = sockets w
  /\ sock_closed <$>
       sockets (_handle_tunnel_connection client_socket address utcnow
                  inbox w).2 !! svc_socket prior
     = sock_closed <$> sockets w !! svc_socket prior.
Proof.
  intros Hprior Hne entry w1. repeat split.
  - subst w1. simpl. apply lookup_insert_eq.
  - intros sid' Hsid. subst w1. simpl. by apply lookup_insert_ne.
  - by apply (closed_elsewhere_handle_connection client_socket address utcnow
                inbox w).
Qed.

End Registry.

Lemma C3_insert_replaces_entry_witness :
  sock_closed <$>
    sockets (_handle_tunnel_connection (L := Demo.lib true) 1
               (py "10.0.0.5", 40002) Peers.utcnow
               [Recv (Peers.client_encapsulation Peers.ct_a)]
               (sock_accept None Peers.a_connected).2).2 !! 0%nat
  = sock_closed <$> sockets (sock_accept None Peers.a_connected).2 !! 0%nat.
Proof.
  refine (proj2 (proj2 (proj2 (proj2
            (C3_insert_replaces_entry_prior_socket_stays (L := Demo.lib true)
               (sock_accept None Peers.a_connected).2 Peers.sid_a
               {| svc_socket := 0; svc_address := (py "10.0.0.5", 40001);
                  svc_connected_at := Peers.utcnow;
                  svc_encryption := py "ML-KEM-768" |}
               1%nat (py "10.0.0.5", 40002) Peers.utcnow
               [Recv (Peers.client_encapsulation Peers.ct_a)] _ _))))).
  - vm_compute. reflexivity.
  - cbn [svc_socket]. lia.
Defined.

(** C3, counterexample.  Two peers send the same encapsulation, so both
    derive the id 8b703ae98c1481e2.  After the second handshake the id
    maps to the second socket; the first socket was not closed, its handler
    is still reading, and [register_service] handed nothing back. *)
Lemma C3_prior_transport_left_open_cex :
  let two := hub_run (L := Demo.lib true)
               [Peers.talking 40001 Peers.ct_a [];
                Peers.talking 40002 Peers.ct_a []] fresh_world in
  svc_socket <$> connected_services Peers.a_connected !! Peers.sid_a
  = Some 0%nat
  /\ svc_socket <$> connected_services two.2 !! Peers.sid_a = Some 1%nat
  /\ two.1 = Ret [Block; Block]
  /\ sock_closed <$> sockets two.2 !! 0%nat = Some false
  /\ (register_service Peers.sid_a 1 (py "10.0.0.5", 40002) Peers.utcnow
        (sock_accept None Peers.a_connected).2).1 = Ret tt.
Proof. vm_compute. repeat split; reflexivity. Qed.

(** ** Frames that fail to authenticate *)

Section BadFrames.
Context {L : Lib}.

(** A frame too short to hold a nonce and a tag is refused. *)
Lemma short_frame_refused (data : bytes) (sid : pystr) (w : world) :
  (length data < 32)%nat ->
  _decrypt_tunnel_message data sid w = (Ret None, w).
Proof.
  intros Hshort.
  unfold _decrypt_tunnel_message, try_except, bind, gets.
  destruct (shared_secrets w !! sid) as [[|b s]|]; try reflexivity.
  destruct (AES_key_cases (take 32 (b :: s)) w) as [-> | ->]; [| reflexivity].
  unfold GCM_mode. case_bool_decide; [| reflexivity].
  rewrite bool_decide_eq_false_2; [reflexivity |].
  rewrite length_take, length_drop. lia.
Qed.

(** A frame whose tag the cipher rejects is refused. *)
Lemma forged_frame_refused (data : bytes) (sid : pystr) (s : bytes)
    (w : world) :
  shared_secrets w !! sid = Some s ->
  gcm_open (take 32 s) (take 16 data) (take 16 (drop 16 data)) (drop 32 data)
  = None ->
  _decrypt_tunnel_message data sid w = (Ret None, w).
Proof.
  intros Hs Hopen.
  unfold _decrypt_tunnel_message, try_except, bind, gets. rewrite Hs.
  destruct s as [|b s]; [reflexivity |].
  destruct (AES_key_cases (take 32 (b :: s)) w) as [-> | ->]; [| reflexivity].
  destruct (GCM_mode_cases (take 16 data) (Some (take 16 (drop 16 data))) w)
    as [-> | ->]; [| reflexivity].
  by rewrite Hopen.
Qed.

Lemma refused_frames_keep_loop_waiting (w : world) (sid : pystr)
    (frames : list bytes) :
  Forall (fun f => f <> [] /\ (_decrypt_tunnel_message f sid w).1 = Ret None)
    frames ->
  tunnel_messages_loop sid (Recv <$> frames) w = (Block, w).
Proof.
  induction 1 as [|f frames [Hne Hf] _ IH]; [reflexivity |].
  destruct f as [|b f]; [done |]. cbn [fmap list_fmap tunnel_messages_loop].
  destruct (_decrypt_tunnel_message_reads (b :: f) sid w) as [r Hr].
  rewrite Hr in Hf. simpl in Hf. injection Hf as ->.
  unfold bind at 1. unfold bind at 1. rewrite Hr. exact IH.
Qed.

Lemma refused_frames_keep_session (w : world) (client_socket : nat)
    (sid : pystr) (frames : list bytes) :
  Forall (fun f => f <> [] /\ (_decrypt_tunnel_message f sid w).1 = Ret None)
    frames ->
  _handle_tunnel_messages client_socket sid (Recv <$> frames) w = (Block, w).
Proof.
  intros Hf. unfold _handle_tunnel_messages, try_finally, try_except.
  by rewrite (refused_frames_keep_loop_waiting w sid frames Hf).
Qed.

(** C6, as the code has it.  A frame that fails to authenticate, or that is
    malformed, is dropped and the session is kept.  No count of failures is
    kept: after any number of such frames the state is what it was, the
    service is still registered and its handler is still reading. *)
Theorem C6_refused_frames_never_end_session (w : world)
    (client_socket : nat) (sid : pystr) (frames : list bytes) :
  Forall (fun f => f <> [] /\ (_decrypt_tunnel_message f sid w).1 = Ret None)
    frames ->
  _handle_tunnel_messages client_socket sid (Recv <$> frames) w = (Block, w).
Proof. apply refused_frames_keep_session. Qed.

End BadFrames.

Lemma C6_refused_frames_witness :
  _handle_tunnel_messages (L := Demo.lib true) 0 Peers.sid_a
    (Recv <$> [pyb "bad"; pyb "0123456789abcdef0123456789abcdef-forged";
               pyb "bad"]) Peers.a_connected
  = (Block, Peers.a_connected).
Proof.
  refine (C6_refused_frames_never_end_session (L := Demo.lib true)
            Peers.a_connected 0 Peers.sid_a
            [pyb "bad"; pyb "0123456789abcdef0123456789abcdef-forged";
             pyb "bad"] _).
  repeat (apply Forall_cons; split;
          [split; [vm_compute; discriminate | vm_compute; reflexivity] |]).
  constructor.
Defined.

(** C6, counterexample.  There is no threshold: for every number of
    malformed frames a connected service sends, the service is still
    registered afterwards. *)
Lemma C6_no_failure_threshold_cex :
  is_Some (connected_services Peers.a_connected !! Peers.sid_a)
  /\ ~ exists threshold : nat, forall n : nat, (threshold < n)%nat ->
         connected_services
           (_handle_tunnel_messages (L := Demo.lib true) 0 Peers.sid_a
              (Recv <$> replicate n (pyb "bad")) Peers.a_connected).2
         !! Peers.sid_a = None.
Proof.
  assert (Hreg : is_Some (connected_services Peers.a_connected !! Peers.sid_a))
    by (eexists; vm_compute; reflexivity).
  revert Hreg. generalize Peers.a_connected, Peers.sid_a. intros w sid Hreg.
  split; [exact Hreg |].
  intros [threshold Hgone].
  specialize (Hgone (S threshold) (Nat.lt_succ_diag_r threshold)).
  assert (Hbad : Forall (fun f => f <> []
                   /\ (_decrypt_tunnel_message (L := Demo.lib true) f sid w).1
                      = Ret None)
                   (replicate (S threshold) (pyb "bad"))).
  { apply Forall_replicate. split; [vm_compute; discriminate |].
    rewrite short_frame_refused; [reflexivity |].
    vm_compute. lia. }
  pose proof (refused_frames_keep_session (L := Demo.lib true) w 0 sid
                (replicate (S threshold) (pyb "bad")) Hbad) as Hkeep.
  rewrite Hkeep in Hgone. cbn [snd] in Hgone.
  rewrite Hgone in Hreg. by destruct Hreg.
Qed.

(** ** The listener accepts whatever arrives *)

Section AcceptAll.
Context {L : Lib}.

Lemma accept_loop_accepts_all (incoming : list connection) (w : world) :
  exists ts w',
    accept_loop incoming w = (Ret ts, w')
    /\ length ts = length incoming
    /\ length (sockets w') = (length (sockets w) + length incoming)%nat.
Proof.
  revert w. induction incoming as [|c incoming IH]; intros w.
  - exists [], w. simpl. repeat split. lia.
  - cbn [accept_loop]. unfold bind at 1. unfold sock_accept at 1.
    set (w1 := set_sockets _ w). set (fd := length (sockets w)).
    unfold bind at 1. unfold spawn.
    pose proof (closed_elsewhere_handle_connection fd (conn_address c)
                  (conn_time c) (conn_inbox c) w1) as [Hlen _].
    destruct (_handle_tunnel_connection fd _ _ _ w1) as [o w2].
    destruct (IH w2) as (ts & w' & Hrun & Hts & Hsocks).
    exists (o :: ts), w'. unfold bind. rewrite Hrun. repeat split.
    + simpl. by rewrite Hts.
    + rewrite Hsocks. simpl in Hlen. rewrite Hlen. subst w1. simpl.
      rewrite length_app. simpl. lia.
Qed.



End AcceptAll.




(** ** What the handshake puts on the wire *)

Section Wire.
Context {L : Lib}.

Lemma bind_Ret_inv {A B} (m : M A) (k : A -> M B) w b w' :
  bind m k w = (Ret b, w') ->
  exists a w1, m w = (Ret a, w1) /\ k a w1 = (Ret b, w').
Proof.
  unfold bind. destruct (m w) as [[a| |] w1]; try discriminate. eauto.
Qed.

Lemma lift_Ret_inv {A} (o : option A) w a w' :
  lift o w = (Ret a, w') -> o = Some a /\ w' = w.
Proof. destruct o; simpl; [| discriminate]. by intros [= -> ->]. Qed.

Lemma kem_decap_secret_reads ct w s w' :
  kem_decap_secret ct w = (Ret s, w') -> w' = w.
Proof.
  unfold kem_decap_secret, bind, gets, lift, ret, raise.
  destruct (kem w) as [k|]; [| discriminate].
  destruct (kem_secret_key k); [| discriminate].
  destruct (oqs_decap_secret _ _ _); [| discriminate].
  by intros [= _ <-].
Qed.

Lemma sock_send_Ret_inv fd data w w' :
  sock_send fd data w = (Ret tt, w') ->
  exists s, sockets w !! fd = Some s
    /\ w' = set_sockets <[fd := {| sock_closed := false;
                                   sock_sent := sock_sent s ++ [data];
                                   sock_quota := pred <$> sock_quota s |}]> w.
Proof.
  unfold sock_send.
  destruct (sockets w !! fd) as [s|]; [| discriminate].
  destruct (sock_closed s); [discriminate |].
  destruct (sock_quota s) as [[|q]|] eqn:Eq; [discriminate | |];
    intros [= <-]; exists s; by rewrite Eq.
Qed.

(** C9, as the code has it.  A handshake that succeeds wrote two lines of
    text to the socket and nothing else: [PUB_KEY:] with the base64 of the
    public key, and [CONNECTED:] with the service id, each ended by a line
    feed; what it read from the client is text that starts with
    [ENCAP_SECRET:]. *)
Theorem C9_handshake_messages_are_text_lines (w w' : world)
    (client_socket : nat) (inbox : list recv_event) (sid : pystr) :
  _perform_key_exchange client_socket inbox w = (Ret (Some sid), w') ->
  exists pk s data rest response hello confirm,
    public_key w = Some pk
    /\ sockets w !! client_socket = Some s
    /\ inbox = Recv data :: rest
    /\ bytes_decode data = Some response
    /\ startswith response (py "ENCAP_SECRET:") = true
    /\ str_encode (py "PUB_KEY:" ++ b64encode pk ++ LF) = Some hello
    /\ str_encode (py "CONNECTED:" ++ sid ++ LF) = Some confirm
    /\ sock_sent <$> sockets w' !! client_socket
       = Some (sock_sent s ++ [hello; confirm]).
Proof.
  unfold _perform_key_exchange, try_except.
  match goal with |- context [bind ?m ?k w] =>
    destruct (bind m k w) as [[r| |] w1] eqn:E end;
    [| discriminate | discriminate].
  intros [= -> ->].
  apply bind_Ret_inv in E as (pk & w1 & Hpk & E).
  apply bind_Ret_inv in Hpk as (opk & w0 & Hget & Hpk).
  unfold gets in Hget. injection Hget as <- <-.
  apply lift_Ret_inv in Hpk as [Hpk ->].
  cbv zeta in E.
  apply bind_Ret_inv in E as (hello & w1 & Hhello & E).
  apply lift_Ret_inv in Hhello as [Hhello ->].
  apply bind_Ret_inv in E as ([] & w1 & Hsend1 & E).
  apply sock_send_Ret_inv in Hsend1 as (s & Hs & ->).
  apply bind_Ret_inv in E as (data & w1 & Hrecv & E).
  destruct inbox as [|[data'|] rest]; try discriminate.
  unfold sock_recv, ret in Hrecv. injection Hrecv as <- <-.
  apply bind_Ret_inv in E as (response & w1 & Hresp & E).
  apply lift_Ret_inv in Hresp as [Hresp ->].
  destruct (startswith response (py "ENCAP_SECRET:")) eqn:Hstart;
    [| discriminate].
  apply bind_Ret_inv in E as (b64 & w1 & Hb64 & E).
  apply lift_Ret_inv in Hb64 as [_ ->].
  apply bind_Ret_inv in E as (ct & w1 & Hct & E).
  apply lift_Ret_inv in Hct as [_ ->].
  apply bind_Ret_inv in E as (secret & w1 & Hdecap & E).
  apply kem_decap_secret_reads in Hdecap as ->.
  cbv zeta in E.
  apply bind_Ret_inv in E as ([] & w1 & Hstore & E).
  unfold store_shared_secret, modify in Hstore. injection Hstore as <-.
  apply bind_Ret_inv in E as (confirm & w1 & Hconfirm & E).
  apply lift_Ret_inv in Hconfirm as [Hconfirm ->].
  apply bind_Ret_inv in E as ([] & w1 & Hsend2 & E).
  apply sock_send_Ret_inv in Hsend2 as (s1 & Hs1 & ->).
  unfold ret in E. injection E as <- <-.
  simpl in Hs1.
  rewrite list_lookup_insert_eq in Hs1 by (by eapply lookup_lt_Some).
  injection Hs1 as <-.
  exists pk, s, data', rest, response, hello, confirm.
  repeat split; try done.
  simpl. rewrite list_lookup_insert_eq.
  - simpl. by rewrite <- app_assoc.
  - rewrite length_insert. by eapply lookup_lt_Some.
Qed.

End Wire.

Lemma C9_handshake_lines_witness :
  exists pk s data rest response hello confirm,
    public_key (sock_accept None Peers.started).2 = Some pk
    /\ sockets (sock_accept None Peers.started).2 !! 0%nat = Some s
    /\ [Recv (Peers.client_encapsulation Peers.ct_a)] = Recv data :: rest
    /\ bytes_decode data = Some response
    /\ startswith response (py "ENCAP_SECRET:") = true
    /\ str_encode (py "PUB_KEY:" ++ Demo.b64encode pk ++ LF) = Some hello
    /\ str_encode (py "CONNECTED:" ++ Peers.sid_a ++ LF) = Some confirm
    /\ sock_sent <$>
         sockets (_perform_key_exchange (L := Demo.lib true) 0
                    [Recv (Peers.client_encapsulation Peers.ct_a)]
                    (sock_accept None Peers.started).2).2 !! 0%nat
       = Some (sock_sent s ++ [hello; confirm]).
Proof.
  refine (C9_handshake_messages_are_text_lines (L := Demo.lib true)
            (sock_accept None Peers.started).2
            (_perform_key_exchange (L := Demo.lib true) 0
               [Recv (Peers.client_encapsulation Peers.ct_a)]
               (sock_accept None Peers.started).2).2
            0 [Recv (Peers.client_encapsulation Peers.ct_a)] Peers.sid_a _).
  vm_compute. reflexivity.
Defined.

Ltac no_length_prefix :=
  let width := fresh "width" in
  let Hle := fresh "Hle" in
  let Heq := fresh "Heq" in
  intros [width [[_ Hle] Heq]]; vm_compute in Hle;
  do 40 (destruct width as [|width];
         [first [lia | vm_compute in Heq; destruct Heq; discriminate] |]);
  lia.

(** C9, counterexample.  On the wire of a successful handshake: the hub
    wrote the text lines [PUB_KEY:...] and [CONNECTED:...], the client's
    message was the text [ENCAP_SECRET:...], and none of the three carries a
    length prefix of any width.  A client that does send its encapsulation
    behind a four-byte length is turned away. *)
Lemma C9_handshake_is_delimited_text_cex :
  let w := (sock_accept None Peers.started).2 in
  let r := _perform_key_exchange (L := Demo.lib true) 0
             [Recv (Peers.client_encapsulation Peers.ct_a)] w in
  let hello := pyb "PUB_KEY:ZGVtby1rZW0tcHVibGljLWtleQ==" ++ ["010"%byte] in
  let confirm := pyb "CONNECTED:8b703ae98c1481e2" ++ ["010"%byte] in
  let encap := pyb "ENCAP_SECRET:Y3Qtb2YtQSE=" in
  r.1 = Ret (Some Peers.sid_a)
  /\ sock_sent <$> sockets r.2 !! 0%nat = Some [hello; confirm]
  /\ Peers.client_encapsulation Peers.ct_a = encap
  /\ (~ exists width, length_prefixed width hello)
  /\ (~ exists width, length_prefixed width confirm)
  /\ (~ exists width, length_prefixed width encap)
  /\ length_prefixed 4 (["000"; "000"; "000"; "008"]%byte ++ Peers.ct_a)
  /\ (_perform_key_exchange (L := Demo.lib true) 0
        [Recv (["000"; "000"; "000"; "008"]%byte ++ Peers.ct_a)] w).1
     = Ret None.
Proof.
  cbv zeta.
  split; [vm_compute; reflexivity |].
  split; [vm_compute; reflexivity |].
  split; [vm_compute; reflexivity |].
  split; [no_length_prefix |].
  split; [no_length_prefix |].
  split; [no_length_prefix |].
  split; [| vm_compute; reflexivity].
  split; [vm_compute; lia | left; vm_compute; reflexivity].
Qed.

(** ** What sending and routing leave alone *)

Section Contained.
Context {L : Lib}.

#[global] Instance registry_kept_preorder : PreOrder registry_kept.
Proof.
  split.
  - by intros w.
  - intros w1 w2 w3 (? & ? & ? & ?) (? & ? & ? & ?).
    repeat split; congruence.
Qed.

#[global] Instance sockets_kept_preorder : PreOrder sockets_kept.
Proof.
  split.
  - by intros w.
  - intros w1 w2 w3 [Hl1 H1] [Hl2 H2]. split; [congruence |].
    intros fd. by rewrite H2, H1.
Qed.

Lemma registry_kept_send fd data : preserves registry_kept (sock_send fd data).
Proof.
  intros w.
  destruct (sock_send_cases fd data w) as [-> | (s & _ & _ & ->)]; done.
Qed.

Lemma registry_kept_urandom n : preserves registry_kept (os_urandom n).
Proof. by intros w. Qed.

Lemma sockets_kept_send fd data : preserves sockets_kept (sock_send fd data).
Proof.
  intros w.
  destruct (sock_send_cases fd data w) as [-> | (s & Hs & Hc & ->)];
    [done |].
  split; simpl.
  - by rewrite length_insert.
  - intros fd'. destruct (decide (fd' = fd)) as [-> |].
    + rewrite list_lookup_insert_eq by (by eapply lookup_lt_Some).
      rewrite Hs. simpl. by rewrite Hc.
    + by rewrite list_lookup_insert_ne.
Qed.

Lemma sockets_kept_urandom n : preserves sockets_kept (os_urandom n).
Proof. by intros w. Qed.

(** X1.  Routing is contained: whatever the message and the state,
    [_route_internal_message] returns normally (a message that is not JSON,
    a target that is not hashable, a send that fails are all swallowed),
    and it neither registers nor forgets a service or a secret, nor opens
    or closes a socket. *)
Theorem X1_route_is_contained (message sender : pystr) (w : world) :
  exists w',
    _route_internal_message message sender w = (Ret tt, w')
    /\ registry_kept w w' /\ sockets_kept w w'.
Proof.
  destruct (_route_internal_message_returns message sender w) as [w' Hw'].
  exists w'. split; [done |].
  pose proof (preserves_route registry_kept registry_kept_urandom
                registry_kept_send message sender w) as H1.
  pose proof (preserves_route sockets_kept sockets_kept_urandom
                sockets_kept_send message sender w) as H2.
  by rewrite Hw' in H1, H2.
Qed.

End Contained.

(** ** The end of a connection *)

Section Lifecycle.
Context {L : Lib}.

Lemma loop_ends (sid : pystr) (inbox : list recv_event) (w : world) :
  Exists ends_stream inbox ->
  exists o w', tunnel_messages_loop sid inbox w = (o, w') /\ o <> Block.
Proof.
  intros Hends. revert w.
  induction Hends as [e inbox [-> | ->] | e inbox _ IH]; intros w.
  - by exists (Ret tt), w.
  - by exists Raise, w.
  - destruct e as [[|b data]|]; [by exists (Ret tt), w | | by exists Raise, w].
    cbn [tunnel_messages_loop].
    destruct (_decrypt_tunnel_message_reads (b :: data) sid w) as [r Hr].
    unfold bind at 1. unfold bind at 1. rewrite Hr.
    assert (Hbody : exists w1,
               match r with
               | Some (c :: msg) => _route_internal_message (c :: msg) sid
               | _ => ret tt
               end w = (Ret tt, w1)).
    { destruct r as [[|c msg]|]; try by exists w.
      apply _route_internal_message_returns. }
    destruct Hbody as [w1 ->]. apply IH.
Qed.

Lemma loop_contained (sid : pystr) (inbox : list recv_event) (w : world) :
  registry_kept w (tunnel_messages_loop sid inbox w).2
  /\ sockets_kept w (tunnel_messages_loop sid inbox w).2.
Proof.
  split.
  - apply (preserves_loop registry_kept registry_kept_urandom
             registry_kept_send).
  - apply (preserves_loop sockets_kept sockets_kept_urandom
             sockets_kept_send).
Qed.

Lemma stream_end_disconnects (client_socket : nat) (sid : pystr)
    (inbox : list recv_event) (w : world) :
  Exists ends_stream inbox ->
  (client_socket < length (sockets w))%nat ->
  exists w',
    _handle_tunnel_messages client_socket sid inbox w = (Ret tt, w')
    /\ connected_services w' = delete sid (connected_services w)
    /\ shared_secrets w' = delete sid (shared_secrets w)
    /\ sock_closed <$> sockets w' !! client_socket = Some true
    /\ closed_elsewhere client_socket w w'.
Proof.
  intros Hends Hfd.
  destruct (loop_ends sid inbox w Hends) as (o & w1 & Hloop & Ho).
  destruct (loop_contained sid inbox w) as [(Hcs & Hss & _) [Hlen Hclosed]].
  rewrite Hloop in Hcs, Hss, Hlen, Hclosed. simpl in *.
  unfold _handle_tunnel_messages, try_finally, try_except. rewrite Hloop.
  eexists. split.
  { destruct o as [[]| |]; [reflexivity | reflexivity | done]. }
  simpl. rewrite Hcs, Hss.
  split; [done |]. split; [done |]. split; [| split].
  - rewrite list_lookup_alter_eq.
    destruct (lookup_lt_is_Some_2 (sockets w1) client_socket) as [s ->];
      [lia | done].
  - simpl. by rewrite length_alter.
  - intros fd' Hne. simpl. rewrite list_lookup_alter_ne by done.
    apply Hclosed.
Qed.

(** X2.  When the peer closes the connection or a read fails, the handler's
    loop ends and the clean-up runs: the service's entry and its secret are
    deleted, the other services stay, and the socket is closed. *)
Theorem X2_end_of_stream_disconnects (client_socket : nat) (sid : pystr)
    (inbox : list recv_event) (w : world) :
  Exists ends_stream inbox ->
  (client_socket < length (sockets w))%nat ->
  exists w',
    _handle_tunnel_messages client_socket sid inbox w = (Ret tt, w')
    /\ connected_services w' = delete sid (connected_services w)
    /\ shared_secrets w' = delete sid (shared_secrets w)
    /\ sock_closed <$> sockets w' !! client_socket = Some true
    /\ closed_elsewhere client_socket w w'.
Proof. apply stream_end_disconnects. Qed.

End Lifecycle.

(** ** A handler that returns has cleaned up *)

Section HandlerReturns.
Context {L : Lib}.

Lemma key_exchange_never_raises client_socket inbox (w : world) :
  (_perform_key_exchange client_socket inbox w).1 <> Raise.
Proof.
  unfold _perform_key_exchange, try_except.
  match goal with |- context [bind ?m ?k w] =>
    destruct (bind m k w) as [[r| |] w1] end; done.
Qed.

Lemma key_exchange_contained client_socket inbox (w : world) :
  sockets_kept w (_perform_key_exchange client_socket inbox w).2
  /\ connected_services (_perform_key_exchange client_socket inbox w).2
     = connected_services w.
Proof.
  split.
  - apply (preserves_key_exchange sockets_kept).
    + apply sockets_kept_send.
    + by intros sid alg sk ct s _ w1.
  - apply key_exchange_keeps_registry.
Qed.

Lemma handle_messages_outcome (client_socket : nat) (sid : pystr)
    (inbox : list recv_event) (w : world) :
  (exists w1, _handle_tunnel_messages client_socket sid inbox w = (Block, w1))
  \/ exists w1,
       _handle_tunnel_messages client_socket sid inbox w
       = (Ret tt, (sock_close client_socket (_disconnect_service sid w1).2).2)
       /\ registry_kept w w1 /\ sockets_kept w w1.
Proof.
  destruct (loop_contained sid inbox w) as [Hreg Hsock].
  unfold _handle_tunnel_messages, try_finally, try_except.
  destruct (tunnel_messages_loop sid inbox w) as [[[]| |] w1];
    [right | right | left]; by exists w1.
Qed.

(** X3.  A handler never lets an exception escape.  When it returns, on a
    socket no registry entry referred to before, the socket is closed and
    still no entry refers to it: the registry never keeps a closed
    socket of a handler that is over. *)
Theorem X3_returned_handler_left_nothing (client_socket : nat)
    (address : pystr * N) (utcnow : pystr) (inbox : list recv_event)
    (w : world) :
  (client_socket < length (sockets w))%nat ->
  (forall sid e, connected_services w !! sid = Some e ->
                 svc_socket e <> client_socket) ->
  let r := _handle_tunnel_connection client_socket address utcnow inbox w in
  r.1 <> Raise
  /\ (r.1 = Ret tt ->
      sock_closed <$> sockets r.2 !! client_socket = Some true
      /\ forall sid e, connected_services r.2 !! sid = Some e ->
                       svc_socket e <> client_socket).
Proof.
  intros Hfd Hfresh r. subst r.
  unfold _handle_tunnel_connection, try_except, bind.
  pose proof (key_exchange_never_raises client_socket inbox w) as Hnr.
  destruct (key_exchange_contained client_socket inbox w) as [[Hlen _] Hcs].
  destruct (_perform_key_exchange client_socket inbox w) as [[r| |] w1];
    [| done | by split].
  simpl in Hlen, Hcs.
  assert (Hclose : sock_closed <$> sockets (sock_close client_socket w1).2
                                    !! client_socket = Some true
                   /\ forall sid e,
                        connected_services (sock_close client_socket w1).2
                          !! sid = Some e -> svc_socket e <> client_socket).
  { split.
    - simpl. rewrite list_lookup_alter_eq.
      destruct (lookup_lt_is_Some_2 (sockets w1) client_socket) as [s ->];
        [lia | done].
    - simpl. rewrite Hcs. exact Hfresh. }
  destruct r as [[|c sid]|]; [by split | | by split].
  unfold register_service, modify. cbv zeta.
  set (w2 := set_connected_services _ w1).
  destruct (handle_messages_outcome client_socket (c :: sid) (tail inbox) w2)
    as [[w3 ->] | (w3 & -> & (Hcs3 & _) & [Hlen3 _])]; [by split |].
  split; [done |]. intros _. split.
  - simpl. rewrite list_lookup_alter_eq.
    destruct (lookup_lt_is_Some_2 (sockets w3) client_socket) as [s ->];
      [| done].
    rewrite Hlen3. subst w2. simpl. lia.
  - intros sid' e. simpl. rewrite Hcs3. subst w2. simpl.
    rewrite delete_insert_eq. rewrite Hcs.
    intros He. apply lookup_delete_Some in He as [_ He]. by eapply Hfresh.
Qed.

End HandlerReturns.

(** ** A hub without the library *)

Section NoLibrary.
Context {L : Lib}.

Lemma no_public_key_refuses (client_socket : nat) (address : pystr * N)
    (utcnow : pystr) (inbox : list recv_event) (w : world) :
  public_key w = None ->
  _handle_tunnel_connection client_socket address utcnow inbox w
  = (Ret tt, (sock_close client_socket w).2).
Proof.
  intros Hpk.
  unfold _handle_tunnel_connection, _perform_key_exchange, try_except, bind,
    gets, lift.
  by rewrite Hpk.
Qed.

Lemma accept_loop_all_refused (incoming : list connection) (w : world) :
  all_refused w ->
  exists w',
    accept_loop incoming w = (Ret (replicate (length incoming) (Ret tt)), w')
    /\ all_refused w'.
Proof.
  revert w. induction incoming as [|c incoming IH];
    intros w (Hpk & Hcs & Hss & Hsocks); [by exists w |].
  cbn [accept_loop length replicate].
  unfold bind at 1. unfold sock_accept at 1.
  set (w1 := set_sockets _ w). unfold bind at 1. unfold spawn.
  rewrite (no_public_key_refuses _ _ _ _ w1 Hpk).
  set (w2 := (sock_close _ w1).2).
  assert (Hw2 : all_refused w2).
  { repeat split; try done. subst w2 w1. simpl.
    replace (length (sockets w)) with (length (sockets w) + 0)%nat by lia.
    rewrite alter_app_r. simpl. apply Forall_app. split; [done |].
    by repeat constructor. }
  destruct (IH w2 Hw2) as (w3 & Hrun & Hfin).
  exists w3. unfold bind. by rewrite Hrun.
Qed.

(** X4.  When liboqs could not be imported the hub holds no key, and it
    answers every tunnel connection by closing it at once: nothing is
    sent, nothing is registered, every handler returns. *)
Theorem X4_hub_without_library_refuses_all (incoming : list connection)
    (w0 : world) :
  QUANTUM_AVAILABLE = false ->
  (hub_run incoming w0).1 = Ret (replicate (length incoming) (Ret tt))
  /\ connected_services (hub_run incoming w0).2 = ∅
  /\ shared_secrets (hub_run incoming w0).2 = ∅
  /\ length (sockets (hub_run incoming w0).2) = length incoming
  /\ Forall (fun s => sock_closed s = true /\ sock_sent s = [])
       (sockets (hub_run incoming w0).2).
Proof.
  intros Hq.
  assert (Hinit : __init__ w0 = (Ret tt, fresh_world)).
  { unfold __init__, _initialize_quantum_kem. by rewrite Hq. }
  unfold hub_run, bind. rewrite Hinit. unfold _start_tunnel_server.
  assert (Hfresh : all_refused fresh_world) by (repeat split; constructor).
  destruct (accept_loop_all_refused incoming fresh_world Hfresh)
    as (w' & Hres & Hpk & Hcs & Hss & Hsocks).
  destruct (accept_loop_accepts_all incoming fresh_world)
    as (ts & w'' & Hrun & _ & Hlen).
  rewrite Hres in Hrun |- *. injection Hrun as <- <-.
  simpl in *. repeat split; done.
Qed.

End NoLibrary.

(** ** A KEM that could not be set up *)

Section DegradedStartup.
Context {L : Lib}.

(** /health looks at nothing but the number of connected services. *)
Lemma health_check_reads_count (utcnow : pystr) (w w2 : world) :
  size (connected_services w2) = size (connected_services w) ->
  (health_check utcnow w2).1 = (health_check utcnow w).1.
Proof. intros Hsize. unfold health_check, bind, gets, ret. by rewrite Hsize. Qed.

Lemma failed_setup_leaves_no_key (w0 : world) :
  QUANTUM_AVAILABLE = true ->
  oqs_KeyEncapsulation kem_algorithm = false
  \/ oqs_generate_keypair kem_algorithm = None ->
  exists w1,
    __init__ w0 = (Ret tt, w1)
    /\ public_key w1 = None
    /\ (forall k, kem w1 = Some k -> kem_secret_key k = None)
    /\ connected_services w1 = ∅.
Proof.
  intros Hq Hfail.
  unfold __init__, _initialize_quantum_kem. rewrite Hq. cbn [negb].
  unfold try_except, bind, modify, lift, ret, raise.
  destruct (oqs_KeyEncapsulation kem_algorithm) eqn:Hkem.
  - destruct Hfail as [? | ->]; [done |].
    eexists. split; [reflexivity |]. split; [done |]. split; [| done].
    by intros k [= <-].
  - eexists. split; [reflexivity |]. split; [done |]. split; [| done].
    by intros k [=].
Qed.

(** C7, at the failing input.  liboqs imports, but setting up the KEM
    raises: the mechanism is not enabled, or generating the key pair
    fails.  Start-up swallows the exception and returns; the hub has no
    public key and no secret key, and it closes every tunnel connection at
    once.  /health nevertheless answers [healthy] with
    [real_quantum_crypto] true and [quantum_library] liboqs-python, and
    answers the same for this hub as for any hub with as many connected
    services, one that holds a key pair included: the degraded capability
    is not surfaced. *)
Theorem C7_failed_kem_setup_is_hidden_by_health (w0 : world)
    (utcnow : pystr) :
  QUANTUM_AVAILABLE = true ->
  oqs_KeyEncapsulation kem_algorithm = false
  \/ oqs_generate_keypair kem_algorithm = None ->
  exists w1,
    __init__ w0 = (Ret tt, w1)
    /\ public_key w1 = None
    /\ (forall k, kem w1 = Some k -> kem_secret_key k = None)
    /\ (forall client_socket address utcnow' inbox,
          _handle_tunnel_connection client_socket address utcnow' inbox w1
          = (Ret tt, (sock_close client_socket w1).2))
    /\ (exists body,
          health_check utcnow w1 = (Ret (Jsonify 200 (JObj body)), w1)
          /\ dict_lookup (py "status") body = Some (JStr (py "healthy"))
          /\ dict_lookup (py "real_quantum_crypto") body = Some (JBool true)
          /\ dict_lookup (py "quantum_library") body
             = Some (JStr (py "liboqs-python")))
    /\ forall w2, size (connected_services w2) = 0%nat ->
         (health_check utcnow w2).1 = (health_check utcnow w1).1.
Proof.
  intros Hq Hfail.
  destruct (failed_setup_leaves_no_key w0 Hq Hfail)
    as (w1 & Hinit & Hpk & Hsk & Hcs).
  exists w1. split; [done |]. split; [done |]. split; [done |].
  split; [| split].
  - intros fd address t inbox. by apply no_public_key_refuses.
  - unfold health_check, bind, gets, ret. rewrite Hq.
    eexists. split; [reflexivity |]. by repeat split.
  - intros w2 Hsize. apply health_check_reads_count.
    by rewrite Hsize, Hcs, map_size_empty.
Qed.

End DegradedStartup.

Lemma C7_failed_kem_setup_witness :
  exists w1,
    __init__ (L := Degraded.lib) fresh_world = (Ret tt, w1)
    /\ public_key w1 = None
    /\ (forall k, kem w1 = Some k -> kem_secret_key k = None)
    /\ (forall client_socket address utcnow' inbox,
          _handle_tunnel_connection (L := Degraded.lib) client_socket address
            utcnow' inbox w1
          = (Ret tt, (sock_close client_socket w1).2))
    /\ (exists body,
          health_check (L := Degraded.lib) Peers.utcnow w1
          = (Ret (Jsonify 200 (JObj body)), w1)
          /\ dict_lookup (py "status") body = Some (JStr (py "healthy"))
          /\ dict_lookup (py "real_quantum_crypto") body = Some (JBool true)
          /\ dict_lookup (py "quantum_library") body
             = Some (JStr (py "liboqs-python")))
    /\ forall w2, size (connected_services w2) = 0%nat ->
         (health_check (L := Degraded.lib) Peers.utcnow w2).1
         = (health_check (L := Degraded.lib) Peers.utcnow w1).1.
Proof.
  exact (C7_failed_kem_setup_is_hidden_by_health (L := Degraded.lib)
           fresh_world Peers.utcnow eq_refl (or_introl eq_refl)).
Defined.

(** The two hubs side by side: one whose KEM was set up, one whose set-up
    raised.  /health gives the same answer for both. *)
Lemma degraded_health_equals_working_health (utcnow : pystr) :
  public_key Peers.started = Some Demo.kem_public_key
  /\ public_key Degraded.started = None
  /\ (health_check (L := Degraded.lib) utcnow Degraded.started).1
     = (health_check (L := Demo.lib true) utcnow Peers.started).1.
Proof. split; [| split]; reflexivity. Qed.

(** ** Decryption and encryption at their edges *)

Section CipherEdges.
Context {L : Lib}.

(** X5.  Decryption reads the state and fails closed: it never raises and
    never changes anything, and it returns [None] when the service has no
    secret on record, when the frame is shorter than the 32 bytes of nonce
    and tag, and when the cipher rejects the tag. *)
Theorem X5_decrypt_reads_and_fails_closed (data : bytes) (sid : pystr)
    (w : world) :
  exists r,
    _decrypt_tunnel_message data sid w = (Ret r, w)
    /\ (shared_secrets w !! sid = None -> r = None)
    /\ ((length data < 32)%nat -> r = None)
    /\ (forall s, shared_secrets w !! sid = Some s ->
          gcm_open (take 32 s) (take 16 data) (take 16 (drop 16 data))
            (drop 32 data) = None -> r = None).
Proof.
  destruct (_decrypt_tunnel_message_reads data sid w) as [r Hr].
  exists r. split; [done |]. repeat split.
  - intros Hnone. unfold _decrypt_tunnel_message, try_except, bind, gets in Hr.
    rewrite Hnone in Hr. by injection Hr.
  - intros Hshort. rewrite short_frame_refused in Hr by done. by injection Hr.
  - intros s Hs Hopen.
    rewrite (forged_frame_refused data sid s w Hs Hopen) in Hr.
    by injection Hr.
Qed.

Lemma encrypt_without_secret (message sid : pystr) (w : world) :
  shared_secrets w !! sid = None ->
  _encrypt_tunnel_message message sid w = (Ret None, w).
Proof.
  intros Hnone. unfold _encrypt_tunnel_message, try_except, bind, gets.
  by rewrite Hnone.
Qed.

(** X6.  Encryption never raises and touches nothing but the entropy.
    Without a secret for the service it returns [None] and draws no
    entropy.  A frame it returns starts with the 16 bytes the call drew
    from os.urandom, which no later call draws again, and has at least the
    32 bytes of nonce and tag. *)
Theorem X6_encrypt_frame_and_entropy `{!LibLaws L} (message sid : pystr)
    (w : world) :
  exists r w',
    _encrypt_tunnel_message message sid w = (Ret r, w')
    /\ registry_kept w w' /\ sockets w' = sockets w
    /\ (shared_secrets w !! sid = None -> r = None /\ w' = w)
    /\ (forall frame, r = Some frame ->
          take 16 frame = os_entropy <$> seq (urandom_pos w) 16
          /\ urandom_pos w' = (urandom_pos w + 16)%nat
          /\ (32 <= length frame)%nat).
Proof.
  unfold _encrypt_tunnel_message, try_except, bind, gets.
  destruct (shared_secrets w !! sid) as [[|b s]|] eqn:Hs.
  1,3: exists None, w; repeat split; done.
  unfold os_urandom.
  set (w' := set_urandom_pos _ w). set (iv := _ <$> _).
  assert (Hiv : length iv = 16%nat)
    by (subst iv; by rewrite length_fmap, length_seq).
  assert (Hnone : exists r0 : option bytes, r0 = None
            /\ registry_kept w w' /\ sockets w' = sockets w
            /\ (Some (b :: s) = None -> r0 = None /\ w' = w)
            /\ (forall frame, r0 = Some frame ->
                  take 16 frame = iv
                  /\ urandom_pos w' = (urandom_pos w + 16)%nat
                  /\ (32 <= length frame)%nat)).
  { exists None. repeat split; done. }
  destruct Hnone as (r0 & -> & Hnone).
  destruct (AES_key_cases (take 32 (b :: s)) w') as [-> | ->];
    [| by exists None, w'].
  destruct (GCM_mode_cases iv None w') as [-> | ->]; [| by exists None, w'].
  unfold lift, ret, raise.
  destruct (str_encode message) as [pt|]; cbv beta iota;
    [| by exists None, w'].
  pose proof (gcm_tag_length (take 32 (b :: s)) iv pt) as Htag.
  destruct (gcm_seal _ _ _) as [ct tag]. cbn [snd] in Htag.
  exists (Some (iv ++ tag ++ ct)), w'. split; [done |].
  split; [done |]. split; [done |]. split; [done |].
  intros frame Hf. assert (Hfr : frame = iv ++ tag ++ ct) by congruence.
  rewrite Hfr. split; [by rewrite take_app_length' |].
  split; [done |]. rewrite !length_app. lia.
Qed.

End CipherEdges.

(** ** A well-formed handshake succeeds *)

Section HandshakeSucceeds.
Context {L : Lib}.

Lemma startswith_spec (s p : pystr) :
  startswith s p = true -> s = p ++ drop (length p) s.
Proof.
  revert s. induction p as [|c p IH]; intros s; [done |].
  destruct s as [|d s]; [done |]. simpl.
  intros [Hc Hp]%andb_true_iff. apply N.eqb_eq in Hc as ->.
  f_equal. by apply IH.
Qed.

(** What follows [ENCAP_SECRET:] is the second piece of the split. *)
Lemma encap_secret_payload (response : pystr) :
  startswith response (py "ENCAP_SECRET:") = true ->
  split_once 58 response !! 1%nat = Some (drop 13 response).
Proof.
  intros Hstart. apply startswith_spec in Hstart.
  change (length (py "ENCAP_SECRET:")) with 13%nat in Hstart.
  rewrite Hstart at 1.
  change (py "ENCAP_SECRET:")
    with [69; 78; 67; 65; 80; 95; 83; 69; 67; 82; 69; 84; 58].
  reflexivity.
Qed.

Lemma handshake_accepts (w : world) (client_socket : nat)
    (sock : socket) (pk sk data ct secret hello confirm : bytes)
    (k : kem_object) (response : pystr) (rest : list recv_event) :
  public_key w = Some pk ->
  kem w = Some k -> kem_secret_key k = Some sk ->
  sockets w !! client_socket = Some sock ->
  sock_closed sock = false -> sock_quota sock = None ->
  str_encode (py "PUB_KEY:" ++ b64encode pk ++ LF) = Some hello ->
  bytes_decode data = Some response ->
  startswith response (py "ENCAP_SECRET:") = true ->
  b64decode (strip (drop 13 response)) = Some ct ->
  oqs_decap_secret (kem_alg k) sk ct = Some secret ->
  str_encode (py "CONNECTED:" ++ take 16 (sha256_hexdigest secret) ++ LF)
  = Some confirm ->
  exists w',
    _perform_key_exchange client_socket (Recv data :: rest) w
    = (Ret (Some (take 16 (sha256_hexdigest secret))), w')
    /\ shared_secrets w'
       = <[take 16 (sha256_hexdigest secret) := secret]> (shared_secrets w)
    /\ connected_services w' = connected_services w
    /\ sock_sent <$> sockets w' !! client_socket
       = Some (sock_sent sock ++ [hello; confirm]).
Proof.
  intros Hpk Hk Hsk Hsock Hopen Hquota Hhello Hresp Hstart Hct Hsecret
    Hconfirm.
  unfold _perform_key_exchange, try_except, bind, gets, lift, ret.
  rewrite Hpk, Hhello. unfold sock_send at 1. rewrite Hsock, Hopen, Hquota.
  cbn [sock_recv fmap option_fmap option_map]. unfold ret.
  rewrite Hresp, Hstart. rewrite (encap_secret_payload response Hstart).
  cbn [fmap option_fmap option_map]. rewrite Hct.
  unfold kem_decap_secret, bind, gets, lift, ret.
  cbn [kem set_sockets]. rewrite Hk, Hsk, Hsecret.
  unfold store_shared_secret, modify. rewrite Hconfirm.
  unfold sock_send. cbn [sockets set_shared_secrets set_sockets].
  rewrite list_lookup_insert_eq by (by eapply lookup_lt_Some).
  cbn [sock_closed sock_quota fmap option_fmap option_map].
  eexists. split; [reflexivity |]. split; [reflexivity |].
  split; [reflexivity |].
  cbn [sockets set_shared_secrets set_sockets].
  rewrite list_lookup_insert_eq
    by (rewrite length_insert; by eapply lookup_lt_Some).
  cbn [fmap option_fmap option_map sock_sent]. by rewrite <- app_assoc.
Qed.

(** X7.  A client that answers the public key with [ENCAP_SECRET:] and the
    base64 of a ciphertext the KEM accepts completes the handshake: the
    call returns the first 16 hex digits of the SHA-256 of the shared
    secret as the service id, the secret is stored under that id and no
    other secret changes, the registry is not touched, and the socket
    carries the two lines [PUB_KEY:...] and [CONNECTED:<id>]. *)
Theorem X7_well_formed_handshake_succeeds (w : world) (client_socket : nat)
    (sock : socket) (pk sk data ct secret hello confirm : bytes)
    (k : kem_object) (response : pystr) (rest : list recv_event) :
  public_key w = Some pk ->
  kem w = Some k -> kem_secret_key k = Some sk ->
  sockets w !! client_socket = Some sock ->
  sock_closed sock = false -> sock_quota sock = None ->
  str_encode (py "PUB_KEY:" ++ b64encode pk ++ LF) = Some hello ->
  bytes_decode data = Some response ->
  startswith response (py "ENCAP_SECRET:") = true ->
  b64decode (strip (drop 13 response)) = Some ct ->
  oqs_decap_secret (kem_alg k) sk ct = Some secret ->
  str_encode (py "CONNECTED:" ++ take 16 (sha256_hexdigest secret) ++ LF)
  = Some confirm ->
  exists w',
    _perform_key_exchange client_socket (Recv data :: rest) w
    = (Ret (Some (take 16 (sha256_hexdigest secret))), w')
    /\ shared_secrets w'
       = <[take 16 (sha256_hexdigest secret) := secret]> (shared_secrets w)
    /\ connected_services w' = connected_services w
    /\ sock_sent <$> sockets w' !! client_socket
       = Some (sock_sent sock ++ [hello; confirm]).
Proof. apply handshake_accepts. Qed.

End HandshakeSucceeds.

(** ** Service ids *)

Section ServiceIds.
Context {L : Lib}.

#[global] Instance ids_derived_preorder :
  PreOrder (fun w w' => ids_derived w -> ids_derived w').
Proof. split; [by intros ? | intros ??? H1 H2 ?; auto]. Qed.

(** The handshake stores nothing, or one secret under the id derived from
    it. *)
Lemma key_exchange_stores_derived (client_socket : nat)
    (inbox : list recv_event) (w : world) :
  shared_secrets (_perform_key_exchange client_socket inbox w).2
  = shared_secrets w
  \/ exists secret,
       shared_secrets (_perform_key_exchange client_socket inbox w).2
       = <[take 16 (sha256_hexdigest secret) := secret]> (shared_secrets w).
Proof.
  assert (Hsend : forall fd data w0,
            shared_secrets (sock_send fd data w0).2 = shared_secrets w0).
  { intros fd data w0.
    by destruct (sock_send_cases fd data w0) as [-> | (s & _ & _ & ->)]. }
  unfold _perform_key_exchange, try_except, bind, gets, lift, ret, raise.
  destruct (public_key w) as [pk|]; [| by left].
  destruct (str_encode _) as [hello|]; [| by left].
  pose proof (Hsend client_socket hello w) as Hw1.
  destruct (sock_send client_socket hello w) as [[[]| |] w1];
    cbn [snd] in Hw1; [| by left | by left].
  destruct inbox as [|[data|] rest]; cbn [sock_recv block ret raise];
    [left; exact Hw1 | | left; exact Hw1].
  destruct (bytes_decode data) as [response|]; [| left; exact Hw1].
  destruct (startswith response (py "ENCAP_SECRET:")); [| left; exact Hw1].
  destruct (split_once 58 response !! 1%nat) as [b64|];
    cbn [fmap option_fmap option_map]; [| left; exact Hw1].
  destruct (b64decode (strip b64)) as [ct|]; [| left; exact Hw1].
  unfold kem_decap_secret, bind, gets, lift, ret, raise.
  destruct (kem w1) as [k|]; [| left; exact Hw1].
  destruct (kem_secret_key k) as [sk|]; [| left; exact Hw1].
  destruct (oqs_decap_secret (kem_alg k) sk ct) as [secret|]; [| left; exact Hw1].
  unfold store_shared_secret, modify.
  set (w2 := set_shared_secrets _ w1).
  assert (Hw2 : shared_secrets w2
                = <[take 16 (sha256_hexdigest secret) := secret]>
                    (shared_secrets w)) by (subst w2; cbn; by rewrite Hw1).
  destruct (str_encode _) as [confirm|]; [| right; by exists secret].
  pose proof (Hsend client_socket confirm w2) as Hw3.
  right. exists secret.
  destruct (sock_send client_socket confirm w2) as [[[]| |] w3];
    cbn [snd] in Hw3 |- *; by rewrite Hw3.
Qed.

Lemma ids_derived_handle_connection (client_socket : nat)
    (address : pystr * N) (utcnow : pystr) (inbox : list recv_event) :
  preserves (fun w w' => ids_derived w -> ids_derived w')
    (_handle_tunnel_connection client_socket address utcnow inbox).
Proof.
  assert (Hclose : forall fd,
            preserves (fun w w' => ids_derived w -> ids_derived w')
              (sock_close fd)) by (by intros fd w).
  unfold _handle_tunnel_connection.
  apply preserves_try_except; [exact _ | | apply Hclose].
  apply preserves_bind; [exact _ | |].
  - intros w Hw sid s.
    destruct (key_exchange_stores_derived client_socket inbox w)
      as [-> | (secret & ->)]; [by apply Hw |].
    intros [[<- <-] | [_ Hs]]%lookup_insert_Some; [done | by apply Hw].
  - intros [[|c sid]|]; try apply Hclose.
    apply preserves_bind; [exact _ | by intros w | intros _].
    apply preserves_handle_messages; try exact _.
    + by intros n w.
    + intros fd data w Hw.
      by destruct (sock_send_cases fd data w) as [-> | (s & _ & _ & ->)].
    + intros sid' w Hw sid2 s. unfold _disconnect_service, bind, modify.
      simpl. intros Hs. apply lookup_delete_Some in Hs as [_ Hs].
      by apply Hw.
    + apply Hclose.
Qed.

Lemma hub_run_ids_derived (incoming : list connection) (w0 : world) :
  ids_derived (hub_run incoming w0).2.
Proof.
  unfold hub_run, bind.
  destruct (_initialize_quantum_kem_returns fresh_world) as [w1 Hw1].
  pose proof (init_registry_empty w0) as (Hs & _ & _).
  unfold __init__ in *. rewrite Hw1 in *. simpl in Hs.
  unfold _start_tunnel_server.
  apply (preserves_accept_loop (fun w w' => ids_derived w -> ids_derived w')
           incoming).
  - by intros quota w.
  - apply ids_derived_handle_connection.
  - intros sid s. by rewrite Hs, lookup_empty.
Qed.

(** X17.  A service id is never chosen by the peer: whatever connections
    the hub has handled since it started, every secret on record is filed
    under the first 16 hex digits of its own SHA-256.  Two peers share an
    id only when their secrets share that digest prefix. *)
Theorem X17_service_id_is_digest_of_secret (incoming : list connection)
    (w0 : world) (sid : pystr) (s : bytes) :
  shared_secrets (hub_run incoming w0).2 !! sid = Some s ->
  sid = take 16 (sha256_hexdigest s).
Proof. apply hub_run_ids_derived. Qed.

End ServiceIds.

Lemma X17_service_id_witness :
  Peers.sid_a
  = take 16 (Demo.sha256_hexdigest (Peers.secret_of Peers.ct_a)).
Proof.
  refine (X17_service_id_is_digest_of_secret (L := Demo.lib true)
            [Peers.talking 40001 Peers.ct_a []] fresh_world Peers.sid_a
            (Peers.secret_of Peers.ct_a) _).
  vm_compute. reflexivity.
Defined.

(** ** Relaying *)

Section Utf8Decoded.

Lemma utf8_cont_bound b c : utf8_cont b = Some c -> c < 64.
Proof.
  unfold utf8_cont.
  destruct (_ && _) eqn:E; [| done]. intros [= <-].
  apply andb_true_iff in E as [H1 H2].
  apply N.leb_le in H1. apply N.ltb_lt in H2. lia.
Qed.

Lemma valid_text_cons c s :
  c < 0x110000 -> is_surrogate c = false -> valid_text s ->
  valid_text (c :: s).
Proof. intros. by constructor. Qed.

Lemma not_surrogate_below c : c < 0xD800 -> is_surrogate c = false.
Proof.
  intros Hc. unfold is_surrogate. apply andb_false_iff. left.
  apply N.leb_gt. lia.
Qed.

Lemma not_surrogate_above c : 0xDFFF < c -> is_surrogate c = false.
Proof.
  intros Hc. unfold is_surrogate. apply andb_false_iff. right.
  apply N.leb_gt. lia.
Qed.

(** What [decode] returns is text that [encode] accepts. *)
Lemma bytes_decode_valid (n : nat) (b : bytes) (s : pystr) :
  (length b <= n)%nat -> bytes_decode b = Some s -> valid_text s.
Proof.
  revert b s. induction n as [|n IH]; intros b s Hlen.
  { destruct b; [| simpl in Hlen; lia]. intros [= <-]. constructor. }
  destruct b as [|b0 r0]; [intros [= <-]; constructor |].
  cbn [bytes_decode]. cbv zeta. simpl in Hlen.
  pose proof (Byte.to_N_bounded b0) as Hb0.
  destruct (Byte.to_N b0 <? 0x80) eqn:E1.
  { apply N.ltb_lt in E1.
    destruct (bytes_decode r0) as [s'|] eqn:Er; [| done]. intros [= <-].
    apply valid_text_cons; [lia | apply not_surrogate_below; lia |].
    apply (IH r0); [lia | done]. }
  destruct (Byte.to_N b0 <? 0xC2) eqn:E2; [done |].
  apply N.ltb_ge in E1, E2.
  destruct (Byte.to_N b0 <? 0xE0) eqn:E3.
  { apply N.ltb_lt in E3.
    destruct r0 as [|b1 r1]; [done |].
    destruct (utf8_cont b1) as [c1|] eqn:Ec1; [| done].
    apply utf8_cont_bound in Ec1.
    destruct (bytes_decode r1) as [s'|] eqn:Er; [| done]. intros [= <-].
    apply valid_text_cons; [lia | apply not_surrogate_below; lia |].
    apply (IH r1); [simpl in Hlen; lia | done]. }
  apply N.ltb_ge in E3.
  destruct (Byte.to_N b0 <? 0xF0) eqn:E4.
  { apply N.ltb_lt in E4.
    destruct r0 as [|b1 [|b2 r2]]; [done | done |].
    destruct (utf8_cont b1) as [c1|] eqn:Ec1; [| done].
    destruct (utf8_cont b2) as [c2|] eqn:Ec2; [| done].
    apply utf8_cont_bound in Ec1, Ec2.
    destruct (_ || _) eqn:Echk; [done |].
    apply orb_false_iff in Echk as [_ Hsur].
    destruct (bytes_decode r2) as [s'|] eqn:Er; [| done]. intros [= <-].
    apply valid_text_cons; [lia | done |].
    apply (IH r2); [simpl in Hlen; lia | done]. }
  apply N.ltb_ge in E4.
  destruct (Byte.to_N b0 <? 0xF5) eqn:E5; [| done].
  destruct r0 as [|b1 [|b2 [|b3 r3]]]; [done | done | done |].
  destruct (utf8_cont b1) as [c1|] eqn:Ec1; [| done].
  destruct (utf8_cont b2) as [c2|] eqn:Ec2; [| done].
  destruct (utf8_cont b3) as [c3|] eqn:Ec3; [| done].
  destruct (_ || _) eqn:Echk; [done |].
  apply orb_false_iff in Echk as [Hlow Hhigh].
  apply N.ltb_ge in Hlow. apply N.leb_gt in Hhigh.
  destruct (bytes_decode r3) as [s'|] eqn:Er; [| done]. intros [= <-].
  apply valid_text_cons; [lia | apply not_surrogate_above; lia |].
  apply (IH r3); [simpl in Hlen; lia | done].
Qed.

End Utf8Decoded.

Section Relay.
Context {L : Lib} `{!LibLaws L}.

(** A decrypted message is text. *)
Lemma decrypted_is_text (data : bytes) (sid m : pystr) (w : world) :
  (_decrypt_tunnel_message data sid w).1 = Ret (Some m) -> valid_text m.
Proof.
  unfold _decrypt_tunnel_message, try_except, bind, gets, lift, ret, raise.
  destruct (shared_secrets w !! sid) as [[|b s]|]; try discriminate.
  destruct (AES_key_cases (take 32 (b :: s)) w) as [-> | ->];
    [| discriminate].
  destruct (GCM_mode_cases (take 16 data) (Some (take 16 (drop 16 data))) w)
    as [-> | ->]; [| discriminate].
  destruct (gcm_open _ _ _ _) as [pt|]; [| discriminate].
  destruct (bytes_decode pt) as [m'|] eqn:Hm; [| discriminate].
  intros [= <-]. by apply (bytes_decode_valid (length pt) pt).
Qed.

(** Decryption looks at nothing but the service's secret. *)
Lemma decrypt_depends_on_secret (data : bytes) (sid : pystr) (w w2 : world) :
  shared_secrets w2 !! sid = shared_secrets w !! sid ->
  (_decrypt_tunnel_message data sid w2).1
  = (_decrypt_tunnel_message data sid w).1.
Proof.
  intros Heq.
  unfold _decrypt_tunnel_message, try_except, bind, gets, lift, ret, raise.
  rewrite Heq.
  destruct (shared_secrets w !! sid) as [[|b s]|]; try reflexivity.
  unfold AES_key, GCM_mode, ret, raise.
  repeat case_bool_decide; try reflexivity.
  destruct (gcm_open _ _ _ _) as [pt|]; [| reflexivity].
  by destruct (bytes_decode pt).
Qed.

Lemma route_delivers (w : world) (message sender t : pystr)
    (entry : service) (s : bytes) (sock : socket) :
  routed_target message = Some t ->
  connected_services w !! t = Some entry ->
  shared_secrets w !! t = Some s -> length s = 32%nat ->
  valid_text message ->
  sockets w !! svc_socket entry = Some sock ->
  sock_closed sock = false -> sock_quota sock = None ->
  exists frame,
    _route_internal_message message sender w
    = (Ret tt,
       set_sockets <[svc_socket entry :=
                       {| sock_closed := false;
                          sock_sent := sock_sent sock ++ [frame];
                          sock_quota := None |}]>
         (set_urandom_pos (fun p => (p + 16)%nat) w))
    /\ forall w2, shared_secrets w2 !! t = Some s ->
         _decrypt_tunnel_message frame t w2 = (Ret (Some message), w2).
Proof.
  intros Ht Hentry Hs Hlen Hvalid Hsock Hopen Hquota.
  destruct (decrypt_encrypt w t s message Hs Hlen Hvalid)
    as (frame & Henc & Hdec).
  exists frame. split; [| exact Hdec].
  assert (Hne : exists b fr, frame = b :: fr).
  { destruct frame as [|b fr]; [| eauto].
    specialize (Hdec w Hs).
    rewrite short_frame_refused in Hdec by (simpl; lia). done. }
  destruct Hne as (b & fr & ->).
  unfold routed_target in Ht.
  unfold _route_internal_message, try_except, bind, lift.
  destruct (json_loads message) as [[| | | | |kv]|]; try discriminate.
  unfold ret at 1. unfold py_get, ret at 1.
  destruct (dict_lookup (py "target_service") kv) as [[| | |t'| |]|];
    try discriminate.
  injection Ht as ->. cbn [default from_option id lookup_service]. unfold id.
  unfold gets. rewrite Hentry. cbn [fmap option_fmap option_map].
  rewrite Henc. unfold sock_send.
  cbn [sockets set_urandom_pos]. by rewrite Hsock, Hopen, Hquota.
Qed.

(** X8.  One message for a connected service whose socket takes the send
    is written to that socket as one frame, and the frame opens under that
    service's secret to the very text that was routed; nothing else
    changes but the entropy used. *)
Theorem X8_routed_message_reaches_target (w : world)
    (message sender t : pystr) (entry : service) (s : bytes)
    (sock : socket) :
  routed_target message = Some t ->
  connected_services w !! t = Some entry ->
  shared_secrets w !! t = Some s -> length s = 32%nat ->
  valid_text message ->
  sockets w !! svc_socket entry = Some sock ->
  sock_closed sock = false -> sock_quota sock = None ->
  exists frame,
    _route_internal_message message sender w
    = (Ret tt,
       set_sockets <[svc_socket entry :=
                       {| sock_closed := false;
                          sock_sent := sock_sent sock ++ [frame];
                          sock_quota := None |}]>
         (set_urandom_pos (fun p => (p + 16)%nat) w))
    /\ forall w2, shared_secrets w2 !! t = Some s ->
         _decrypt_tunnel_message frame t w2 = (Ret (Some message), w2).
Proof. apply route_delivers. Qed.

(** X9.  What one sender addresses to one connected service is relayed in
    the order it was received: after the loop has read the frames, the
    target's socket carries one new frame per message, in order, each
    opening under the target's secret to the text the sender's frame
    held; the loop is then waiting for the next frame. *)
Theorem X9_relay_keeps_order (w : world) (sid t : pystr) (entry : service)
    (s : bytes) (sock : socket) (frames : list bytes) (msgs : list pystr) :
  connected_services w !! t = Some entry ->
  shared_secrets w !! t = Some s -> length s = 32%nat ->
  sockets w !! svc_socket entry = Some sock ->
  sock_closed sock = false -> sock_quota sock = None ->
  Forall2 (fun f m =>
             f <> [] /\ m <> []
             /\ (_decrypt_tunnel_message f sid w).1 = Ret (Some m)
             /\ routed_target m = Some t) frames msgs ->
  exists w' outs,
    tunnel_messages_loop sid (Recv <$> frames) w = (Block, w')
    /\ registry_kept w w'
    /\ sock_sent <$> sockets w' !! svc_socket entry
       = Some (sock_sent sock ++ outs)
    /\ Forall2 (fun out m =>
                  forall w2, shared_secrets w2 !! t = Some s ->
                    _decrypt_tunnel_message out t w2 = (Ret (Some m), w2))
         outs msgs.
Proof.
  intros Hentry Hs Hlen Hsock Hopen Hquota Hall.
  revert w sock Hentry Hs Hsock Hopen Hquota Hall.
  revert msgs. induction frames as [|f frames IH];
    intros msgs w sock Hentry Hs Hsock Hopen Hquota Hall.
  { apply Forall2_nil_inv_l in Hall as ->.
    exists w, []. rewrite app_nil_r, Hsock. repeat split; constructor. }
  apply Forall2_cons_inv_l in Hall
    as (m & msgs' & (Hf & Hm & Hdec & Ht) & Hall & ->).
  destruct f as [|b f]; [done |]. destruct m as [|c m]; [done |].
  cbn [fmap list_fmap tunnel_messages_loop].
  destruct (_decrypt_tunnel_message_reads (b :: f) sid w) as [r Hr].
  rewrite Hr in Hdec. cbn [fst] in Hdec. injection Hdec as ->.
  pose proof (decrypted_is_text (b :: f) sid (c :: m) w) as Hvalid.
  rewrite Hr in Hvalid. specialize (Hvalid eq_refl).
  destruct (route_delivers w (c :: m) sid t entry s sock Ht Hentry Hs Hlen
              Hvalid Hsock Hopen Hquota) as (out & Hroute & Hout).
  unfold bind at 1. unfold bind at 1. rewrite Hr.
  rewrite Hroute.
  set (w1 := set_sockets _ _).
  assert (Hreg1 : registry_kept w w1) by done.
  destruct (IH msgs' w1
              {| sock_closed := false; sock_sent := sock_sent sock ++ [out];
                 sock_quota := None |})
    as (w' & outs & Hloop & Hreg & Hsent & Houts).
  - exact Hentry.
  - exact Hs.
  - subst w1. cbn [sockets set_sockets set_urandom_pos].
    apply list_lookup_insert_eq. by eapply lookup_lt_Some.
  - done.
  - done.
  - eapply Forall2_impl; [exact Hall |].
    intros f' m' (Hf' & Hm' & Hdec' & Ht'). repeat split; try done.
    rewrite <- Hdec'. by apply decrypt_depends_on_secret.
  - exists w', (out :: outs). split; [exact Hloop |].
    split; [by etrans |]. split.
    + rewrite Hsent. cbn [sock_sent]. by rewrite <- app_assoc.
    + by constructor.
Qed.

End Relay.

(** ** The properties above on a running hub *)

Lemma X2_end_of_stream_witness :
  exists w',
    _handle_tunnel_messages (L := Demo.lib true) 0 Peers.sid_a
      [Recv (pyb "noise"); Recv []] Peers.a_connected = (Ret tt, w')
    /\ connected_services w'
       = delete Peers.sid_a (connected_services Peers.a_connected)
    /\ shared_secrets w'
       = delete Peers.sid_a (shared_secrets Peers.a_connected)
    /\ sock_closed <$> sockets w' !! 0%nat = Some true
    /\ closed_elsewhere 0 Peers.a_connected w'.
Proof.
  refine (X2_end_of_stream_disconnects (L := Demo.lib true) 0%nat Peers.sid_a
            [Recv (pyb "noise"); Recv []] Peers.a_connected _ _).
  - apply Exists_cons_tl, Exists_cons_hd. by left.
  - apply Nat.ltb_lt. vm_compute. reflexivity.
Defined.

Lemma X3_returned_handler_witness :
  let r := _handle_tunnel_connection (L := Demo.lib true) 0
             (py "10.0.0.5", 40001) Peers.utcnow
             [Recv (Peers.client_encapsulation Peers.ct_a); Recv []]
             Fleet.first_accepted in
  r.1 <> Raise
  /\ (r.1 = Ret tt ->
      sock_closed <$> sockets r.2 !! 0%nat = Some true
      /\ forall sid e, connected_services r.2 !! sid = Some e ->
                       svc_socket e <> 0%nat).
Proof.
  refine (X3_returned_handler_left_nothing (L := Demo.lib true) 0%nat
            (py "10.0.0.5", 40001) Peers.utcnow
            [Recv (Peers.client_encapsulation Peers.ct_a); Recv []]
            Fleet.first_accepted _ _).
  - apply Nat.ltb_lt. vm_compute. reflexivity.
  - intros sid e H.
    assert (Hcs : connected_services Fleet.first_accepted = ∅)
      by (vm_compute; reflexivity).
    rewrite Hcs in H. by rewrite lookup_empty in H.
Defined.

Lemma X4_hub_without_library_witness :
  let incoming := [Peers.talking 40001 Peers.ct_a []; Peers.silent 40002] in
  let r := hub_run (L := Demo.lib false) incoming fresh_world in
  r.1 = Ret (replicate (length incoming) (Ret tt))
  /\ connected_services r.2 = ∅
  /\ shared_secrets r.2 = ∅
  /\ length (sockets r.2) = length incoming
  /\ Forall (fun s => sock_closed s = true /\ sock_sent s = []) (sockets r.2).
Proof.
  exact (X4_hub_without_library_refuses_all (L := Demo.lib false)
           [Peers.talking 40001 Peers.ct_a []; Peers.silent 40002]
           fresh_world eq_refl).
Defined.

Lemma X6_encrypt_frame_witness :
  exists r w',
    _encrypt_tunnel_message (L := Demo.lib true) (Peers.ping_for Peers.sid_a)
      Peers.sid_a Peers.a_connected = (Ret r, w')
    /\ registry_kept Peers.a_connected w'
    /\ sockets w' = sockets Peers.a_connected
    /\ (shared_secrets Peers.a_connected !! Peers.sid_a = None ->
        r = None /\ w' = Peers.a_connected)
    /\ (forall frame, r = Some frame ->
          take 16 frame
          = os_entropy (Lib := Demo.lib true)
              <$> seq (urandom_pos Peers.a_connected) 16
          /\ urandom_pos w' = (urandom_pos Peers.a_connected + 16)%nat
          /\ (32 <= length frame)%nat).
Proof.
  exact (X6_encrypt_frame_and_entropy (L := Demo.lib true)
           (Peers.ping_for Peers.sid_a) Peers.sid_a Peers.a_connected).
Defined.

Lemma X7_well_formed_handshake_witness :
  exists w',
    _perform_key_exchange (L := Demo.lib true) 0
      [Recv (Peers.client_encapsulation Peers.ct_a)] Fleet.first_accepted
    = (Ret (Some (take 16 (Demo.sha256_hexdigest
                             (Peers.secret_of Peers.ct_a)))), w')
    /\ shared_secrets w'
       = <[take 16 (Demo.sha256_hexdigest (Peers.secret_of Peers.ct_a))
           := Peers.secret_of Peers.ct_a]>
           (shared_secrets Fleet.first_accepted)
    /\ connected_services w' = connected_services Fleet.first_accepted
    /\ sock_sent <$> sockets w' !! 0%nat
       = Some ([] ++ [Fleet.hello; Fleet.confirm Peers.ct_a]).
Proof.
  refine (X7_well_formed_handshake_succeeds (L := Demo.lib true)
            Fleet.first_accepted 0%nat
            {| sock_closed := false; sock_sent := []; sock_quota := None |}
            Demo.kem_public_key Demo.kem_private_key
            (Peers.client_encapsulation Peers.ct_a) Peers.ct_a
            (Peers.secret_of Peers.ct_a) Fleet.hello
            (Fleet.confirm Peers.ct_a)
            {| kem_alg := kem_algorithm;
               kem_secret_key := Some Demo.kem_private_key |}
            (py "ENCAP_SECRET:" ++ Demo.b64encode Peers.ct_a) []
            _ _ _ _ _ _ _ _ _ _ _ _); vm_compute; reflexivity.
Defined.

Lemma X8_routed_message_witness :
  exists frame,
    _route_internal_message (L := Demo.lib true)
      (Fleet.note_for Peers.sid_b "first") Peers.sid_a Fleet.ab_connected
    = (Ret tt,
       set_sockets <[1%nat :=
                       {| sock_closed := false;
                          sock_sent := sock_sent Fleet.b_socket ++ [frame];
                          sock_quota := None |}]>
         (set_urandom_pos (fun p => (p + 16)%nat) Fleet.ab_connected))
    /\ forall w2,
         shared_secrets w2 !! Peers.sid_b = Some (Peers.secret_of Fleet.ct_b) ->
         _decrypt_tunnel_message (L := Demo.lib true) frame Peers.sid_b w2
         = (Ret (Some (Fleet.note_for Peers.sid_b "first")), w2).
Proof.
  refine (X8_routed_message_reaches_target (L := Demo.lib true)
            Fleet.ab_connected (Fleet.note_for Peers.sid_b "first")
            Peers.sid_a Peers.sid_b Fleet.b_entry
            (Peers.secret_of Fleet.ct_b) Fleet.b_socket _ _ _ _ _ _ _ _).
  5: apply valid_textb_correct.
  all: vm_compute; reflexivity.
Defined.

Lemma X9_relay_keeps_order_witness :
  exists w' outs,
    tunnel_messages_loop (L := Demo.lib true) Peers.sid_a
      (Recv <$> Fleet.a_to_b_frames) Fleet.ab_connected = (Block, w')
    /\ registry_kept Fleet.ab_connected w'
    /\ sock_sent <$> sockets w' !! 1%nat
       = Some (sock_sent Fleet.b_socket ++ outs)
    /\ Forall2 (fun out m =>
                  forall w2,
                    shared_secrets w2 !! Peers.sid_b
                    = Some (Peers.secret_of Fleet.ct_b) ->
                    _decrypt_tunnel_message (L := Demo.lib true) out
                      Peers.sid_b w2 = (Ret (Some m), w2))
         outs Fleet.a_to_b.
Proof.
  refine (X9_relay_keeps_order (L := Demo.lib true) Fleet.ab_connected
            Peers.sid_a Peers.sid_b Fleet.b_entry
            (Peers.secret_of Fleet.ct_b) Fleet.b_socket Fleet.a_to_b_frames
            Fleet.a_to_b _ _ _ _ _ _ _).
  1-6: vm_compute; reflexivity.
  repeat constructor; try (vm_compute; discriminate);
    vm_compute; reflexivity.
Defined.

(** ** A whole session *)

Section Session.
Context {L : Lib}.

(** X18.  A session from its first byte to its last: a client that
    completes the handshake and later closes the connection (or whose
    connection fails) makes the handler return, with the socket closed and
    with no registry entry and no secret left under the session's id,
    whatever was relayed in between.  That holds also for an entry or a
    secret another connection had put under the same id before: the
    clean-up deletes by id.  Entries and secrets under other ids are as
    they were, and no other socket was opened or closed. *)
Theorem X18_completed_session_leaves_no_entry (w : world)
    (client_socket : nat) (address : pystr * N) (utcnow : pystr)
    (sock : socket) (pk sk data ct secret hello confirm : bytes)
    (k : kem_object) (response : pystr) (rest : list recv_event) :
  public_key w = Some pk ->
  kem w = Some k -> kem_secret_key k = Some sk ->
  sockets w !! client_socket = Some sock ->
  sock_closed sock = false -> sock_quota sock = None ->
  str_encode (py "PUB_KEY:" ++ b64encode pk ++ LF) = Some hello ->
  bytes_decode data = Some response ->
  startswith response (py "ENCAP_SECRET:") = true ->
  b64decode (strip (drop 13 response)) = Some ct ->
  oqs_decap_secret (kem_alg k) sk ct = Some secret ->
  str_encode (py "CONNECTED:" ++ take 16 (sha256_hexdigest secret) ++ LF)
  = Some confirm ->
  take 16 (sha256_hexdigest secret) <> [] ->
  Exists ends_stream rest ->
  exists w',
    _handle_tunnel_connection client_socket address utcnow
      (Recv data :: rest) w = (Ret tt, w')
    /\ connected_services w'
       = delete (take 16 (sha256_hexdigest secret)) (connected_services w)
    /\ shared_secrets w'
       = delete (take 16 (sha256_hexdigest secret)) (shared_secrets w)
    /\ sock_closed <$> sockets w' !! client_socket = Some true
    /\ closed_elsewhere client_socket w w'.
Proof.
  intros Hpk Hk Hsk Hsock Hopen Hquota Hhello Hresp Hstart Hct Hsecret
    Hconfirm Hsid Hends.
  destruct (handshake_accepts w client_socket sock pk sk data ct secret hello
              confirm k response rest Hpk Hk Hsk Hsock Hopen Hquota Hhello
              Hresp Hstart Hct Hsecret Hconfirm)
    as (w1 & Hkex & Hss1 & Hcs1 & Hsent1).
  pose proof (closed_elsewhere_handle_connection client_socket address utcnow
                (Recv data :: rest) w) as Helse.
  unfold _handle_tunnel_connection, try_except, bind in Helse |- *.
  rewrite Hkex in Helse |- *.
  destruct (take 16 (sha256_hexdigest secret)) as [|c sid] eqn:Hid; [done |].
  unfold register_service, modify in Helse |- *. cbn [tail] in Helse |- *.
  set (w2 := set_connected_services _ w1) in *.
  assert (Hfd : (client_socket < length (sockets w2))%nat).
  { subst w2. cbn [sockets set_connected_services].
    apply lookup_lt_is_Some. destruct (sockets w1 !! client_socket); [| done].
    by eexists. }
  destruct (stream_end_disconnects client_socket (c :: sid) rest w2 Hends Hfd)
    as (w' & Hrun & Hcs & Hss & Hclosed & _).
  rewrite Hrun in Helse |- *. exists w'. split; [done |].
  split; [| split; [| split; [done | exact Helse]]].
  - rewrite Hcs. subst w2. cbn [connected_services set_connected_services].
    by rewrite delete_insert_eq, Hcs1.
  - rewrite Hss. subst w2. cbn [shared_secrets set_connected_services].
    by rewrite Hss1, delete_insert_eq.
Qed.

End Session.

Lemma X18_completed_session_witness :
  exists w',
    _handle_tunnel_connection (L := Demo.lib true) 0 (py "10.0.0.5", 40001)
      Peers.utcnow
      [Recv (Peers.client_encapsulation Peers.ct_a); Recv (pyb "noise");
       Recv []] Fleet.first_accepted = (Ret tt, w')
    /\ connected_services w'
       = delete (take 16 (Demo.sha256_hexdigest (Peers.secret_of Peers.ct_a)))
           (connected_services Fleet.first_accepted)
    /\ shared_secrets w'
       = delete (take 16 (Demo.sha256_hexdigest (Peers.secret_of Peers.ct_a)))
           (shared_secrets Fleet.first_accepted)
    /\ sock_closed <$> sockets w' !! 0%nat = Some true
    /\ closed_elsewhere 0 Fleet.first_accepted w'.
Proof.
  refine (X18_completed_session_leaves_no_entry (L := Demo.lib true)
            Fleet.first_accepted 0%nat (py "10.0.0.5", 40001) Peers.utcnow
            {| sock_closed := false; sock_sent := []; sock_quota := None |}
            Demo.kem_public_key Demo.kem_private_key
            (Peers.client_encapsulation Peers.ct_a) Peers.ct_a
            (Peers.secret_of Peers.ct_a) Fleet.hello
            (Fleet.confirm Peers.ct_a)
            {| kem_alg := kem_algorithm;
               kem_secret_key := Some Demo.kem_private_key |}
            (py "ENCAP_SECRET:" ++ Demo.b64encode Peers.ct_a)
            [Recv (pyb "noise"); Recv []]
            _ _ _ _ _ _ _ _ _ _ _ _ _ _).
  14: { apply Exists_cons_tl, Exists_cons_hd. by left. }
  13: { vm_compute. discriminate. }
  all: vm_compute; reflexivity.
Defined.

(** ** The endpoints that hand out the public key *)

(** Lookup among the items of a dict whose keys are distinct. *)
Lemma dict_lookup_elem_of (k : pystr) (v : json) (kv : list (pystr * json)) :
  NoDup kv.*1 -> dict_lookup k kv = Some v <-> (k, v) ∈ kv.
Proof.
  induction kv as [|[k' v'] kv IH]; simpl; intros Hnd.
  { split; [done | by intros ?%elem_of_nil]. }
  apply NoDup_cons in Hnd as [Hk' Hnd].
  destruct (decide (k = k')) as [-> | Hne].
  - split.
    + intros [= ->]. by left.
    + intros [[= ->] | Hin]%elem_of_cons; [done |].
      destruct Hk'. apply list_elem_of_fmap. by exists (k', v).
  - rewrite (IH Hnd). split.
    + by right.
    + intros [[= -> _] | Hin]%elem_of_cons; done.
Qed.

Lemma dict_lookup_map_to_list (k : pystr) (m : gmap pystr json) :
  dict_lookup k (map_to_list m) = m !! k.
Proof.
  pose proof (NoDup_fst_map_to_list m) as Hnd.
  destruct (m !! k) as [v|] eqn:Hm.
  - apply dict_lookup_elem_of; [done |]. by apply elem_of_map_to_list.
  - destruct (dict_lookup k (map_to_list m)) as [v|] eqn:Hd; [| done].
    apply dict_lookup_elem_of in Hd; [| done].
    apply elem_of_map_to_list in Hd. congruence.
Qed.

Section KeyEndpointsFacts.
Context {L : Lib}.

(** X10.  With a public key on record, /status answers 200 and changes
    nothing; its [connected_services] object has exactly one member per
    registered service, under the service's id, showing the peer's host,
    the time of registration and the encryption; [total_connections] is
    their number and [public_key] the base64 of the hub's key. *)
Theorem X10_status_lists_registered_services (w : world) (pk : bytes) :
  public_key w = Some pk ->
  exists body listed,
    tunnel_status w = (Ret (Jsonify 200 (JObj body)), w)
    /\ dict_lookup (py "connected_services") body = Some (JObj listed)
    /\ (forall sid, dict_lookup sid listed
                    = service_summary <$> connected_services w !! sid)
    /\ length listed = size (connected_services w)
    /\ dict_lookup (py "total_connections") body
       = Some (JNum (Z.of_nat (size (connected_services w))))
    /\ dict_lookup (py "public_key") body = Some (JStr (b64encode pk)).
Proof.
  intros Hpk. unfold tunnel_status, bind, gets, lift. rewrite Hpk.
  eexists _, (map_to_list (service_summary <$> connected_services w)).
  split; [reflexivity |]. split; [reflexivity |].
  split; [| split; [| split]].
  - intros sid. rewrite dict_lookup_map_to_list. apply lookup_fmap.
  - by rewrite length_map_to_list, map_size_fmap.
  - reflexivity.
  - reflexivity.
Qed.

Lemma tunnel_status_without_key (w : world) :
  public_key w = None -> tunnel_status w = (Raise, w).
Proof. intros Hpk. unfold tunnel_status, bind, gets, lift. by rewrite Hpk. Qed.

Lemma connect_service_cases (request_json : option json) (time_time : Z)
    (w : world) :
  connect_service request_json time_time w = (Ret Error500, w)
  \/ connect_service request_json time_time w
     = (Ret (Jsonify 400 (JObj [(py "error",
                                 JStr (py "Missing service_name"))])), w)
  \/ exists pk kv name,
       public_key w = Some pk /\ request_json = Some (JObj kv)
       /\ dict_lookup (py "service_name") kv = Some name
       /\ truthy name = true
       /\ connect_service request_json time_time w
          = (Ret (Jsonify 200 (JObj [
               (py "status", JStr (py "connection_info_provided"));
               (py "connection_info", JObj [
                  (py "tunnel_endpoint", JStr (py "rosenpass-service:9000"));
                  (py "public_key", JStr (b64encode pk));
                  (py "protocol", JStr (py "ML-KEM-768"));
                  (py "connection_id",
                     JStr (py "conn_" ++ str_of_int time_time))])])), w).
Proof.
  destruct request_json as [[| | | | |kv]|]; try by left.
  destruct (dict_lookup (py "service_name") kv) as [name|] eqn:Hname.
  2: { right; left.
       unfold connect_service, try_except, bind, lift, py_get, gets, ret.
       by rewrite Hname. }
  destruct (truthy name) eqn:Htruthy.
  2: { right; left.
       unfold connect_service, try_except, bind, lift, py_get, gets, ret.
       rewrite Hname. cbn [default from_option id]. by rewrite Htruthy. }
  destruct (public_key w) as [pk|] eqn:Hpk.
  - right; right. exists pk, kv, name. repeat (split; [done |]).
    unfold connect_service, try_except, bind, lift, py_get, gets, ret.
    rewrite Hname. cbn [default from_option id]. rewrite Htruthy.
    cbn [negb]. by rewrite Hpk.
  - left.
    unfold connect_service, try_except, bind, lift, py_get, gets, ret, raise.
    rewrite Hname. cbn [default from_option id]. rewrite Htruthy.
    cbn [negb]. by rewrite Hpk.
Qed.

(** X11.  /connect hands out the key and nothing else: for a body that
    names a service, on a hub that has its public key, the answer is 200
    with the tunnel endpoint, the base64 of the hub's public key, the
    protocol and the connection id [conn_<int(time.time())>]; and whatever
    the request, the call raises nothing and leaves the registry, the
    secrets and every socket as they were, so that no session exists
    after it. *)
Theorem X11_connect_hands_out_key_only (w : world) (kv : list (pystr * json))
    (name : json) (pk : bytes) (time_time : Z) :
  dict_lookup (py "service_name") kv = Some name ->
  truthy name = true ->
  public_key w = Some pk ->
  connect_service (Some (JObj kv)) time_time w
  = (Ret (Jsonify 200 (JObj [
       (py "status", JStr (py "connection_info_provided"));
       (py "connection_info", JObj [
          (py "tunnel_endpoint", JStr (py "rosenpass-service:9000"));
          (py "public_key", JStr (b64encode pk));
          (py "protocol", JStr (py "ML-KEM-768"));
          (py "connection_id",
             JStr (py "conn_" ++ str_of_int time_time))])])), w)
  /\ forall request_json time_time' w2,
       exists r, connect_service request_json time_time' w2 = (Ret r, w2).
Proof.
  intros Hname Htruthy Hpk. split.
  - unfold connect_service, try_except, bind, lift, py_get, gets, ret.
    rewrite Hname. cbn [default from_option id]. rewrite Htruthy.
    cbn [negb]. by rewrite Hpk.
  - intros rq t w2.
    destruct (connect_service_cases rq t w2)
      as [-> | [-> | (? & ? & ? & _ & _ & _ & _ & ->)]]; by eexists.
Qed.

(** X12.  A hub whose start-up left no public key (liboqs is missing, or
    generating the key pair raised) stays without one whatever connects;
    on it /status fails with an exception that leaves the view, and
    /connect answers no request with 200, while /health answers 200 with
    status [healthy]. *)
Theorem X12_no_key_breaks_status_and_connect (incoming : list connection)
    (w0 : world) (request_json : option json) (time_time : Z)
    (utcnow : pystr) :
  public_key (__init__ w0).2 = None ->
  let w := (hub_run incoming w0).2 in
  tunnel_status w = (Raise, w)
  /\ (exists r, connect_service request_json time_time w = (Ret r, w)
                /\ forall body, r <> Jsonify 200 body)
  /\ exists body, health_check utcnow w = (Ret (Jsonify 200 (JObj body)), w)
                  /\ dict_lookup (py "status") body
                     = Some (JStr (py "healthy")).
Proof.
  intros Hinit w.
  assert (Hpk : public_key w = None).
  { subst w. unfold hub_run, bind, _start_tunnel_server.
    destruct (__init__ w0) as [[[]| |] w1] eqn:Hw1; simpl in Hinit; try done.
    pose proof (preserves_accept_loop keys_kept incoming) as Hkept.
    destruct (Hkept (fun quota w => conj eq_refl eq_refl)
                keys_kept_handle_connection w1) as [_ Hk].
    by rewrite Hk. }
  split; [by apply tunnel_status_without_key |]. split.
  - destruct (connect_service_cases request_json time_time w)
      as [-> | [-> | (pk & ? & ? & Hsome & _)]].
    + by eexists.
    + by eexists.
    + congruence.
  - eexists. split; [reflexivity |]. vm_compute. reflexivity.
Qed.

End KeyEndpointsFacts.

Lemma X10_status_lists_witness :
  exists body listed,
    tunnel_status (L := Demo.lib true) Fleet.ab_connected
    = (Ret (Jsonify 200 (JObj body)), Fleet.ab_connected)
    /\ dict_lookup (py "connected_services") body = Some (JObj listed)
    /\ (forall sid, dict_lookup sid listed
                    = service_summary
                        <$> connected_services Fleet.ab_connected !! sid)
    /\ length listed = size (connected_services Fleet.ab_connected)
    /\ dict_lookup (py "total_connections") body
       = Some (JNum (Z.of_nat (size (connected_services Fleet.ab_connected))))
    /\ dict_lookup (py "public_key") body
       = Some (JStr (Demo.b64encode Demo.kem_public_key)).
Proof.
  refine (X10_status_lists_registered_services (L := Demo.lib true)
            Fleet.ab_connected Demo.kem_public_key _).
  vm_compute. reflexivity.
Defined.

Lemma X11_connect_witness :
  connect_service (L := Demo.lib true)
    (Some (JObj [(py "service_name", JStr (py "billing"))])) 1700000000
    Peers.a_connected
  = (Ret (Jsonify 200 (JObj [
       (py "status", JStr (py "connection_info_provided"));
       (py "connection_info", JObj [
          (py "tunnel_endpoint", JStr (py "rosenpass-service:9000"));
          (py "public_key", JStr (Demo.b64encode Demo.kem_public_key));
          (py "protocol", JStr (py "ML-KEM-768"));
          (py "connection_id",
             JStr (py "conn_" ++ str_of_int 1700000000))])])),
     Peers.a_connected)
  /\ forall request_json time_time' w2,
       exists r, connect_service (L := Demo.lib true) request_json
                   time_time' w2 = (Ret r, w2).
Proof.
  refine (X11_connect_hands_out_key_only (L := Demo.lib true)
            Peers.a_connected [(py "service_name", JStr (py "billing"))]
            (JStr (py "billing")) Demo.kem_public_key 1700000000 _ _ _);
    vm_compute; reflexivity.
Defined.

Lemma X12_no_key_witness :
  let w := (hub_run (L := Demo.lib false) [Peers.talking 40001 Peers.ct_a []]
              fresh_world).2 in
  tunnel_status (L := Demo.lib false) w = (Raise, w)
  /\ (exists r, connect_service (L := Demo.lib false)
                  (Some (JObj [(py "service_name", JStr (py "billing"))]))
                  1700000000 w = (Ret r, w)
                /\ forall body, r <> Jsonify 200 body)
  /\ exists body, health_check (L := Demo.lib false) Peers.utcnow w
                  = (Ret (Jsonify 200 (JObj body)), w)
                  /\ dict_lookup (py "status") body
                     = Some (JStr (py "healthy")).
Proof.
  exact (X12_no_key_breaks_status_and_connect (L := Demo.lib false)
           [Peers.talking 40001 Peers.ct_a []] fresh_world
           (Some (JObj [(py "service_name", JStr (py "billing"))]))
           1700000000 Peers.utcnow eq_refl).
Defined.

(** ** The client VPN API *)

Lemma dict_lookup_set_eq (k : pystr) (v : json) (kv : list (pystr * json)) :
  dict_lookup k (Demo.dict_set k v kv) = Some v.
Proof.
  induction kv as [|[k' v'] kv IH]; simpl.
  - by rewrite decide_True.
  - destruct (decide (k = k')) as [-> | Hne]; simpl.
    + by rewrite decide_True.
    + by rewrite decide_False.
Qed.

Lemma dict_lookup_set_ne (k k' : pystr) (v : json)
    (kv : list (pystr * json)) :
  k <> k' -> dict_lookup k (Demo.dict_set k' v kv) = dict_lookup k kv.
Proof.
  intros Hne. induction kv as [|[k2 v2] kv IH]; simpl.
  - by rewrite decide_False.
  - destruct (decide (k' = k2)) as [-> | Hne2]; simpl.
    + by rewrite !decide_False.
    + destruct (decide (k = k2)); [done | exact IH].
Qed.

Ltac keys_differ := let H := fresh in intros H; vm_compute in H; discriminate.

(** The status view's update says [connected], whatever was there. *)
Lemma connected_status_word (items : list (pystr * json)) (t : pystr) :
  dict_lookup (py "status") (dict_update items (connected_status t))
  = Some (JStr (py "connected"))
  /\ dict_lookup (py "connected") (dict_update items (connected_status t))
     = Some (JBool true)
  /\ dict_lookup (py "last_handshake")
       (dict_update items (connected_status t)) = Some (JStr t).
Proof.
  unfold dict_update, connected_status. cbn [fold_left fst snd].
  split; [| split].
  - rewrite !dict_lookup_set_ne by keys_differ. apply dict_lookup_set_eq.
  - rewrite !dict_lookup_set_ne by keys_differ. apply dict_lookup_set_eq.
  - rewrite !dict_lookup_set_ne by keys_differ. apply dict_lookup_set_eq.
Qed.

Section ClientVpnFacts.
Context {L : Lib}.
Variable py_repr : json -> pystr.

(** A body that is a JSON object is answered with 201 and stored. *)
Lemma generate_object (client_id : pystr) (kv : list (pystr * json))
    (utcnow : pystr) (a : admin) (w : world) :
  exists body config status w',
    generate_client_vpn_config client_id (Some (JObj kv)) utcnow a w
    = (Ret (Jsonify 201 body,
            {| client_vpn_configs :=
                 <[client_id := config]> (client_vpn_configs a);
               client_vpn_status :=
                 <[client_id := status]> (client_vpn_status a) |}), w')
    /\ config_complete config
    /\ address_of config
       = Some (tunnel_address (Z.of_nat (size (client_vpn_configs a)) + 1))
    /\ py_item status "status" = Some (JStr (py "configured")).
Proof.
  unfold generate_client_vpn_config, try_except, bind, lift, py_get_default,
    ret.
  destruct QUANTUM_AVAILABLE; unfold os_urandom;
    (eexists _, _, _, _; split; [reflexivity |]; split;
     [| split; reflexivity]);
    (eexists _, _, _; repeat split; try reflexivity; by eexists).
Qed.

(** Any other body is answered with 500 and changes nothing. *)
Lemma generate_no_object (client_id : pystr) (request_json : option json)
    (utcnow : pystr) (a : admin) (w : world) :
  (forall kv, request_json <> Some (JObj kv)) ->
  generate_client_vpn_config client_id request_json utcnow a w
  = (Ret (Error500, a), w).
Proof.
  intros Hno.
  destruct request_json as [[| | | | |kv]|]; try reflexivity.
  by destruct (Hno kv).
Qed.

Lemma download_complete (client_id : pystr) (a : admin) (config : json) :
  client_vpn_configs a !! client_id = Some config ->
  config_complete config ->
  exists body,
    download_client_vpn_config py_repr client_id a = Jsonify 200 body.
Proof.
  intros Hconfig (interface & peer & qp & Hi & [? H1] & [? H2] & [? H3]
                  & Hp & [? H4] & [? H5] & [? H6] & [? H7]
                  & Hq & [? H8] & [? H9] & [? H10]).
  unfold download_client_vpn_config. rewrite Hconfig.
  rewrite Hi. cbn [mbind option_bind]. rewrite H1. cbn [mbind option_bind].
  rewrite H2. cbn [mbind option_bind]. rewrite H3. cbn [mbind option_bind].
  rewrite Hp. cbn [mbind option_bind]. rewrite H4. cbn [mbind option_bind].
  rewrite H5. cbn [mbind option_bind]. rewrite H6. cbn [mbind option_bind].
  rewrite H7. cbn [mbind option_bind]. rewrite Hq. cbn [mbind option_bind].
  rewrite H8. cbn [mbind option_bind]. rewrite H9. cbn [mbind option_bind].
  rewrite H10. cbn [mbind option_bind default from_option id].
  by eexists.
Qed.

(** The status view on a client whose entries are as the API leaves
    them. *)
Lemma status_known_client (client_id t : pystr) (a : admin)
    (config status : json) :
  client_vpn_configs a !! client_id = Some config ->
  config_complete config ->
  client_vpn_status a !! client_id = Some status ->
  status_known status ->
  exists body items status',
    get_client_vpn_status client_id t a
    = (Jsonify 200 (JObj body),
       {| client_vpn_configs := client_vpn_configs a;
          client_vpn_status :=
            <[client_id := status']> (client_vpn_status a) |})
    /\ dict_lookup (py "vpn_status") body = Some (JObj items)
    /\ status' = JObj items
    /\ dict_lookup (py "status") items = Some (JStr (py "connected"))
    /\ dict_lookup (py "connected") items = Some (JBool true).
Proof.
  intros Hconfig (interface & peer & qp & _ & _ & _ & _
                  & Hp & _ & [endpoint He] & _ & _ & Hq & _) Hstatus Hknown.
  unfold get_client_vpn_status. rewrite Hconfig, Hstatus.
  cbn [default from_option id].
  destruct status as [| | | | |items];
    try (destruct Hknown as [Hk | [Hk _]]; discriminate).
  destruct Hknown as [Hk | [Hk Hc]]; rewrite Hk.
  - cbn [is_str]. rewrite bool_decide_true by done.
    rewrite Hp. cbn [mbind option_bind]. rewrite He.
    cbn [mbind option_bind]. rewrite Hq.
    cbn [mbind option_bind default from_option id].
    destruct (connected_status_word items t) as (Hs & Hc & _).
    eexists _, _, _. split; [reflexivity |]. split; [reflexivity |]. done.
  - cbn [is_str]. rewrite bool_decide_false by keys_differ.
    rewrite Hp. cbn [mbind option_bind]. rewrite He.
    cbn [mbind option_bind]. rewrite Hq.
    cbn [mbind option_bind default from_option id].
    exists [(py "client_id", JStr client_id); (py "vpn_status", JObj items);
            (py "endpoint", endpoint); (py "quantum_protection", qp);
            (py "last_updated", JStr t)], items, (JObj items).
    split.
    + f_equal. destruct a as [cs ss]. cbn in *. f_equal.
      by rewrite insert_id.
    + done.
Qed.

Lemma admin_wf_generate (client_id : pystr) (request_json : option json)
    (utcnow : pystr) (a : admin) (w : world) :
  admin_wf a ->
  exists r a' w',
    generate_client_vpn_config client_id request_json utcnow a w
    = (Ret (r, a'), w')
    /\ admin_wf a'
    /\ forall id, is_Some (client_vpn_configs a' !! id)
                  <-> is_Some (client_vpn_configs a !! id)
                      \/ generates id (Generate client_id request_json utcnow).
Proof.
  intros Hwf.
  destruct request_json as [[| | | | |kv]|].
  6: { destruct (generate_object client_id kv utcnow a w)
         as (body & config & status & w' & -> & Hc & _ & Hs).
       eexists _, _, _. split; [reflexivity |]. split.
       - intros id config' Hid. cbn in *.
         destruct (decide (id = client_id)) as [-> | Hne].
         + rewrite lookup_insert_eq in Hid. injection Hid as <-.
           split; [done |]. exists status.
           rewrite lookup_insert_eq. split; [done | by left].
         + rewrite lookup_insert_ne in Hid |- * by done. by apply Hwf.
       - intros id. cbn.
         destruct (decide (id = client_id)) as [-> | Hne].
         + rewrite lookup_insert_eq. split; [| done].
           intros _. by right.
         + rewrite lookup_insert_ne by done. split; [by left |].
           intros [? | [= ?]]; done. }
  all: eexists _, _, _; (split; [reflexivity |]); split; [done |];
    intros id; split; [by left |]; intros [? | [=]]; done.
Qed.

Lemma admin_wf_status (client_id t : pystr) (a : admin) :
  admin_wf a ->
  admin_wf (get_client_vpn_status client_id t a).2
  /\ client_vpn_configs (get_client_vpn_status client_id t a).2
     = client_vpn_configs a.
Proof.
  intros Hwf.
  destruct (client_vpn_configs a !! client_id) as [config|] eqn:Hconfig.
  2: { unfold get_client_vpn_status. by rewrite Hconfig. }
  destruct (Hwf client_id config Hconfig) as (Hc & status & Hs & Hk).
  destruct (status_known_client client_id t a config status Hconfig Hc Hs Hk)
    as (body & items & status' & -> & _ & -> & Hw & Hcn).
  split; [| done].
  intros id config' Hid. cbn in *.
  destruct (Hwf id config' Hid) as (Hc' & st & Hst & Hk').
  split; [done |].
  destruct (decide (id = client_id)) as [-> | Hne].
  - rewrite lookup_insert_eq. eexists. split; [done |]. by right.
  - rewrite lookup_insert_ne by done. by exists st.
Qed.

Lemma serve_all_wf (rqs : list admin_request) (a : admin) (w : world) :
  admin_wf a ->
  exists rs a' w',
    serve_all py_repr rqs a w = (Ret (rs, a'), w')
    /\ length rs = length rqs
    /\ admin_wf a'
    /\ forall id, is_Some (client_vpn_configs a' !! id)
                  <-> is_Some (client_vpn_configs a !! id)
                      \/ Exists (generates id) rqs.
Proof.
  revert a w. induction rqs as [|rq rqs IH]; intros a w Hwf.
  { exists [], a, w. split; [done |]. split; [done |]. split; [done |].
    intros id. split; [by left |]. by intros [? | ?%Exists_nil]. }
  assert (Hstep : exists r a1 w1,
             serve py_repr rq a w = (Ret (r, a1), w1) /\ admin_wf a1
             /\ forall id, is_Some (client_vpn_configs a1 !! id)
                           <-> is_Some (client_vpn_configs a !! id)
                               \/ generates id rq).
  { destruct rq as [cid body t | cid | cid t]; cbn [serve].
    - by apply admin_wf_generate.
    - eexists _, _, _. split; [reflexivity |]. split; [done |].
      intros id. split; [by left |]. by intros [? | [=]].
    - destruct (admin_wf_status cid t a Hwf) as [Hwf1 Hcs].
      exists (get_client_vpn_status cid t a).1,
             (get_client_vpn_status cid t a).2, w.
      split; [unfold ret; by destruct (get_client_vpn_status cid t a) |].
      split; [done |]. intros id. rewrite Hcs.
      split; [by left |]. by intros [? | [=]]. }
  destruct Hstep as (r & a1 & w1 & Hserve & Hwf1 & Hdom1).
  destruct (IH a1 w1 Hwf1) as (rs & a' & w' & Hrest & Hlen & Hwf' & Hdom').
  exists (r :: rs), a', w'. split.
  { cbn [serve_all]. unfold bind at 1. rewrite Hserve. cbn [snd fst].
    unfold bind at 1. by rewrite Hrest. }
  split; [by rewrite !length_cons, Hlen |]. split; [done |].
  intros id. rewrite Hdom', Hdom1, Exists_cons. tauto.
Qed.

Lemma admin_wf_no_clients : admin_wf no_clients.
Proof. intros id config Hid. cbn in Hid. by rewrite lookup_empty in Hid. Qed.

(** X13.  Whatever requests the API has served, one after the other,
    since the process started, none of them raised, a client has a
    configuration exactly when a generate request with a JSON object as
    body named it, and the two views answer for it with 200, never 500;
    the status view reports every such client [connected], with the flag
    set, whether or not any device ever connected.  For any other client
    both views answer 404 and change nothing. *)
Theorem X13_configured_clients_always_connected (rqs : list admin_request)
    (w : world) (client_id t : pystr) :
  exists rs a w',
    serve_all py_repr rqs no_clients w = (Ret (rs, a), w')
    /\ length rs = length rqs
    /\ (is_Some (client_vpn_configs a !! client_id)
        <-> Exists (generates client_id) rqs)
    /\ (client_vpn_configs a !! client_id = None ->
        download_client_vpn_config py_repr client_id a = not_found
        /\ get_client_vpn_status client_id t a = (not_found, a))
    /\ (is_Some (client_vpn_configs a !! client_id) ->
        (exists body,
           download_client_vpn_config py_repr client_id a = Jsonify 200 body)
        /\ exists body items a',
             get_client_vpn_status client_id t a
             = (Jsonify 200 (JObj body), a')
             /\ dict_lookup (py "vpn_status") body = Some (JObj items)
             /\ dict_lookup (py "status") items
                = Some (JStr (py "connected"))
             /\ dict_lookup (py "connected") items = Some (JBool true)).
Proof.
  destruct (serve_all_wf rqs no_clients w admin_wf_no_clients)
    as (rs & a & w' & Hrun & Hlen & Hwf & Hdom).
  exists rs, a, w'. split; [done |]. split; [done |]. split; [| split].
  - rewrite Hdom. cbn. rewrite lookup_empty. split; [| by right].
    by intros [[? [=]] | ?].
  - intros Hnone.
    unfold download_client_vpn_config, get_client_vpn_status.
    by rewrite Hnone.
  - intros [config Hconfig].
    destruct (Hwf client_id config Hconfig) as (Hc & status & Hs & Hk).
    split; [by eapply download_complete |].
    destruct (status_known_client client_id t a config status Hconfig Hc Hs
                Hk) as (body & items & status' & Hst & Hv & _ & Hw & Hcn).
    by eexists body, items, _.
Qed.

End ClientVpnFacts.

(** *** Reading the status twice *)

(** X14.  The status view writes at most once per configuration.  The
    first read of a status that says [configured] stores [connected] with
    the time of that read as [last_handshake]; a second read changes
    nothing and reports the same [vpn_status], so that [last_handshake]
    stays the time of the first read while [last_updated] is the time of
    the second. *)
Theorem X14_status_read_writes_once (client_id t1 t2 : pystr) (a : admin) :
  let first := get_client_vpn_status client_id t1 a in
  let second := get_client_vpn_status client_id t2 first.2 in
  second.2 = first.2
  /\ (forall body1, first.1 = Jsonify 200 (JObj body1) ->
        exists body2,
          second.1 = Jsonify 200 (JObj body2)
          /\ dict_lookup (py "vpn_status") body2
             = dict_lookup (py "vpn_status") body1
          /\ dict_lookup (py "last_updated") body2 = Some (JStr t2))
  /\ (forall items,
        is_Some (client_vpn_configs a !! client_id) ->
        client_vpn_status a !! client_id = Some (JObj items) ->
        dict_lookup (py "status") items = Some (JStr (py "configured")) ->
        exists items',
          client_vpn_status second.2 !! client_id = Some (JObj items')
          /\ dict_lookup (py "last_handshake") items' = Some (JStr t1)).
Proof.
  intros first second. subst second.
  destruct (client_vpn_configs a !! client_id) as [config|] eqn:Hconfig.
  2: { assert (Hf : first = (not_found, a)).
       { subst first. unfold get_client_vpn_status. by rewrite Hconfig. }
       rewrite Hf. cbn [fst snd]. unfold get_client_vpn_status.
       rewrite Hconfig. split; [done |]. split; [done |].
       by intros items [? [=]]. }
  destruct (default disconnected_status (client_vpn_status a !! client_id))
    as [| | | | |items] eqn:Hstatus.
  1-5: assert (Hf : first = (Error500, a))
         by (subst first; unfold get_client_vpn_status;
             by rewrite Hconfig, Hstatus);
       rewrite Hf; cbn [fst snd]; unfold get_client_vpn_status;
       rewrite Hconfig, Hstatus; (split; [done |]); (split; [done |]);
       intros items _ Hs; rewrite Hs in Hstatus; discriminate.
  destruct (dict_lookup (py "status") items) as [state|] eqn:Hstate.
  2: { assert (Hf : first = (Error500, a)).
       { subst first. unfold get_client_vpn_status.
         rewrite Hconfig, Hstatus. cbn [py_item]. by rewrite Hstate. }
       rewrite Hf. cbn [fst snd]. unfold get_client_vpn_status.
       rewrite Hconfig, Hstatus. cbn [py_item]. rewrite Hstate.
       split; [done |]. split; [done |].
       intros items0 _ Hs Hc. rewrite Hs in Hstatus.
       cbn in Hstatus. congruence. }
  destruct (connected_status_word items t1) as (Hw & Hcn & Hlh).
  destruct (is_str state "configured") eqn:Hconf.
  - set (items' := dict_update items (connected_status t1)) in *.
    set (a1 := {| client_vpn_configs := client_vpn_configs a;
                  client_vpn_status :=
                    <[client_id := JObj items']> (client_vpn_status a) |}).
    assert (Hf : exists r, first = (r, a1)
              /\ forall body1, r = Jsonify 200 (JObj body1) ->
                   exists body2,
                     (get_client_vpn_status client_id t2 a1).1
                     = Jsonify 200 (JObj body2)
                     /\ dict_lookup (py "vpn_status") body2
                        = dict_lookup (py "vpn_status") body1
                     /\ dict_lookup (py "last_updated") body2
                        = Some (JStr t2)).
    { subst first. unfold get_client_vpn_status.
      cbn [client_vpn_configs client_vpn_status a1].
      rewrite Hconfig, Hstatus, lookup_insert_eq.
      cbn [default from_option id py_item]. rewrite Hstate, Hconf.
      fold items'. rewrite Hw. cbn [is_str].
      rewrite bool_decide_false by keys_differ.
      eexists. split; [reflexivity |]. intros body1.
      destruct (py_item config "peer") as [peer|];
        cbn [mbind option_bind default from_option id]; [| done].
      destruct (py_item peer "Endpoint") as [endpoint|];
        cbn [mbind option_bind default from_option id]; [| done].
      destruct (py_item config "quantum_protection") as [qp|];
        cbn [mbind option_bind default from_option id]; [| done].
      intros [= <-]. by eexists. }
    destruct Hf as (r & -> & Hr). cbn [fst snd].
    assert (Hsecond : (get_client_vpn_status client_id t2 a1).2 = a1).
    { unfold get_client_vpn_status.
      cbn [client_vpn_configs client_vpn_status a1].
      rewrite Hconfig, lookup_insert_eq.
      cbn [default from_option id py_item]. rewrite Hw. cbn [is_str].
      by rewrite bool_decide_false by keys_differ. }
    split; [done |]. split; [done |].
    intros items0 _ _ _. rewrite Hsecond. cbn [client_vpn_status a1].
    rewrite lookup_insert_eq. by exists items'.
  - assert (Hany : forall t,
              get_client_vpn_status client_id t a
              = (default Error500
                   (peer ← py_item config "peer";
                    endpoint ← py_item peer "Endpoint";
                    quantum_protection ← py_item config "quantum_protection";
                    Some (Jsonify 200 (JObj [
                      (py "client_id", JStr client_id);
                      (py "vpn_status", JObj items);
                      (py "endpoint", endpoint);
                      (py "quantum_protection", quantum_protection);
                      (py "last_updated", JStr t)]))), a)).
    { intros t. unfold get_client_vpn_status. rewrite Hconfig, Hstatus.
      cbn [py_item]. by rewrite Hstate, Hconf. }
    subst first. rewrite (Hany t1). cbn [fst snd]. rewrite (Hany t2).
    cbn [fst snd]. split; [done |]. split.
    + intros body1.
      destruct (py_item config "peer") as [peer|];
        cbn [mbind option_bind default from_option id]; [| done].
      destruct (py_item peer "Endpoint") as [endpoint|];
        cbn [mbind option_bind default from_option id]; [| done].
      destruct (py_item config "quantum_protection") as [qp|];
        cbn [mbind option_bind default from_option id]; [| done].
      intros [= <-]. by eexists.
    + intros items0 _ Hs Hc. rewrite Hs in Hstatus. cbn in Hstatus.
      injection Hstatus as ->. rewrite Hstate in Hc. injection Hc as ->.
      cbn [is_str] in Hconf. by rewrite bool_decide_true in Hconf.
Qed.

Section ClientVpnFiles.
Context {L : Lib}.
Variable py_repr : json -> pystr.

(** X15.  What is generated is what is downloaded.  A generate request
    with a JSON object as body is answered with 201; it draws the two keys
    from os.urandom (64 bytes with liboqs, 32 without), and a download for
    the same client then answers 200 with a file that holds those keys in
    base64, the address numbered by the count of configurations, the
    endpoint named after the client id without [client_], the requested
    protection level and the time of generation.  The [client_network] of
    the request appears nowhere, and the downloads of the other clients
    are what they were. *)
Theorem X15_download_returns_what_was_generated (client_id : pystr)
    (kv : list (pystr * json)) (utcnow : pystr) (a : admin) (w : world) :
  let pos := urandom_pos w in
  let keys :=
    if QUANTUM_AVAILABLE
    then (b64encode (os_entropy <$> seq pos 32),
          b64encode (os_entropy <$> seq (pos + 32) 32))
    else (b64encode (pyb "fallback_client_key_"
                     ++ (os_entropy <$> seq pos 16)),
          b64encode (pyb "fallback_server_key_"
                     ++ (os_entropy <$> seq (pos + 16) 16))) in
  let endpoint :=
    str_replace client_id (py "client_") []
    ++ py ".vpn.kybershield.ai:51820" in
  exists body a' w' file,
    generate_client_vpn_config client_id (Some (JObj kv)) utcnow a w
    = (Ret (Jsonify 201 (JObj body), a'), w')
    /\ dict_lookup (py "vpn_endpoint") body = Some (JStr endpoint)
    /\ urandom_pos w'
       = (pos + if QUANTUM_AVAILABLE then 64 else 32)%nat
    /\ download_client_vpn_config py_repr client_id a'
       = Jsonify 200 (JObj file)
    /\ dict_lookup (py "config_file") file
       = Some (JStr (vpn_config_file py_repr
                       (JStr keys.1)
                       (tunnel_address
                          (Z.of_nat (size (client_vpn_configs a)) + 1))
                       (JStr (py "1.1.1.1, 8.8.8.8"))
                       (JStr keys.2) (JStr endpoint)
                       (JStr (py "0.0.0.0/0")) (JNum 25)
                       (JStr (if QUANTUM_AVAILABLE then py "ML-KEM-768"
                              else py "fallback"))
                       (default (JStr (py "standard"))
                          (dict_lookup (py "protection_level") kv))
                       (JStr utcnow)))
    /\ dict_lookup (py "filename") file
       = Some (JStr (client_id ++ py "_kybershield_vpn.conf"))
    /\ forall other, other <> client_id ->
         download_client_vpn_config py_repr other a'
         = download_client_vpn_config py_repr other a.
Proof.
  intros pos keys endpoint. subst pos keys endpoint.
  unfold generate_client_vpn_config, try_except, bind, lift, py_get_default,
    ret.
  destruct QUANTUM_AVAILABLE; unfold os_urandom;
    (eexists _, _, _, _; split; [reflexivity |]);
    (split; [reflexivity |]); (split; [cbn; lia |]);
    (split; [unfold download_client_vpn_config;
             cbn [client_vpn_configs]; rewrite lookup_insert_eq;
             reflexivity |]);
    (split; [reflexivity |]); (split; [reflexivity |]);
    intros other Hother; unfold download_client_vpn_config;
    cbn [client_vpn_configs]; by rewrite lookup_insert_ne.
Qed.

End ClientVpnFiles.

(** *** Tunnel addresses *)

Lemma py_inj (s1 s2 : string) : py s1 = py s2 -> s1 = s2.
Proof.
  revert s2. induction s1 as [|c1 s1 IH]; intros [|c2 s2]; try done.
  unfold py; fold py. intros [= Hc Hs]. f_equal; [| by apply IH].
  by rewrite <- (Ascii.ascii_N_embedding c1), Hc, Ascii.ascii_N_embedding.
Qed.

Lemma tunnel_address_inj (n m : Z) :
  tunnel_address n = tunnel_address m -> n = m.
Proof.
  unfold tunnel_address, str_of_int. intros [= H].
  apply app_inv_tail, py_inj in H.
  by apply (inj pretty) in H.
Qed.

Section ClientVpnAddresses.
Context {L : Lib}.
Variable py_repr : json -> pystr.

Lemma addresses_distinct_generate (client_id : pystr)
    (kv : list (pystr * json)) (utcnow : pystr) (a : admin) (w : world) :
  addresses_distinct a ->
  client_vpn_configs a !! client_id = None ->
  exists r a' w',
    generate_client_vpn_config client_id (Some (JObj kv)) utcnow a w
    = (Ret (r, a'), w')
    /\ addresses_distinct a'
    /\ forall id, id <> client_id ->
         client_vpn_configs a' !! id = client_vpn_configs a !! id.
Proof.
  intros [Hnum Hdist] Hfresh.
  destruct (generate_object client_id kv utcnow a w)
    as (body & config & status & w' & -> & _ & Haddr & _).
  eexists _, _, _. split; [reflexivity |]. cbn [client_vpn_configs].
  assert (Hsize : size (<[client_id := config]> (client_vpn_configs a))
                  = S (size (client_vpn_configs a)))
    by by apply map_size_insert_None.
  assert (Hnew : address_of config
                 = Some (tunnel_address
                           (Z.of_nat (S (size (client_vpn_configs a)))))).
  { rewrite Haddr. do 2 f_equal. lia. }
  assert (Hold : forall id c n,
            client_vpn_configs a !! id = Some c ->
            address_of c = Some (tunnel_address (Z.of_nat n)) ->
            (n <= size (client_vpn_configs a))%nat ->
            address_of config <> address_of c).
  { intros id c n _ Hc Hn. rewrite Hnew, Hc. intros H.
    apply (inj Some), tunnel_address_inj in H. lia. }
  split; [split |]; cbn [client_vpn_configs].
  - intros id c. rewrite Hsize.
    destruct (decide (id = client_id)) as [-> | Hne].
    + rewrite lookup_insert_eq. intros [= <-]. eexists. by split.
    + rewrite lookup_insert_ne by done. intros Hc.
      destruct (Hnum id c Hc) as (n & Hn & Hc'). exists n. split; [lia | done].
  - intros id1 id2 c1 c2 Hne.
    destruct (decide (id1 = client_id)) as [-> | Hne1];
      destruct (decide (id2 = client_id)) as [-> | Hne2]; [done | | |].
    + rewrite lookup_insert_eq, lookup_insert_ne by done.
      intros [= <-] Hc2. destruct (Hnum id2 c2 Hc2) as (n & Hn & Hc').
      by eapply Hold.
    + rewrite lookup_insert_eq, lookup_insert_ne by done.
      intros Hc1 [= <-]. destruct (Hnum id1 c1 Hc1) as (n & Hn & Hc').
      apply not_eq_sym. by eapply Hold.
    + rewrite !lookup_insert_ne by done. by apply Hdist.
  - intros id Hne. by rewrite lookup_insert_ne.
Qed.

Lemma serve_keeps_configs (rq : admin_request) (a : admin) (w : world) :
  generated_id rq = None ->
  exists r a' w',
    serve py_repr rq a w = (Ret (r, a'), w')
    /\ client_vpn_configs a' = client_vpn_configs a.
Proof.
  destruct rq as [cid body t | cid | cid t]; cbn [serve]; intros Hgen.
  - rewrite generate_no_object; [by eexists _, _, _ |].
    intros kv ->. discriminate.
  - by eexists _, _, _.
  - unfold ret. destruct (get_client_vpn_status cid t a) as [r a'] eqn:Hst.
    exists r, a', w. split; [done |].
    change a' with (r, a').2. rewrite <- Hst.
    unfold get_client_vpn_status.
    destruct (client_vpn_configs a !! cid); [| done].
    destruct (default _ _) as [| | | | |items]; try done.
    destruct (py_item _ _); [| done]. cbn [snd].
    by destruct (is_str _ _).
Qed.

Lemma serve_all_addresses (rqs : list admin_request) (a : admin)
    (w : world) :
  addresses_distinct a ->
  NoDup (omap generated_id rqs) ->
  (forall id, id ∈ omap generated_id rqs ->
              client_vpn_configs a !! id = None) ->
  exists rs a' w',
    serve_all py_repr rqs a w = (Ret (rs, a'), w')
    /\ addresses_distinct a'.
Proof.
  revert a w. induction rqs as [|rq rqs IH]; intros a w Hinv Hnd Hfresh.
  { by exists [], a, w. }
  assert (Hstep : exists r a1 w1,
            serve py_repr rq a w = (Ret (r, a1), w1)
            /\ addresses_distinct a1
            /\ NoDup (omap generated_id rqs)
            /\ forall id, id ∈ omap generated_id rqs ->
                          client_vpn_configs a1 !! id = None).
  { cbn [omap list_omap] in Hnd, Hfresh.
    destruct (generated_id rq) as [cid|] eqn:Hgen.
    - apply NoDup_cons in Hnd as [Hcid Hnd].
      destruct rq as [cid' [[| | | | |kv]|] t | |]; try discriminate.
      injection Hgen as ->. cbn [serve].
      destruct (addresses_distinct_generate cid kv t a w Hinv)
        as (r & a1 & w1 & Hrun & Hinv1 & Hsame).
      { apply Hfresh. by left. }
      exists r, a1, w1. split; [done |]. split; [done |]. split; [done |].
      intros id Hid. rewrite Hsame.
      + apply Hfresh. by right.
      + by intros ->.
    - destruct (serve_keeps_configs rq a w Hgen)
        as (r & a1 & w1 & Hrun & Hsame).
      exists r, a1, w1. split; [done |].
      split; [| split; [done |]].
      + unfold addresses_distinct. by rewrite Hsame.
      + intros id Hid. rewrite Hsame. by apply Hfresh. }
  destruct Hstep as (r & a1 & w1 & Hserve & Hinv1 & Hnd1 & Hfresh1).
  destruct (IH a1 w1 Hinv1 Hnd1 Hfresh1) as (rs & a' & w' & Hrest & Hinv').
  exists (r :: rs), a', w'. split; [| done].
  cbn [serve_all]. unfold bind at 1. rewrite Hserve. cbn [snd fst].
  unfold bind at 1. by rewrite Hrest.
Qed.

(** X16.  As long as no client is generated a second time, no two clients
    share a tunnel address: after any requests among which every client
    id has at most one generate with a JSON object as body, served one
    after the other since the process started, every configuration has an
    address, and the addresses of two different clients differ. *)
Theorem X16_clients_generated_once_have_distinct_addresses
    (rqs : list admin_request) (w : world) :
  NoDup (omap generated_id rqs) ->
  exists rs a w',
    serve_all py_repr rqs no_clients w = (Ret (rs, a), w')
    /\ (forall client_id config,
          client_vpn_configs a !! client_id = Some config ->
          is_Some (address_of config))
    /\ forall id1 id2 config1 config2,
         id1 <> id2 ->
         client_vpn_configs a !! id1 = Some config1 ->
         client_vpn_configs a !! id2 = Some config2 ->
         address_of config1 <> address_of config2.
Proof.
  intros Hnd.
  destruct (serve_all_addresses rqs no_clients w)
    as (rs & a & w' & Hrun & Hnum & Hdist).
  - split.
    + intros id c Hc. cbn in Hc. by rewrite lookup_empty in Hc.
    + intros id1 id2 c1 c2 _ Hc. cbn in Hc. by rewrite lookup_empty in Hc.
  - done.
  - intros id _. cbn. apply lookup_empty.
  - exists rs, a, w'. split; [done |]. split; [| done].
    intros id c Hc. destruct (Hnum id c Hc) as (n & _ & ->). by eexists.
Qed.

End ClientVpnAddresses.

Lemma X16_distinct_addresses_witness :
  exists rs a w',
    serve_all (L := Demo.lib true) Clients.py_repr Clients.session no_clients
      Peers.started = (Ret (rs, a), w')
    /\ (forall client_id config,
          client_vpn_configs a !! client_id = Some config ->
          is_Some (address_of config))
    /\ forall id1 id2 config1 config2,
         id1 <> id2 ->
         client_vpn_configs a !! id1 = Some config1 ->
         client_vpn_configs a !! id2 = Some config2 ->
         address_of config1 <> address_of config2.
Proof.
  refine (X16_clients_generated_once_have_distinct_addresses
            (L := Demo.lib true) Clients.py_repr Clients.session
            Peers.started _).
  apply (bool_decide_unpack _). vm_compute. exact I.
Defined.
